(** * gofilepyfs: path resolution and content caching over a Gofile account

    A shallow embedding of [gofilepyfs/__init__.py], [decorators.py] and
    [exceptions.py].  Python objects that are mutated in place (content
    nodes, path-info objects) live in an explicit [World]; calls that may
    raise run in a small state-and-exception monad [M].  The remote
    collaborator ([gofilepy]), the clock and the iteration order of sets
    are given by an environment [Env].  [GofilePath.open], which only
    wraps the stream of [__open_reader__] in a text decoder, and
    [__repr__] are left out. *)

From Stdlib Require Import ZArith Lia Bool Ascii String List Permutation Sorting.Sorted.
From stdpp Require Import base option list gmap strings sorting.
From Equations Require Import Equations.
Import ListNotations.

Local Open Scope string_scope.
Local Open Scope Z_scope.

(** ** Python [str] methods used by the code

    Strings are [string] (sequences of 8-bit characters); the separator of
    every call in the source is the one-character [posixpath.sep]. *)

Module PyStr.

(** [s.startswith(c)] for a one-character [c]. *)
Definition startswith (c : ascii) (s : string) : bool :=
  match s with
  | String a _ => Ascii.eqb a c
  | EmptyString => false
  end.

(** [s.endswith(c)] for a one-character [c]. *)
Fixpoint endswith (c : ascii) (s : string) : bool :=
  match s with
  | EmptyString => false
  | String a EmptyString => Ascii.eqb a c
  | String _ s' => endswith c s'
  end.

(** [s.split(c)]: the pieces between occurrences of [c]; never empty. *)
Fixpoint split (c : ascii) (s : string) : list string :=
  match s with
  | EmptyString => [EmptyString]
  | String a s' =>
      if Ascii.eqb a c then EmptyString :: split c s'
      else match split c s' with
           | w :: ws => String a w :: ws
           | [] => [String a EmptyString]
           end
  end.

(** [sep.join(l)]. *)
Fixpoint join (sep : string) (l : list string) : string :=
  match l with
  | [] => EmptyString
  | [x] => x
  | x :: l' => x ++ sep ++ join sep l'
  end.

(** [s.partition(c)]: head, separator found (or empty), tail. *)
Fixpoint partition (c : ascii) (s : string) : string * string * string :=
  match s with
  | EmptyString => (EmptyString, EmptyString, EmptyString)
  | String a s' =>
      if Ascii.eqb a c then (EmptyString, String c EmptyString, s')
      else let '(h, m, t) := partition c s' in (String a h, m, t)
  end.

(** Truthiness of a string: [not s] is [is_empty s]. *)
Definition is_empty (s : string) : bool :=
  match s with EmptyString => true | _ => false end.

End PyStr.

(** ** [posixpath]: the parser of [GofilePath]

    The functions of the Python standard library that the source calls,
    as CPython 3.12 defines them on [str]. *)

Module posixpath.

Definition sepc : ascii := "/"%char.
Definition sep : string := "/".
Definition curdir : string := ".".
Definition pardir : string := "..".

Definition isabs (s : string) : bool := PyStr.startswith sepc s.

(** One step of the loop of [join]. *)
Definition join_step (path b : string) : string :=
  if PyStr.startswith sepc b then b
  else if PyStr.is_empty path || PyStr.endswith sepc path then path ++ b
  else path ++ sep ++ b.

Definition join (a : string) (p : list string) : string :=
  fold_left join_step p a.

(** [splitroot(p)]: drive (always empty), root, tail. *)
Definition splitroot (p : string) : string * string * string :=
  match p with
  | String a p1 =>
      if Ascii.eqb a sepc then
        match p1 with
        | String b p2 =>
            if Ascii.eqb b sepc then
              match p2 with
              | String c _ =>
                  if Ascii.eqb c sepc then (EmptyString, sep, p1)
                  else (EmptyString, sep ++ sep, p2)
              | EmptyString => (EmptyString, sep ++ sep, p2)
              end
            else (EmptyString, sep, p1)
        | EmptyString => (EmptyString, sep, p1)
        end
      else (EmptyString, EmptyString, p)
  | EmptyString => (EmptyString, EmptyString, p)
  end.

(** One iteration of the component loop of [normpath]; [new_comps] grows
    at its end. *)
Definition normpath_step (initial_slashes : string) (new_comps : list string)
    (comp : string) : list string :=
  if String.eqb comp EmptyString || String.eqb comp curdir then new_comps
  else if negb (String.eqb comp pardir)
          || (PyStr.is_empty initial_slashes && bool_decide (new_comps = []))
          || (match last new_comps with
              | Some c => String.eqb c pardir
              | None => false
              end)
       then new_comps ++ [comp]
       else removelast new_comps.

Definition normpath (path : string) : string :=
  if PyStr.is_empty path then curdir
  else
    let '(_, initial_slashes, rest) := splitroot path in
    let comps := fold_left (normpath_step initial_slashes) (PyStr.split sepc rest) [] in
    let res := initial_slashes ++ PyStr.join sep comps in
    if PyStr.is_empty res then curdir else res.

End posixpath.

(** ** Content nodes, exceptions and the world

    [gofilepy] gives a content object a class ([GofileFile] or
    [GofileFolder], fixed for its lifetime) and attributes that
    [reload()] overwrites in place.  A content object is a reference;
    its attributes are read in the [Store]. *)

Inductive GofileContent : Type :=
| GofileFile (content_id : nat)
| GofileFolder (content_id : nat).

#[global] Instance GofileContent_eq_dec : EqDecision GofileContent.
Proof. solve_decision. Defined.

#[global] Instance GofileContent_countable : Countable GofileContent :=
  inj_countable'
    (fun c => match c with GofileFile i => inl i | GofileFolder i => inr i end)
    (fun s => match s with inl i => GofileFile i | inr i => GofileFolder i end)
    (fun c => match c with GofileFile _ => eq_refl | GofileFolder _ => eq_refl end).

(** [ch.is_file_type]: set by the class of the object. *)
Definition is_file_type (c : GofileContent) : bool :=
  match c with GofileFile _ => true | GofileFolder _ => false end.

(** [isinstance(c, GofileFolder)] and [isinstance(c, GofileFile)] on a
    value that may be [None]. *)
Definition isinstance_GofileFolder (c : option GofileContent) : bool :=
  match c with Some (GofileFolder _) => true | _ => false end.

Definition isinstance_GofileFile (c : option GofileContent) : bool :=
  match c with Some (GofileFile _) => true | _ => false end.

(** The attributes owned by the remote collaborator. [children] is read
    on folders only. *)
Record Store : Type := {
  name : GofileContent -> string;
  time_created : GofileContent -> Z;
  children : GofileContent -> list GofileContent
}.

(** [GofileFSClient]: the handle on the account; its [_root_folder]. *)
Record GofileFSClient : Type := { _root_folder : GofileContent }.

(** [GofilePath]: the segments given to the constructor, the client and
    the memo [_vfspath] of the normalized string. *)
Record GofilePath : Type := {
  _segments : list string;
  fs_client : option GofileFSClient;
  _vfspath : option string
}.

(** [exceptions.py]: a [PathError] keeps [msg] and [path]; the three
    subclasses fix the message. *)
Inductive PathErrorClass : Type :=
| PathNotFound | PathNotADirectory | PathNotAFile.

Inductive exn : Type :=
| GofileAPIContentNotFoundError
| CollaboratorError (what : string)
| PathError (cls : PathErrorClass) (msg : string) (path : GofilePath)
| ValueError (msg : string)
| AttributeError
| TypeError
| IndexError
| NotImplementedError.

Definition PathNotFoundError (path : GofilePath) : exn :=
  PathError PathNotFound "No such path" path.

Definition PathNotADirectoryError (path : GofilePath) : exn :=
  PathError PathNotADirectory "Not a directory" path.

Definition PathNotAFileError (path : GofilePath) : exn :=
  PathError PathNotAFile "Not a file" path.

(** The attributes [path] and [msg] of a [PathError]. *)
Definition exn_path (e : exn) : option GofilePath :=
  match e with PathError _ _ path => Some path | _ => None end.

Definition exn_msg (e : exn) : option string :=
  match e with PathError _ msg _ => Some msg | _ => None end.

(** [except GofileAPIContentNotFoundError]. *)
Definition is_content_not_found (e : exn) : bool :=
  match e with GofileAPIContentNotFoundError => true | _ => false end.

(** A [GofilePathInfo] object: mutable [content], and the client. *)
Record GofilePathInfoObj : Type := {
  content : option GofileContent;
  info_fs_client : option GofileFSClient
}.

(** What the code can read and change.
    - [store]: attributes of content objects;
    - [when_updated]: the [_when_updated] attribute, where it is set;
    - [clock_reads]: how many times [datetime.now()] was read;
    - [reload_calls]: the calls [content.reload()] made so far, in order;
    - [infos]: the [GofilePathInfo] objects allocated, by reference;
    - [root_infos]: the [root_info] attribute of a root folder. *)
Record World : Type := {
  store : Store;
  when_updated : gmap GofileContent Z;
  clock_reads : nat;
  reload_calls : list GofileContent;
  infos : list GofilePathInfoObj;
  root_infos : gmap GofileContent nat
}.

(** The stream object that [download_io()] returns, opaque here. *)
Inductive DownloadIO : Type := download_stream (c : GofileContent).

(** What the code does not decide.
    - [now_at n]: the [n]-th reading of [datetime.now()], in microseconds;
    - [reload_at n s c]: the [n]-th call of [reload()], on [c] with
      attributes [s]: new attributes, or the exception raised (the
      attributes then stay as they were);
    - [set_iter l]: the order in which [set(l)] is iterated;
    - [download_io_of]: the collaborator's [download_io()]. *)
Record Env : Type := {
  now_at : nat -> Z;
  reload_at : nat -> Store -> GofileContent -> Store + exn;
  set_iter : list string -> list string;
  download_io_of : Store -> GofileContent -> DownloadIO + exn
}.

(** [set_iter] is an iteration of a set: each element once. *)
Definition set_iter_ok (f : list string -> list string) : Prop :=
  forall l, NoDup (f l) /\ forall x, In x (f l) <-> In x l.

(** ** The monad of the embedding: state and exceptions *)

Inductive Result (A : Type) : Type :=
| Ok (a : A) (w : World)
| Raise (e : exn) (w : World).
Arguments Ok {A} a w.
Arguments Raise {A} e w.

Definition M (A : Type) : Type := World -> Result A.

Definition ret {A} (a : A) : M A := fun w => Ok a w.

Definition raise {A} (e : exn) : M A := fun w => Raise e w.

Definition bind {A B} (m : M A) (k : A -> M B) : M B :=
  fun w => match m w with
           | Ok a w' => k a w'
           | Raise e w' => Raise e w'
           end.

Notation "x <- m ;; k" := (bind m (fun x => k))
  (at level 100, m at next level, right associativity).
Notation "m ;;; k" := (bind m (fun _ => k))
  (at level 100, right associativity).

(** [try: body  except <handled>: handler]. *)
Definition try_except {A} (body : M A) (handled : exn -> bool) (handler : M A) : M A :=
  fun w => match body w with
           | Ok a w' => Ok a w'
           | Raise e w' => if handled e then handler w' else Raise e w'
           end.

Definition world_of {A} (r : Result A) : World :=
  match r with Ok _ w => w | Raise _ w => w end.

Definition value_of {A} (r : Result A) : option A :=
  match r with Ok a _ => Some a | Raise _ _ => None end.

Definition raised {A} (r : Result A) : option exn :=
  match r with Ok _ _ => None | Raise e _ => Some e end.

Definition get_store : M Store := fun w => Ok (store w) w.

(** ** Python [sorted] and [list.sort]: a stable sort by key *)

Fixpoint insert_by {A} (le : A -> A -> bool) (x : A) (l : list A) : list A :=
  match l with
  | [] => [x]
  | y :: l' => if le x y then x :: l else y :: insert_by le x l'
  end.

Definition sorted {A} (le : A -> A -> bool) (l : list A) : list A :=
  foldr (insert_by le) [] l.

(** Order of the key tuples: [False < True], strings by character code,
    integers. *)
Definition key2_le (k1 k2 : bool * string) : bool :=
  match Bool.compare (fst k1) (fst k2) with
  | Lt => true
  | Gt => false
  | Eq => String.leb (snd k1) (snd k2)
  end.

Definition key3_le (k1 k2 : bool * string * Z) : bool :=
  match Bool.compare (fst (fst k1)) (fst (fst k2)) with
  | Lt => true
  | Gt => false
  | Eq => match String.compare (snd (fst k1)) (snd (fst k2)) with
          | Lt => true
          | Gt => false
          | Eq => snd k1 <=? snd k2
          end
  end.

(** ** World updates *)

Definition with_store (s : Store) (w : World) : World :=
  {| store := s; when_updated := when_updated w; clock_reads := clock_reads w;
     reload_calls := reload_calls w; infos := infos w; root_infos := root_infos w |}.

Definition with_when_updated (m : gmap GofileContent Z) (w : World) : World :=
  {| store := store w; when_updated := m; clock_reads := clock_reads w;
     reload_calls := reload_calls w; infos := infos w; root_infos := root_infos w |}.

Definition with_clock_reads (n : nat) (w : World) : World :=
  {| store := store w; when_updated := when_updated w; clock_reads := n;
     reload_calls := reload_calls w; infos := infos w; root_infos := root_infos w |}.

Definition with_reload_calls (l : list GofileContent) (w : World) : World :=
  {| store := store w; when_updated := when_updated w; clock_reads := clock_reads w;
     reload_calls := l; infos := infos w; root_infos := root_infos w |}.

Definition with_infos (l : list GofilePathInfoObj) (w : World) : World :=
  {| store := store w; when_updated := when_updated w; clock_reads := clock_reads w;
     reload_calls := reload_calls w; infos := l; root_infos := root_infos w |}.

Definition with_root_infos (m : gmap GofileContent nat) (w : World) : World :=
  {| store := store w; when_updated := when_updated w; clock_reads := clock_reads w;
     reload_calls := reload_calls w; infos := infos w; root_infos := m |}.

(** ** [decorators.py] *)

(** A default of [with_defaults]: evaluated with the object when it is
    callable. *)
Inductive default_value (Obj V : Type) : Type :=
| callable (f : Obj -> V)
| constant (v : V).
Arguments callable {Obj V} f.
Arguments constant {Obj V} v.

(** Keyword arguments whose values are a content object or [None]. *)
Abbreviation kwargs := (gmap string (option GofileContent)).

(** The decorator that [with_defaults] returns for the defaults
    [default_kwargs], applied to [func]. *)
Definition with_defaults {Obj A : Type}
    (default_kwargs : list (string * default_value Obj (option GofileContent)))
    (func : Obj -> kwargs -> A) (obj : Obj) (kw : kwargs) : A :=
  func obj
    (fold_left
       (fun (kw : kwargs) (kd : string * default_value Obj (option GofileContent)) =>
          match kw !! fst kd with
          | Some (Some _) => kw
          | _ => <[fst kd := match snd kd with
                             | callable f => f obj
                             | constant v => v
                             end]> kw
          end)
       default_kwargs kw).

(** [compose_decorators]: the decorators are applied from the last to
    the first. *)
Definition compose_decorators {F : Type} (decorators : list (F -> F)) (func : F) : F :=
  fold_left (fun f dec => dec f) (rev decorators) func.

(** ** [GofileFSClient] *)

(** [_UPDATE_AFTER = timedelta(seconds=15)], in microseconds. *)
Definition _UPDATE_AFTER : Z := 15 * 1000000.

(** The sort keys of [_get_children] and of [get_children]. *)
Definition child_key3 (st : Store) (ch : GofileContent) : bool * string * Z :=
  (is_file_type ch, name st ch, time_created st ch).

Definition child_key2 (st : Store) (ch : GofileContent) : bool * string :=
  (is_file_type ch, name st ch).

Definition children_le (st : Store) (a b : GofileContent) : bool :=
  key3_le (child_key3 st a) (child_key3 st b).

Definition listing_le (st : Store) (a b : GofileContent) : bool :=
  key2_le (child_key2 st a) (child_key2 st b).

(** [[ch for ch in children if ch.name == nm]]. *)
Definition named (st : Store) (nm : string) (l : list GofileContent) : list GofileContent :=
  List.filter (fun ch => String.eqb (name st ch) nm) l.

Section Client.

Variable env : Env.

(** [dt.datetime.now()]. *)
Definition datetime_now : M Z :=
  fun w => Ok (now_at env (clock_reads w)) (with_clock_reads (S (clock_reads w)) w).

(** [content.reload()]: the call is recorded, then the collaborator
    answers. *)
Definition reload (c : GofileContent) : M unit :=
  fun w =>
    let w' := with_reload_calls (reload_calls w ++ [c]) w in
    match reload_at env (length (reload_calls w)) (store w) c with
    | inl s' => Ok tt (with_store s' w')
    | inr e => Raise e w'
    end.

(** [getattr(content, '_when_updated', None)]. *)
Definition getattr_when_updated (c : GofileContent) : M (option Z) :=
  fun w => Ok (when_updated w !! c) w.

(** [content._when_updated = t]. *)
Definition setattr_when_updated (c : GofileContent) (t : Z) : M unit :=
  fun w => Ok tt (with_when_updated (<[c := t]> (when_updated w)) w).

(** [GofileFSClient.ensure_updated(content)]. *)
Definition ensure_updated (c0 : option GofileContent) : M (option GofileContent) :=
  match c0 with
  | None => ret None
  | Some c =>
      wu <- getattr_when_updated c ;;
      stale <- match wu with
               | None => ret true
               | Some t => now <- datetime_now ;; ret (now >? t + _UPDATE_AFTER)
               end ;;
      if (stale : bool) then
        reloaded <- try_except (reload c ;;; ret true) is_content_not_found (ret false) ;;
        if (reloaded : bool) then
          now <- datetime_now ;;
          setattr_when_updated c now ;;;
          ret (Some c)
        else ret None
      else ret (Some c)
  end.

(** The decorator [_update_root]. *)
Definition _update_root {A} (method : GofileFSClient -> M A) (self : GofileFSClient) : M A :=
  ensure_updated (Some (_root_folder self)) ;;;
  method self.

(** The decorator [_update_folder]: the result of [ensure_updated] is
    not used. *)
Definition _update_folder {A} (method : GofileFSClient -> kwargs -> M A) :
    GofileFSClient -> kwargs -> M A :=
  with_defaults [("folder", callable (fun self => Some (_root_folder self)))]
    (fun self kw =>
       ensure_updated (default None (kw !! "folder")) ;;;
       method self kw).

(** The property [root_folder]. *)
Definition root_folder : GofileFSClient -> M GofileContent :=
  _update_root (fun self => ret (_root_folder self)).

(** The body of [_get_children]; [folder] defaults to [None], and only
    a folder has [children]. *)
Definition _get_children_body (self : GofileFSClient) (kw : kwargs) : M (list GofileContent) :=
  match default None (kw !! "folder") with
  | Some (GofileFolder i) =>
      st <- get_store ;;
      ret (sorted (children_le st) (children st (GofileFolder i)))
  | _ => raise AttributeError
  end.

Definition _get_children : GofileFSClient -> kwargs -> M (list GofileContent) :=
  _update_folder _get_children_body.

(** [get_content(folder, name)]. *)
Definition get_content (self : GofileFSClient) (folder : option GofileContent)
    (nm : string) : M (option GofileContent) :=
  chn <- _get_children self {["folder" := folder]} ;;
  st <- get_store ;;
  ret (last (named st nm chn)).

(** The loop of [get_children]: for each name, the last child of that
    name is appended. *)
Fixpoint append_last_named (st : Store) (chn : list GofileContent)
    (names : list string) (acc : list GofileContent) : M (list GofileContent) :=
  match names with
  | [] => ret acc
  | nm :: names' =>
      match last (named st nm chn) with
      | Some ch => append_last_named st chn names' (acc ++ [ch])
      | None => raise IndexError
      end
  end.

(** [get_children(folder)]. *)
Definition get_children (self : GofileFSClient) (folder : option GofileContent) :
    M (list GofileContent) :=
  chn <- _get_children self {["folder" := folder]} ;;
  st <- get_store ;;
  acc <- append_last_named st chn (set_iter env (map (name st) chn)) [] ;;
  ret (sorted (listing_le st) acc).

End Client.

(** ** Path-info objects: [MissingInfo] and [GofilePathInfo] *)

(** The result of a resolution: a [MissingInfo], or a reference to a
    [GofilePathInfo] object of the world. *)
Inductive PathInfo : Type :=
| MissingInfo
| GofilePathInfo (ref : nat).

Definition empty_info : GofilePathInfoObj :=
  {| content := None; info_fs_client := None |}.

(** The object behind a reference; references come from
    [GofilePathInfo_init], which appends to [infos]. *)
Definition info_obj (w : World) (r : nat) : GofilePathInfoObj :=
  default empty_info (infos w !! r).

Definition get_info (r : nat) : M GofilePathInfoObj :=
  fun w => Ok (info_obj w r) w.

(** [self.content = c]. *)
Definition set_content (r : nat) (c : option GofileContent) : M unit :=
  fun w =>
    Ok tt (with_infos
             (<[r := {| content := c; info_fs_client := info_fs_client (info_obj w r) |}]>
                (infos w)) w).

(** [GofilePathInfo(parser, content=content, fs_client=fs)]; the parser
    is always [posixpath]. *)
Definition GofilePathInfo_init (c : option GofileContent) (fs : option GofileFSClient) :
    M nat :=
  if bool_decide (c <> None) && bool_decide (fs = None)
  then raise (ValueError "fs_client is required when passing a content object")
  else fun w =>
         Ok (length (infos w))
            (with_infos (infos w ++ [{| content := c; info_fs_client := fs |}]) w).

(** The four queries of [MissingInfo]. *)
Definition MissingInfo_exists : M bool := ret false.
Definition MissingInfo_is_dir : M bool := ret false.
Definition MissingInfo_is_file : M bool := ret false.
Definition MissingInfo_is_symlink : M bool := ret false.

Definition inspect {A} (a : A) : {b : A | a = b} := exist _ a eq_refl.

(** [path in ('', '.')]. *)
Definition is_here (path : string) : bool :=
  String.eqb path "" || String.eqb path ".".

Section Info.

Variable env : Env.

(** The decorator [_update_content]. *)
Definition _update_content {A} (func : nat -> M A) (self : nat) : M A :=
  o <- get_info self ;;
  match info_fs_client o with
  | Some _ => c <- ensure_updated env (content o) ;; set_content self c
  | None => ret tt
  end ;;;
  func self.

Definition GofilePathInfo_exists : nat -> M bool :=
  _update_content (fun self => o <- get_info self ;; ret (bool_decide (content o <> None))).

Definition GofilePathInfo_is_dir : nat -> M bool :=
  _update_content (fun self => o <- get_info self ;; ret (isinstance_GofileFolder (content o))).

Definition GofilePathInfo_is_file : nat -> M bool :=
  _update_content (fun self => o <- get_info self ;; ret (isinstance_GofileFile (content o))).

Definition GofilePathInfo_is_symlink (self : nat) : M bool := ret false.

(** The part of [resolve] between [partition] and the recursive call:
    the info object to go on with, or [None]. *)
Definition resolve_step (self : nat) (nm : string) : M (option nat) :=
  if PyStr.is_empty nm then ret (Some self)
  else
    o <- get_info self ;;
    if isinstance_GofileFolder (content o) then
      match info_fs_client o with
      | Some fs =>
          c <- get_content env fs (content o) nm ;;
          match c with
          | Some c' =>
              r <- GofilePathInfo_init (Some c') (info_fs_client o) ;;
              ret (Some r)
          | None => ret None
          end
      | None => raise AttributeError
      end
    else ret None.

(** [GofilePathInfo.resolve(path)]; the world is threaded by hand so
    that the recursive call is a plain application. *)
Equations? resolve (self : nat) (path : string) (w : World) : Result PathInfo
  by wf (String.length path) lt :=
  resolve self path w with inspect (is_here path) := {
    | exist _ true _ => Ok (GofilePathInfo self) w
    | exist _ false Hne
        with resolve_step self (PyStr.partition posixpath.sepc path).1.1 w := {
        | Ok None w' => Ok MissingInfo w'
        | Ok (Some r) w' => resolve r (PyStr.partition posixpath.sepc path).2 w'
        | Raise e w' => Raise e w' } }.
Proof.
  destruct path as [|a path]; [discriminate Hne|].
  clear. revert a. induction path as [|b path IH]; intros a; simpl.
  - destruct (Ascii.eqb a posixpath.sepc); simpl; lia.
  - destruct (Ascii.eqb a posixpath.sepc); simpl; [lia|].
    specialize (IH b). simpl in IH.
    destruct (Ascii.eqb b posixpath.sepc); simpl in *; [lia|].
    destruct (PyStr.partition posixpath.sepc path) as [[h m] t]; simpl in *. lia.
Qed.

End Info.

(** ** [GofilePath] *)

(** The property [_joined_segments]. *)
Definition _joined_segments (p : GofilePath) : string :=
  match _segments p with
  | [] => ""
  | a :: rest => posixpath.join a rest
  end.

(** [x and x != '.'], the filter of [__vfspath__]. *)
Definition kept_component (x : string) : bool :=
  negb (PyStr.is_empty x) && negb (String.eqb x ".").

(** What [__vfspath__] computes when the memo is empty. *)
Definition vfspath_of_segments (p : GofilePath) : string :=
  let path := _joined_segments p in
  if PyStr.is_empty path then "."
  else
    let '(_, root, rel) := posixpath.splitroot path in
    let parsed :=
      root ++ PyStr.join posixpath.sep
                (List.filter kept_component (PyStr.split posixpath.sepc rel)) in
    if PyStr.is_empty parsed then "." else parsed.

(** [__vfspath__()]: the string, and the object with its memo filled. *)
Definition __vfspath__ (p : GofilePath) : string * GofilePath :=
  match _vfspath p with
  | Some s => (s, p)
  | None =>
      let s := vfspath_of_segments p in
      (s, {| _segments := _segments p; fs_client := fs_client p; _vfspath := Some s |})
  end.

(** [str(p)], that is [vfspath(p)]. *)
Definition str (p : GofilePath) : string := (__vfspath__ p).1.

(** [self._root_folder.root_info = r] *)
Definition set_root_info (root : GofileContent) (r : nat) : M unit :=
  fun w => Ok tt (with_root_infos (<[root := r]> (root_infos w)) w).

(** The constructor of [GofilePath]: the root folder of the account,
    which is the [_root_folder] of the client, gets its [root_info] the
    first time a path is built on the client. *)
Definition GofilePath_init (pathsegments : list string) (fs : option GofileFSClient) :
    M GofilePath :=
  match fs with
  | Some c =>
      fun w =>
        match root_infos w !! _root_folder c with
        | Some _ => Ok tt w
        | None =>
            (r <- GofilePathInfo_init (Some (_root_folder c)) (Some c) ;;
             set_root_info (_root_folder c) r) w
        end
  | None => ret tt
  end ;;;
  ret {| _segments := pathsegments; fs_client := fs; _vfspath := None |}.

Definition with_segments (self : GofilePath) (pathsegments : list string) : M GofilePath :=
  GofilePath_init pathsegments (fs_client self).

(** The string that [GofilePath.resolve] wraps. *)
Definition resolve_string (self : GofilePath) : string :=
  let res := posixpath.normpath (str self) in
  if posixpath.isabs res then res else posixpath.join posixpath.sep [res].

(** [GofilePath.resolve()]. *)
Definition GofilePath_resolve (self : GofilePath) : M GofilePath :=
  with_segments self [resolve_string self].

(** [readlink()]. *)
Definition readlink (self : GofilePath) : M GofilePath := raise NotImplementedError.

(** Method calls on a value that is a [MissingInfo] or a
    [GofilePathInfo]. *)
Section Paths.

Variable env : Env.

Definition PathInfo_exists (i : PathInfo) : M bool :=
  match i with
  | MissingInfo => MissingInfo_exists
  | GofilePathInfo r => GofilePathInfo_exists env r
  end.

Definition PathInfo_is_dir (i : PathInfo) : M bool :=
  match i with
  | MissingInfo => MissingInfo_is_dir
  | GofilePathInfo r => GofilePathInfo_is_dir env r
  end.

Definition PathInfo_is_file (i : PathInfo) : M bool :=
  match i with
  | MissingInfo => MissingInfo_is_file
  | GofilePathInfo r => GofilePathInfo_is_file env r
  end.

Definition PathInfo_is_symlink (i : PathInfo) : M bool :=
  match i with
  | MissingInfo => MissingInfo_is_symlink
  | GofilePathInfo r => GofilePathInfo_is_symlink r
  end.

(** [info.content]: a [MissingInfo] has no such attribute. *)
Definition PathInfo_content (i : PathInfo) : M (option GofileContent) :=
  match i with
  | MissingInfo => raise AttributeError
  | GofilePathInfo r => o <- get_info r ;; ret (content o)
  end.

(** The property [children_names] of [GofilePathInfo]. *)
Definition GofilePathInfo_children_names : nat -> M (option (list string)) :=
  _update_content env
    (fun self =>
       o <- get_info self ;;
       if isinstance_GofileFolder (content o) then
         match info_fs_client o with
         | Some fs =>
             l <- get_children env fs (content o) ;;
             st <- get_store ;;
             ret (Some (map (name st) l))
         | None => raise AttributeError
         end
       else ret None).

Definition PathInfo_children_names (i : PathInfo) : M (option (list string)) :=
  match i with
  | MissingInfo => raise AttributeError
  | GofilePathInfo r => GofilePathInfo_children_names r
  end.

(** The property [info]: [root_info] of the root folder is looked up,
    then the resolved string is walked from it. *)
Definition info (self : GofilePath) : M PathInfo :=
  match fs_client self with
  | None => raise AttributeError
  | Some c =>
      fun w =>
        match root_infos w !! _root_folder c with
        | None => Raise AttributeError w
        | Some r => (resolved <- GofilePath_resolve self ;; resolve env r (str resolved)) w
        end
  end.

(** [info.content.download_io()]. *)
Definition download_io (c : option GofileContent) : M DownloadIO :=
  match c with
  | None => raise AttributeError
  | Some c' =>
      fun w => match download_io_of env (store w) c' with
               | inl s => Ok s w
               | inr e => Raise e w
               end
  end.

(** [__open_reader__()]. *)
Definition __open_reader__ (self : GofilePath) : M DownloadIO :=
  i <- info self ;;
  ex <- PathInfo_exists i ;;
  if negb ex then raise (PathNotFoundError self)
  else
    c <- PathInfo_content i ;;
    if negb (isinstance_GofileFile c) then raise (PathNotAFileError self)
    else download_io c.

(** [self / nm], as the generator of [iterdir] builds it once
    [root_info] exists. *)
Definition truediv (self : GofilePath) (nm : string) : GofilePath :=
  {| _segments := [str self; nm]; fs_client := fs_client self; _vfspath := None |}.

(** [iterdir()]; the generator is given as the list of its items. *)
Definition iterdir (self : GofilePath) : M (list GofilePath) :=
  i <- info self ;;
  ex <- PathInfo_exists i ;;
  if negb ex then raise (PathNotFoundError self)
  else
    d <- PathInfo_is_dir i ;;
    if negb d then raise (PathNotADirectoryError self)
    else
      i' <- info self ;;
      names <- PathInfo_children_names i' ;;
      match names with
      | Some l => ret (map (truediv self) l)
      | None => raise TypeError
      end.

End Paths.

(** ** [GofilePath.open] *)

(** [c in s] and [s.replace(c, '')] for a one-character [c]. *)
Fixpoint contains_char (c : ascii) (s : string) : bool :=
  match s with
  | EmptyString => false
  | String a s' => Ascii.eqb a c || contains_char c s'
  end.

Fixpoint remove_char (c : ascii) (s : string) : string :=
  match s with
  | EmptyString => EmptyString
  | String a s' => if Ascii.eqb a c then remove_char c s' else String a (remove_char c s')
  end.

(** [text = 'b' not in mode]. *)
Definition is_text_mode (mode : string) : bool := negb (contains_char "b" mode).

(** The mode that [open] hands to [vfsopen]. *)
Definition binary_mode (mode : string) : string :=
  if is_text_mode mode then (remove_char "t" mode ++ "b")%string else mode.

(** What [open] returns: the binary file of [vfsopen], or an
    [io.TextIOWrapper] around it. *)
Inductive OpenedFile (F : Type) : Type :=
| binary_file (file : F)
| TextIOWrapper (file : F) (encoding : string) (errors newline : option string).
Arguments binary_file {F} file.
Arguments TextIOWrapper {F} file encoding errors newline.

Section Open.

(** The binary files of [pathlib_abc.vfsopen], their attribute
    [encoding], and [vfsopen] itself, called with the path, the mode,
    [buffering], [errors] and [newline]. *)
Variable F : Type.
Variable file_encoding : F -> string.
Variable vfsopen :
  GofilePath -> string -> Z -> option string -> option string -> M F.

(** [open(mode, buffering, encoding, errors, newline)]. *)
Definition GofilePath_open (self : GofilePath) (mode : string) (buffering : Z)
    (encoding errors newline : option string) : M (OpenedFile F) :=
  let text := is_text_mode mode in
  file <- vfsopen self (binary_mode mode) buffering errors newline ;;
  if text then
    ret (TextIOWrapper file (default (file_encoding file) encoding) errors newline)
  else ret (binary_file file).

End Open.

(** ** Concrete accounts, used to run the definitions *)

(** A root folder holding a folder [a] created at 2 and a file [a]
    created at 1, a file [b] and a folder [c]. *)
Definition ex_root : GofileContent := GofileFolder 0.

Definition ex_store : Store :=
  {| name := fun c =>
       match c with
       | GofileFolder 0 => "root"
       | GofileFolder 1 => "a"
       | GofileFile 2 => "a"
       | GofileFile 3 => "b"
       | GofileFolder 4 => "c"
       | _ => ""
       end;
     time_created := fun c =>
       match c with
       | GofileFolder 1 => 2
       | GofileFile 2 => 1
       | GofileFile 3 => 5
       | GofileFolder 4 => 7
       | _ => 0
       end;
     children := fun c =>
       match c with
       | GofileFolder 0 => [GofileFile 3; GofileFile 2; GofileFolder 4; GofileFolder 1]
       | _ => []
       end |}.

Definition ex_client : GofileFSClient := {| _root_folder := ex_root |}.

(** A collaborator whose [reload()] succeeds and changes nothing, a
    clock that reads 100 s, 101 s, ..., and a set iterated in the order
    of first insertion. *)
Definition ex_env : Env :=
  {| now_at := fun n => (100 + Z.of_nat n) * 1000000;
     reload_at := fun _ s _ => inl s;
     set_iter := remove_dups;
     download_io_of := fun _ c => inl (download_stream c) |}.

(** The same, with a set iterated in the opposite order. *)
Definition ex_env_rev : Env :=
  {| now_at := now_at ex_env;
     reload_at := reload_at ex_env;
     set_iter := fun l => rev (remove_dups l);
     download_io_of := download_io_of ex_env |}.

(** A collaborator for which every content has been deleted remotely. *)
Definition ex_env_gone : Env :=
  {| now_at := now_at ex_env;
     reload_at := fun _ _ _ => inr GofileAPIContentNotFoundError;
     set_iter := set_iter ex_env;
     download_io_of := download_io_of ex_env |}.

(** A collaborator that cannot be reached. *)
Definition ex_env_down : Env :=
  {| now_at := now_at ex_env;
     reload_at := fun _ _ _ => inr (CollaboratorError "connection refused");
     set_iter := set_iter ex_env;
     download_io_of := download_io_of ex_env |}.

(** Nothing refreshed yet, no path built yet. *)
Definition ex_world : World :=
  {| store := ex_store; when_updated := ∅; clock_reads := 0; reload_calls := [];
     infos := []; root_infos := ∅ |}.

(** The root folder refreshed at 95 s: fresh for the clock of [ex_env]. *)
Definition ex_world_fresh : World :=
  with_when_updated {[ ex_root := 95 * 1000000 ]} ex_world.

(** The root folder refreshed at 80 s: 20 s old at the first reading. *)
Definition ex_world_stale : World :=
  with_when_updated {[ ex_root := 80 * 1000000 ]} ex_world.

(** A path on [ex_client], as the constructor leaves it. *)
Definition ex_path (segs : list string) : GofilePath :=
  {| _segments := segs; fs_client := Some ex_client; _vfspath := None |}.

(** The world after a first path was built on [ex_client]. *)
Definition ex_world_ready : World :=
  world_of (GofilePath_init [] (Some ex_client) ex_world).

(** ** Notions used to state the properties *)

(** The test of [ensure_updated] on a content object: no
    [_when_updated] yet, or the clock is past it by more than
    [_UPDATE_AFTER]. *)
Definition needs_reload (env : Env) (w : World) (c : GofileContent) : bool :=
  match when_updated w !! c with
  | None => true
  | Some t => now_at env (clock_reads w) >? t + _UPDATE_AFTER
  end.

(** How many clock readings were made once that test is done: the
    clock is not read when there is no [_when_updated]. *)
Definition reads_after_test (w : World) (c : GofileContent) : nat :=
  match when_updated w !! c with
  | None => clock_reads w
  | Some _ => S (clock_reads w)
  end.

(** The answer of the collaborator to a [reload()] made in [w]. *)
Definition reload_answer (env : Env) (w : World) (c : GofileContent) : Store + exn :=
  reload_at env (length (reload_calls w)) (store w) c.

(** The child that the loop of [get_children] appends for a name that
    occurs among [chn]. *)
Definition pick (st : Store) (chn : list GofileContent) (nm : string) : GofileContent :=
  default (GofileFolder 0) (last (named st nm chn)).

(** The same collaborator and clock, with another iteration order of
    sets. *)
Definition with_set_iter (f : list string -> list string) (env : Env) : Env :=
  {| now_at := now_at env; reload_at := reload_at env; set_iter := f;
     download_io_of := download_io_of env |}.

(** A segment made of [.] components only: relative, and every piece
    between separators is empty or [.]. *)
Definition only_dots (seg : string) : Prop :=
  PyStr.startswith posixpath.sepc seg = false
  /\ Forall (fun c => c = "" \/ c = ".") (PyStr.split posixpath.sepc seg).

(** The memo of a path is empty, or holds what [__vfspath__] computes. *)
Definition memo_ok (p : GofilePath) : Prop :=
  _vfspath p = None \/ _vfspath p = Some (vfspath_of_segments p).

(** The order claimed for a listing: no file before a folder, and
    names strictly increasing within each kind. *)
Definition folders_first_by_name (st : Store) (l : list GofileContent) : Prop :=
  forall (i j : nat) (a b : GofileContent),
    l !! i = Some a -> l !! j = Some b -> (i < j)%nat ->
    (is_file_type a = true -> is_file_type b = true)
    /\ (is_file_type a = is_file_type b -> String.ltb (name st a) (name st b) = true).

(** No separator in a component. *)
Fixpoint nosep (s : string) : Prop :=
  match s with
  | EmptyString => True
  | String a s' => Ascii.eqb a posixpath.sepc = false /\ nosep s'
  end.

(** A component that [normpath] and [__vfspath__] keep as it is. *)
Definition plain (c : string) : Prop :=
  nosep c /\ c <> "" /\ c <> "." /\ c <> "..".

(** A normalized absolute path: a root and plain components. *)
Definition canonical (s : string) : Prop :=
  exists root comps,
    (root = "/" \/ root = "//") /\ Forall plain comps
    /\ s = (root ++ PyStr.join posixpath.sep comps)%string.

(** The one-segment path of a normalized absolute string. *)
Definition path_of_string (s : string) (fs : option GofileFSClient) : GofilePath :=
  {| _segments := [s]; fs_client := fs; _vfspath := None |}.

(** A component that [normpath] may put in its result. *)
Definition comp_ok (c : string) : Prop := nosep c /\ c <> "" /\ c <> ".".

(** The invariant of the loop of [normpath]: the components kept are
    well formed, and [..] is kept only at the head of a relative path. *)
Definition normpath_inv (init : string) (nc : list string) : Prop :=
  Forall comp_ok nc
  /\ (init <> "" \/ head nc <> Some ".." -> Forall (fun c => c <> "..") nc).

(** The value of a default of [with_defaults] for an object. *)
Definition eval_default {Obj V : Type} (d : default_value Obj V) (obj : Obj) : V :=
  match d with
  | callable f => f obj
  | constant v => v
  end.

(** The default that a dictionary of defaults holds for a key. *)
Definition default_of {Obj V : Type} (defs : list (string * default_value Obj V))
    (k : string) : option (default_value Obj V) :=
  snd <$> List.find (fun kd => String.eqb (fst kd) k) defs.

(** A computation from which the collaborator's content-not-found error
    never comes out. *)
Definition never_not_found {A : Type} (m : M A) : Prop :=
  forall w, raised (m w) <> Some GofileAPIContentNotFoundError.

(** * Properties *)

Local Open Scope list_scope.

(** ** The order of the sort keys *)

Lemma ascii_compare_refl (a : ascii) : Ascii.compare a a = Eq.
Proof. unfold Ascii.compare. apply N.compare_refl. Qed.

Lemma ascii_compare_eq (a b : ascii) : Ascii.compare a b = Eq -> a = b.
Proof. apply Ascii.compare_eq_iff. Qed.

Lemma ascii_compare_lt_trans (a b c : ascii) :
  Ascii.compare a b = Lt -> Ascii.compare b c = Lt -> Ascii.compare a c = Lt.
Proof.
  unfold Ascii.compare. rewrite !N.compare_lt_iff. apply N.lt_trans.
Qed.

Lemma string_compare_refl (s : string) : String.compare s s = Eq.
Proof.
  induction s as [|a s IH]; simpl; [reflexivity|].
  rewrite ascii_compare_refl. exact IH.
Qed.

Lemma string_compare_lt_trans (s1 s2 s3 : string) :
  String.compare s1 s2 = Lt -> String.compare s2 s3 = Lt -> String.compare s1 s3 = Lt.
Proof.
  revert s2 s3. induction s1 as [|a s1 IH]; intros [|b s2] [|c s3]; simpl;
    try congruence.
  destruct (Ascii.compare a b) eqn:Hab; try discriminate;
    destruct (Ascii.compare b c) eqn:Hbc; try discriminate; intros H1 H2.
  - apply ascii_compare_eq in Hab, Hbc. subst.
    rewrite ascii_compare_refl. eauto.
  - apply ascii_compare_eq in Hab. subst. rewrite Hbc. reflexivity.
  - apply ascii_compare_eq in Hbc. subst. rewrite Hab. reflexivity.
  - rewrite (ascii_compare_lt_trans a b c Hab Hbc). reflexivity.
Qed.

Lemma string_compare_gt_lt (s1 s2 : string) :
  String.compare s1 s2 = Gt <-> String.compare s2 s1 = Lt.
Proof.
  rewrite (String.compare_antisym s2 s1).
  destruct (String.compare s1 s2); simpl; split; congruence.
Qed.

Lemma string_leb_trans (s1 s2 s3 : string) :
  String.leb s1 s2 = true -> String.leb s2 s3 = true -> String.leb s1 s3 = true.
Proof.
  unfold String.leb.
  destruct (String.compare s1 s2) eqn:H12; try discriminate;
    destruct (String.compare s2 s3) eqn:H23; try discriminate; intros _ _.
  - apply String.compare_eq_iff in H12, H23. subst.
    rewrite string_compare_refl. reflexivity.
  - apply String.compare_eq_iff in H12. subst. rewrite H23. reflexivity.
  - apply String.compare_eq_iff in H23. subst. rewrite H12. reflexivity.
  - rewrite (string_compare_lt_trans _ _ _ H12 H23). reflexivity.
Qed.

Lemma string_leb_refl (s : string) : String.leb s s = true.
Proof. unfold String.leb. rewrite string_compare_refl. reflexivity. Qed.

(** [key2_le] and [key3_le] are total preorders. *)
Lemma key2_le_total (k1 k2 : bool * string) :
  key2_le k1 k2 = true \/ key2_le k2 k1 = true.
Proof.
  destruct k1 as [[] n1], k2 as [[] n2]; unfold key2_le; simpl; auto;
    apply String.leb_total.
Qed.

Lemma key2_le_trans (k1 k2 k3 : bool * string) :
  key2_le k1 k2 = true -> key2_le k2 k3 = true -> key2_le k1 k3 = true.
Proof.
  destruct k1 as [[] n1], k2 as [[] n2], k3 as [[] n3]; unfold key2_le; simpl;
    try congruence; apply string_leb_trans.
Qed.

Lemma key2_le_antisym (k1 k2 : bool * string) :
  key2_le k1 k2 = true -> key2_le k2 k1 = true -> k1 = k2.
Proof.
  destruct k1 as [[] n1], k2 as [[] n2]; unfold key2_le; simpl;
    try congruence; intros H1 H2; f_equal; apply String.leb_antisym; assumption.
Qed.

Lemma key3_le_total (k1 k2 : bool * string * Z) :
  key3_le k1 k2 = true \/ key3_le k2 k1 = true.
Proof.
  destruct k1 as [[f1 n1] t1], k2 as [[f2 n2] t2]; unfold key3_le; simpl.
  destruct f1, f2; simpl; auto;
    rewrite (String.compare_antisym n2 n1);
    destruct (String.compare n1 n2); simpl; auto; lia.
Qed.

Lemma key3_le_trans (k1 k2 k3 : bool * string * Z) :
  key3_le k1 k2 = true -> key3_le k2 k3 = true -> key3_le k1 k3 = true.
Proof.
  destruct k1 as [[f1 n1] t1], k2 as [[f2 n2] t2], k3 as [[f3 n3] t3];
    unfold key3_le; simpl.
  assert (Hs : forall a b c : string,
             match String.compare a b with Lt => true | Gt => false | Eq => t1 <=? t2 end = true ->
             match String.compare b c with Lt => true | Gt => false | Eq => t2 <=? t3 end = true ->
             match String.compare a c with Lt => true | Gt => false | Eq => t1 <=? t3 end = true).
  { intros a b c.
    destruct (String.compare a b) eqn:Hab; try discriminate;
      destruct (String.compare b c) eqn:Hbc; try discriminate; intros H1 H2.
    - apply String.compare_eq_iff in Hab, Hbc. subst.
      rewrite string_compare_refl. lia.
    - apply String.compare_eq_iff in Hab. subst. rewrite Hbc. reflexivity.
    - apply String.compare_eq_iff in Hbc. subst. rewrite Hab. reflexivity.
    - rewrite (string_compare_lt_trans _ _ _ Hab Hbc). reflexivity. }
  destruct f1, f2, f3; simpl; try congruence; apply Hs.
Qed.

(** ** The stable insertion sort *)

Section Sorting.

Context {A : Type} (le : A -> A -> bool).

Let R : relation A := fun a b => le a b = true.

Hypothesis le_total : forall a b, le a b = true \/ le b a = true.

Lemma insert_by_perm (x : A) (l : list A) : Permutation (insert_by le x l) (x :: l).
Proof.
  induction l as [|y l IH]; simpl; [reflexivity|].
  destruct (le x y); [reflexivity|].
  rewrite IH. apply perm_swap.
Qed.

Lemma sorted_perm (l : list A) : Permutation (sorted le l) l.
Proof.
  induction l as [|x l IH]; simpl; [reflexivity|].
  unfold sorted in *. simpl. rewrite insert_by_perm. rewrite IH. reflexivity.
Qed.

Lemma insert_by_Sorted (x : A) (l : list A) :
  Sorted R l -> Sorted R (insert_by le x l).
Proof.
  induction l as [|y l IH]; simpl; intros Hl.
  - repeat constructor.
  - destruct (le x y) eqn:Hxy.
    + constructor; [assumption|]. constructor. exact Hxy.
    + assert (Hyx : R y x) by (destruct (le_total x y); [congruence|assumption]).
      inversion Hl as [|? ? Hl' Hhd]; subst.
      constructor; [auto|].
      destruct l as [|z l]; simpl.
      * constructor. exact Hyx.
      * destruct (le x z); constructor; [exact Hyx|].
        inversion Hhd; subst. assumption.
Qed.

Lemma sorted_Sorted (l : list A) : Sorted R (sorted le l).
Proof.
  induction l as [|x l IH]; simpl; [constructor|].
  apply insert_by_Sorted. exact IH.
Qed.

Lemma sorted_In (l : list A) (x : A) : In x (sorted le l) <-> In x l.
Proof.
  split; apply Permutation_in; [|symmetry]; apply sorted_perm.
Qed.

End Sorting.

(** ** The staleness policy: [ensure_updated] *)

Ltac run_monad :=
  unfold bind, ret, raise, try_except, get_store, get_info, set_content,
    getattr_when_updated, setattr_when_updated, datetime_now, reload in *;
  simpl in *.

Lemma ensure_updated_None (env : Env) (w : World) :
  ensure_updated env None w = Ok None w.
Proof. reflexivity. Qed.

(** Within the TTL: the clock is read once and nothing else happens. *)
Lemma ensure_updated_fresh (env : Env) (w : World) (c : GofileContent) :
  needs_reload env w c = false ->
  ensure_updated env (Some c) w = Ok (Some c) (with_clock_reads (S (clock_reads w)) w).
Proof.
  unfold needs_reload, ensure_updated. run_monad.
  destruct (when_updated w !! c) as [t|]; [|discriminate].
  simpl. intros ->. reflexivity.
Qed.

(** Stale: what [ensure_updated] does is decided by the collaborator. *)
Lemma ensure_updated_stale (env : Env) (w : World) (c : GofileContent) :
  needs_reload env w c = true ->
  ensure_updated env (Some c) w =
    let k := reads_after_test w c in
    match reload_answer env w c with
    | inl s' =>
        Ok (Some c)
           {| store := s'; when_updated := <[c := now_at env k]> (when_updated w);
              clock_reads := S k; reload_calls := reload_calls w ++ [c];
              infos := infos w; root_infos := root_infos w |}
    | inr e =>
        let w' := {| store := store w; when_updated := when_updated w;
                     clock_reads := k; reload_calls := reload_calls w ++ [c];
                     infos := infos w; root_infos := root_infos w |} in
        if is_content_not_found e then Ok None w' else Raise e w'
    end.
Proof.
  unfold needs_reload, reads_after_test, reload_answer, ensure_updated. run_monad.
  destruct (when_updated w !! c) as [t|]; simpl.
  - intros ->. simpl.
    destruct (reload_at env (length (reload_calls w)) (store w) c) as [s'|e]; simpl;
      [reflexivity|].
    destruct (is_content_not_found e); reflexivity.
  - intros _.
    destruct (reload_at env (length (reload_calls w)) (store w) c) as [s'|e]; simpl.
    + destruct w; reflexivity.
    + destruct (is_content_not_found e); destruct w; reflexivity.
Qed.

(** C2. [ensure_updated] passes [None] through; on a content object it
    calls [reload()] exactly when the object has no [_when_updated] or
    the clock is past [_when_updated + 15 s]; within the TTL the object
    comes back with no call and nothing changed but the count of clock
    readings; after a successful reload [_when_updated] is the clock
    reading made after it. *)
Theorem ensure_updated_reloads_iff_stale (env : Env) (w : World) (c : GofileContent) :
  ensure_updated env None w = Ok None w
  /\ reload_calls (world_of (ensure_updated env (Some c) w))
     = reload_calls w ++ (if needs_reload env w c then [c] else [])
  /\ (needs_reload env w c = false ->
      ensure_updated env (Some c) w
      = Ok (Some c) (with_clock_reads (S (clock_reads w)) w))
  /\ (needs_reload env w c = true ->
      forall s', reload_answer env w c = inl s' ->
      ensure_updated env (Some c) w
      = Ok (Some c)
           {| store := s';
              when_updated := <[c := now_at env (reads_after_test w c)]> (when_updated w);
              clock_reads := S (reads_after_test w c);
              reload_calls := reload_calls w ++ [c];
              infos := infos w; root_infos := root_infos w |}).
Proof.
  split; [reflexivity|]. split; [|split].
  - destruct (needs_reload env w c) eqn:Hs.
    + rewrite (ensure_updated_stale env w c Hs). simpl.
      destruct (reload_answer env w c) as [s'|e]; simpl; [reflexivity|].
      destruct (is_content_not_found e); reflexivity.
    + rewrite (ensure_updated_fresh env w c Hs). simpl.
      rewrite app_nil_r. reflexivity.
  - apply ensure_updated_fresh.
  - intros Hs s' Hr. rewrite (ensure_updated_stale env w c Hs). simpl.
    rewrite Hr. reflexivity.
Qed.

Lemma ensure_updated_reloads_iff_stale_witness :
  ensure_updated ex_env (Some ex_root) ex_world_fresh
  = Ok (Some ex_root) (with_clock_reads 1 ex_world_fresh)
  /\ ensure_updated ex_env (Some ex_root) ex_world_stale
     = Ok (Some ex_root)
          {| store := ex_store;
             when_updated := <[ex_root := 101 * 1000000]> (when_updated ex_world_stale);
             clock_reads := 2; reload_calls := [ex_root]; infos := []; root_infos := ∅ |}.
Proof.
  split.
  - apply (proj1 (proj2 (proj2 (ensure_updated_reloads_iff_stale ex_env ex_world_fresh ex_root)))).
    reflexivity.
  - apply (proj2 (proj2 (proj2 (ensure_updated_reloads_iff_stale ex_env ex_world_stale ex_root)))
             eq_refl ex_store).
    reflexivity.
Defined.

(** C4. When the refresh is attempted and [reload()] raises the
    collaborator's content-not-found error, [ensure_updated] returns
    [None] and leaves [_when_updated] as it was; that error never comes
    out of [ensure_updated]; any other exception of [reload()] comes out
    as it is. *)
Theorem ensure_updated_not_found_is_evicted (env : Env) (w : World) (c : GofileContent) :
  needs_reload env w c = true ->
  (reload_answer env w c = inr GofileAPIContentNotFoundError ->
   exists w', ensure_updated env (Some c) w = Ok None w'
              /\ when_updated w' = when_updated w /\ store w' = store w)
  /\ (forall e, reload_answer env w c = inr e -> is_content_not_found e = false ->
      exists w', ensure_updated env (Some c) w = Raise e w')
  /\ (forall c0 w0,
      raised (ensure_updated env c0 w0) <> Some GofileAPIContentNotFoundError).
Proof.
  intros Hs. split; [|split].
  - intros Hr. rewrite (ensure_updated_stale env w c Hs). simpl. rewrite Hr. simpl.
    eexists. split; [reflexivity|]. split; reflexivity.
  - intros e Hr He. rewrite (ensure_updated_stale env w c Hs). simpl. rewrite Hr, He.
    eexists. reflexivity.
  - intros [c0|] w0; [|discriminate].
    destruct (needs_reload env w0 c0) eqn:Hs0.
    + rewrite (ensure_updated_stale env w0 c0 Hs0). simpl.
      destruct (reload_answer env w0 c0) as [s'|e]; simpl; [discriminate|].
      destruct e; simpl; discriminate.
    + rewrite (ensure_updated_fresh env w0 c0 Hs0). discriminate.
Qed.

Lemma ensure_updated_not_found_is_evicted_witness :
  (exists w', ensure_updated ex_env_gone (Some ex_root) ex_world_stale = Ok None w'
              /\ when_updated w' = when_updated ex_world_stale
              /\ store w' = store ex_world_stale)
  /\ (exists w', ensure_updated ex_env_down (Some ex_root) ex_world_stale
                 = Raise (CollaboratorError "connection refused") w').
Proof.
  split.
  - apply (proj1 (ensure_updated_not_found_is_evicted ex_env_gone ex_world_stale ex_root eq_refl)).
    reflexivity.
  - apply (proj1 (proj2 (ensure_updated_not_found_is_evicted ex_env_down ex_world_stale ex_root
                           eq_refl)) (CollaboratorError "connection refused"));
      reflexivity.
Defined.

(** What [ensure_updated] gives back is its argument or [None], and it
    leaves the path-info objects alone. *)
Lemma ensure_updated_result (env : Env) (c0 : option GofileContent) (w : World) :
  infos (world_of (ensure_updated env c0 w)) = infos w
  /\ root_infos (world_of (ensure_updated env c0 w)) = root_infos w
  /\ (forall c w', ensure_updated env c0 w = Ok c w' -> c = c0 \/ c = None).
Proof.
  destruct c0 as [c0|]; [|simpl; split; [|split]; auto; intros c w' [= <- _]; auto].
  destruct (needs_reload env w c0) eqn:Hs.
  - rewrite (ensure_updated_stale env w c0 Hs). simpl.
    destruct (reload_answer env w c0) as [s'|e]; simpl.
    + split; [|split]; auto. intros c w' [= <- _]. auto.
    + destruct (is_content_not_found e); simpl; (split; [|split]); auto;
        intros c w' [= <- _]; auto.
  - rewrite (ensure_updated_fresh env w c0 Hs). simpl.
    split; [|split]; auto. intros c w' [= <- _]. auto.
Qed.

(** ** Walking a path: [GofilePathInfo.resolve] *)

Lemma resolve_body (env : Env) (self : nat) (path : string) (w : World) :
  resolve env self path w =
  if is_here path then Ok (GofilePathInfo self) w
  else match resolve_step env self (PyStr.partition posixpath.sepc path).1.1 w with
       | Ok None w' => Ok MissingInfo w'
       | Ok (Some r) w' => resolve env r (PyStr.partition posixpath.sepc path).2 w'
       | Raise e w' => Raise e w'
       end.
Proof.
  rewrite resolve_equation_1. unfold inspect.
  assert (G : forall b (H : is_here path = b),
             resolve_unfold_clause_1 env self path (exist _ b H) w =
             if b then Ok (GofilePathInfo self) w
             else match resolve_step env self (PyStr.partition posixpath.sepc path).1.1 w with
                  | Ok None w' => Ok MissingInfo w'
                  | Ok (Some r) w' =>
                      resolve env r (PyStr.partition posixpath.sepc path).2 w'
                  | Raise e w' => Raise e w'
                  end).
  { intros [] H; simpl; [reflexivity|].
    destruct (resolve_step env self (PyStr.partition posixpath.sepc path).1.1 w)
      as [[r|] w'|e w']; reflexivity. }
  apply G.
Qed.

(** C3, as stated, fails: on a folder with no child named [.], the path
    [./] is Missing, while the empty rest of the path resolves to the
    folder itself. *)
Lemma resolve_dot_segment_counterexample :
  ~ (forall (env : Env) (self : nat) (rest : string) (w : World),
       resolve env self (String "."%char (String "/"%char rest)) w
       = resolve env self rest w).
Proof.
  intros H. specialize (H ex_env 0%nat "" ex_world_ready).
  assert (Hl : value_of (resolve ex_env 0 "./" ex_world_ready) = Some MissingInfo)
    by (vm_compute; reflexivity).
  assert (Hr : value_of (resolve ex_env 0 "" ex_world_ready) = Some (GofilePathInfo 0))
    by (vm_compute; reflexivity).
  rewrite H in Hl. rewrite Hl in Hr. discriminate.
Qed.

(** A [.] before a separator is handed to the lookup like a name. *)
Lemma resolve_dot_then_sep (env : Env) (self : nat) (rest : string) (w : World) :
  resolve env self (String "."%char (String "/"%char rest)) w
  = match resolve_step env self "." w with
    | Ok None w' => Ok MissingInfo w'
    | Ok (Some r) w' => resolve env r rest w'
    | Raise e w' => Raise e w'
    end.
Proof.
  rewrite (resolve_body env self (String "."%char (String "/"%char rest))).
  reflexivity.
Qed.

(** C3, amended. An empty segment means: stay at the current node, and
    go on with the rest of the path, with no lookup and no refresh.  A
    path that is empty or exactly [.] resolves to the current node.  A
    [.] that is followed by a separator is a name like any other: on a
    node that is not a folder the result is Missing, and on a folder
    the child named [.] is looked up with [get_content]; the result is
    Missing when there is none, and the walk goes down into it when
    there is one. *)
Theorem resolve_empty_segment_stays (env : Env) (self : nat) (rest : string) (w : World) :
  resolve env self (String "/"%char rest) w = resolve env self rest w
  /\ resolve env self "" w = Ok (GofilePathInfo self) w
  /\ resolve env self "." w = Ok (GofilePathInfo self) w
  /\ (isinstance_GofileFolder (content (info_obj w self)) = false ->
      resolve env self (String "."%char (String "/"%char rest)) w = Ok MissingInfo w)
  /\ (forall fs : GofileFSClient,
        isinstance_GofileFolder (content (info_obj w self)) = true ->
        info_fs_client (info_obj w self) = Some fs ->
        resolve env self (String "."%char (String "/"%char rest)) w
        = match get_content env fs (content (info_obj w self)) "." w with
          | Ok None w1 => Ok MissingInfo w1
          | Ok (Some c) w1 =>
              resolve env (length (infos w1)) rest
                (with_infos
                   (infos w1 ++ [{| content := Some c; info_fs_client := Some fs |}]) w1)
          | Raise e w1 => Raise e w1
          end).
Proof.
  split; [|split; [|split; [|split]]].
  - rewrite (resolve_body env self (String "/"%char rest)). reflexivity.
  - rewrite resolve_body. reflexivity.
  - rewrite resolve_body. reflexivity.
  - intros Hk. rewrite resolve_dot_then_sep.
    unfold resolve_step. cbn [PyStr.is_empty]. unfold bind, get_info.
    rewrite Hk. reflexivity.
  - intros fs Hk Hfs. rewrite resolve_dot_then_sep.
    unfold resolve_step. cbn [PyStr.is_empty]. unfold bind at 1. unfold get_info.
    rewrite Hk, Hfs. unfold bind.
    destruct (get_content env fs (content (info_obj w self)) "." w) as [[c|] w1|e w1];
      reflexivity.
Qed.

Lemma resolve_empty_segment_stays_witness :
  resolve ex_env 1 "./x" (world_of (info ex_env (ex_path ["/b"]) ex_world_ready))
  = Ok MissingInfo (world_of (info ex_env (ex_path ["/b"]) ex_world_ready))
  /\ resolve ex_env 0 "./x" ex_world_ready
     = match get_content ex_env ex_client (content (info_obj ex_world_ready 0)) "."
               ex_world_ready with
       | Ok None w1 => Ok MissingInfo w1
       | Ok (Some c) w1 =>
           resolve ex_env (length (infos w1)) "x"
             (with_infos
                (infos w1 ++ [{| content := Some c; info_fs_client := Some ex_client |}])
                w1)
       | Raise e w1 => Raise e w1
       end.
Proof.
  split.
  - apply (proj1 (proj2 (proj2 (proj2
             (resolve_empty_segment_stays ex_env 1 "x"
                (world_of (info ex_env (ex_path ["/b"]) ex_world_ready))))))).
    reflexivity.
  - apply (proj2 (proj2 (proj2 (proj2
             (resolve_empty_segment_stays ex_env 0 "x" ex_world_ready)))) ex_client);
      reflexivity.
Defined.

(** ** The queries of a path info *)

Lemma info_obj_set_content (w : World) (r : nat) (c : option GofileContent)
    (fs : GofileFSClient) :
  info_fs_client (info_obj w r) = Some fs ->
  content (info_obj (world_of (set_content r c w)) r) = c
  /\ info_fs_client (info_obj (world_of (set_content r c w)) r) = Some fs.
Proof.
  unfold set_content, info_obj. simpl. intros Hfs.
  destruct (infos w !! r) as [o|] eqn:Hr; [|discriminate].
  simpl in *. rewrite list_lookup_insert_eq by (eapply lookup_lt_Some; exact Hr).
  simpl. auto.
Qed.

(** The decorator [_update_content] on an info bound to a client. *)
Lemma _update_content_run {A : Type} (env : Env) (func : nat -> M A) (r : nat)
    (w : World) (fs : GofileFSClient) :
  info_fs_client (info_obj w r) = Some fs ->
  _update_content env func r w
  = match ensure_updated env (content (info_obj w r)) w with
    | Ok c w1 => func r (world_of (set_content r c w1))
    | Raise e w1 => Raise e w1
    end.
Proof.
  intros Hfs. unfold _update_content, bind, get_info. rewrite Hfs.
  destruct (ensure_updated env (content (info_obj w r)) w) as [c w1|e w1]; reflexivity.
Qed.

(** C6, as stated, fails: [is_symlink] makes no refresh.  On the root
    info of an account never refreshed, [ensure_updated] calls
    [reload()] and [is_symlink] does not. *)
Lemma is_symlink_refresh_counterexample :
  ~ (forall (env : Env) (r : nat) (w : World),
       reload_calls (world_of (GofilePathInfo_is_symlink r w))
       = reload_calls (world_of (ensure_updated env (content (info_obj w r)) w))).
Proof.
  intros H. specialize (H ex_env 0%nat ex_world_ready).
  vm_compute in H. discriminate.
Qed.

(** What the three decorated queries do on an info bound to a client. *)
Lemma queries_after_refresh (env : Env) (r : nat) (w : World)
    (fs : GofileFSClient) :
  info_fs_client (info_obj w r) = Some fs ->
  match ensure_updated env (content (info_obj w r)) w with
  | Ok c w1 =>
      let w2 := world_of (set_content r c w1) in
      GofilePathInfo_exists env r w = Ok (bool_decide (c <> None)) w2
      /\ GofilePathInfo_is_dir env r w = Ok (isinstance_GofileFolder c) w2
      /\ GofilePathInfo_is_file env r w = Ok (isinstance_GofileFile c) w2
      /\ content (info_obj w2 r) = c
  | Raise e w1 =>
      GofilePathInfo_exists env r w = Raise e w1
      /\ GofilePathInfo_is_dir env r w = Raise e w1
      /\ GofilePathInfo_is_file env r w = Raise e w1
  end
  /\ GofilePathInfo_is_symlink r w = Ok false w.
Proof.
  intros Hfs. split; [|reflexivity].
  unfold GofilePathInfo_exists, GofilePathInfo_is_dir, GofilePathInfo_is_file.
  rewrite !(_update_content_run env _ r w fs Hfs).
  pose proof (ensure_updated_result env (content (info_obj w r)) w) as (Hi & _ & _).
  destruct (ensure_updated env (content (info_obj w r)) w) as [c w1|e w1]; simpl in *;
    [|auto].
  assert (Hfs1 : info_fs_client (info_obj w1 r) = Some fs)
    by (unfold info_obj in *; rewrite Hi; exact Hfs).
  destruct (info_obj_set_content w1 r c fs Hfs1) as [Hc _].
  unfold bind, get_info, ret. simpl in *. rewrite Hc. auto.
Qed.

(** C6, amended. On a [GofilePathInfo] bound to a client, [exists],
    [is_dir] and [is_file] first apply [ensure_updated] to the content,
    keep what it returns as the content of the info, and answer from
    it; an exception of the refresh comes out of the query.
    [is_symlink] returns false and refreshes nothing. *)
Theorem queries_refresh_but_is_symlink (env : Env) (r : nat) (w : World)
    (fs : GofileFSClient) :
  info_fs_client (info_obj w r) = Some fs ->
  match ensure_updated env (content (info_obj w r)) w with
  | Ok c w1 =>
      let w2 := world_of (set_content r c w1) in
      GofilePathInfo_exists env r w = Ok (bool_decide (c <> None)) w2
      /\ GofilePathInfo_is_dir env r w = Ok (isinstance_GofileFolder c) w2
      /\ GofilePathInfo_is_file env r w = Ok (isinstance_GofileFile c) w2
      /\ content (info_obj w2 r) = c
  | Raise e w1 =>
      GofilePathInfo_exists env r w = Raise e w1
      /\ GofilePathInfo_is_dir env r w = Raise e w1
      /\ GofilePathInfo_is_file env r w = Raise e w1
  end
  /\ GofilePathInfo_is_symlink r w = Ok false w.
Proof. apply queries_after_refresh. Qed.

Lemma queries_refresh_but_is_symlink_witness :
  info_fs_client (info_obj ex_world_ready 0) = Some ex_client
  /\ match ensure_updated ex_env (content (info_obj ex_world_ready 0)) ex_world_ready with
     | Ok c w1 =>
         let w2 := world_of (set_content 0 c w1) in
         GofilePathInfo_exists ex_env 0 ex_world_ready = Ok (bool_decide (c <> None)) w2
         /\ GofilePathInfo_is_dir ex_env 0 ex_world_ready = Ok (isinstance_GofileFolder c) w2
         /\ GofilePathInfo_is_file ex_env 0 ex_world_ready = Ok (isinstance_GofileFile c) w2
         /\ content (info_obj w2 0) = c
     | Raise e w1 =>
         GofilePathInfo_exists ex_env 0 ex_world_ready = Raise e w1
         /\ GofilePathInfo_is_dir ex_env 0 ex_world_ready = Raise e w1
         /\ GofilePathInfo_is_file ex_env 0 ex_world_ready = Raise e w1
     end
     /\ GofilePathInfo_is_symlink 0 ex_world_ready = Ok false ex_world_ready.
Proof.
  split; [reflexivity|].
  apply (queries_refresh_but_is_symlink ex_env 0 ex_world_ready ex_client).
  reflexivity.
Defined.

(** The queries of a [MissingInfo] answer false and change nothing. *)
Lemma MissingInfo_queries (env : Env) (w : World) :
  PathInfo_exists env MissingInfo w = Ok false w
  /\ PathInfo_is_dir env MissingInfo w = Ok false w
  /\ PathInfo_is_file env MissingInfo w = Ok false w
  /\ PathInfo_is_symlink MissingInfo w = Ok false w.
Proof. repeat split. Qed.

(** ** The errors of [iterdir] and [__open_reader__] *)

(** [is_dir] never answers true on an info whose content is a file. *)
Lemma is_dir_of_file (env : Env) (i : PathInfo) (w w' : World)
    (c : option GofileContent) (b : bool) :
  PathInfo_content i w = Ok c w ->
  isinstance_GofileFile c = true ->
  PathInfo_is_dir env i w = Ok b w' ->
  b = false.
Proof.
  destruct i as [|r]; [discriminate|]. simpl.
  unfold bind, get_info, ret. intros [= Hc] Hfile.
  unfold GofilePathInfo_is_dir.
  destruct (info_fs_client (info_obj w r)) as [fs|] eqn:Hfs.
  - rewrite (_update_content_run env _ r w fs Hfs).
    pose proof (ensure_updated_result env (content (info_obj w r)) w) as (Hi & _ & Hv).
    destruct (ensure_updated env (content (info_obj w r)) w) as [c' w1|e w1];
      [|discriminate].
    simpl in Hi.
    assert (Hfs1 : info_fs_client (info_obj w1 r) = Some fs)
      by (unfold info_obj in *; rewrite Hi; exact Hfs).
    destruct (info_obj_set_content w1 r c' fs Hfs1) as [Hc' _].
    unfold bind, get_info, ret. simpl in *. rewrite Hc'. intros [= <- _].
    destruct (Hv c' w1 eq_refl) as [->| ->]; [|reflexivity].
    rewrite Hc. destruct c as [[]|]; simpl in *; congruence.
  - unfold _update_content, bind, get_info, ret. rewrite Hfs. simpl.
    intros [= <- _]. rewrite Hc. destruct c as [[]|]; simpl in *; congruence.
Qed.

(** C9. Once the info of the path is resolved: when [exists()] answers
    false, [iterdir] and [__open_reader__] raise [PathNotFoundError],
    whatever the kind; when it answers true and the content is a file,
    [iterdir] raises [PathNotADirectoryError] as soon as [is_dir()]
    has answered; when it answers true and the content is not a file,
    [__open_reader__] raises [PathNotAFileError].  The error raised
    keeps the path the method was called on. *)
Theorem path_errors_carry_the_path (env : Env) (p : GofilePath) (w w1 : World)
    (i : PathInfo) :
  info env p w = Ok i w1 ->
  (forall w2, PathInfo_exists env i w1 = Ok false w2 ->
     iterdir env p w = Raise (PathNotFoundError p) w2
     /\ __open_reader__ env p w = Raise (PathNotFoundError p) w2)
  /\ (forall w2 c, PathInfo_exists env i w1 = Ok true w2 ->
        PathInfo_content i w2 = Ok c w2 ->
        (isinstance_GofileFile c = true ->
         forall b w3, PathInfo_is_dir env i w2 = Ok b w3 ->
           iterdir env p w = Raise (PathNotADirectoryError p) w3)
        /\ (isinstance_GofileFile c = false ->
            __open_reader__ env p w = Raise (PathNotAFileError p) w2))
  /\ exn_path (PathNotFoundError p) = Some p
  /\ exn_path (PathNotADirectoryError p) = Some p
  /\ exn_path (PathNotAFileError p) = Some p.
Proof.
  intros Hinfo. split; [|split].
  - intros w2 Hex. unfold iterdir, __open_reader__, bind.
    rewrite Hinfo, Hex. simpl. split; reflexivity.
  - intros w2 c Hex Hc. split.
    + intros Hfile b w3 Hdir.
      assert (b = false) as -> by (eapply is_dir_of_file; eassumption).
      unfold iterdir, bind. rewrite Hinfo, Hex. simpl. rewrite Hdir. reflexivity.
    + intros Hfile. unfold __open_reader__, bind. rewrite Hinfo, Hex. simpl.
      unfold bind in Hc. fold (bind (A:=GofilePathInfoObj) (B:=option GofileContent)) in Hc.
      rewrite Hc. rewrite Hfile. reflexivity.
  - repeat split.
Qed.

Lemma path_errors_carry_the_path_witness :
  iterdir ex_env (ex_path ["/missing/x"]) ex_world_ready
  = Raise (PathNotFoundError (ex_path ["/missing/x"]))
          (world_of (info ex_env (ex_path ["/missing/x"]) ex_world_ready))
  /\ iterdir ex_env (ex_path ["/b"]) ex_world_ready
     = Raise (PathNotADirectoryError (ex_path ["/b"]))
             (world_of (iterdir ex_env (ex_path ["/b"]) ex_world_ready))
  /\ __open_reader__ ex_env (ex_path ["/c"]) ex_world_ready
     = Raise (PathNotAFileError (ex_path ["/c"]))
             (world_of (__open_reader__ ex_env (ex_path ["/c"]) ex_world_ready)).
Proof.
  split; [|split].
  - apply (proj1 (path_errors_carry_the_path ex_env (ex_path ["/missing/x"]) ex_world_ready
                    (world_of (info ex_env (ex_path ["/missing/x"]) ex_world_ready))
                    MissingInfo ltac:(vm_compute; reflexivity))).
    reflexivity.
  - apply (proj1 (proj1 (proj2 (path_errors_carry_the_path ex_env (ex_path ["/b"])
                    ex_world_ready
                    (world_of (info ex_env (ex_path ["/b"]) ex_world_ready))
                    (GofilePathInfo 1) ltac:(vm_compute; reflexivity)))
                    (world_of (PathInfo_exists ex_env (GofilePathInfo 1)
                       (world_of (info ex_env (ex_path ["/b"]) ex_world_ready))))
                    (Some (GofileFile 3))
                    ltac:(vm_compute; reflexivity) ltac:(vm_compute; reflexivity))
                  eq_refl false).
    vm_compute; reflexivity.
  - apply (proj2 (proj1 (proj2 (path_errors_carry_the_path ex_env (ex_path ["/c"])
                    ex_world_ready
                    (world_of (info ex_env (ex_path ["/c"]) ex_world_ready))
                    (GofilePathInfo 1) ltac:(vm_compute; reflexivity)))
                    (world_of (__open_reader__ ex_env (ex_path ["/c"]) ex_world_ready))
                    (Some (GofileFolder 4))
                    ltac:(vm_compute; reflexivity) ltac:(vm_compute; reflexivity))
                  eq_refl).
Defined.

(** ** The normalized string of a path: [__vfspath__] *)

Lemma split_nonempty (c : ascii) (s : string) : PyStr.split c s <> [].
Proof.
  destruct s as [|a s]; simpl; [discriminate|].
  destruct (Ascii.eqb a c); [discriminate|].
  destruct (PyStr.split c s); discriminate.
Qed.

Lemma split_app_sep (c : ascii) (s1 s2 : string) :
  PyStr.split c (s1 ++ String c s2)%string = PyStr.split c s1 ++ PyStr.split c s2.
Proof.
  induction s1 as [|a s1 IH]; simpl.
  - rewrite Ascii.eqb_refl. reflexivity.
  - destruct (Ascii.eqb a c); [rewrite IH; reflexivity|].
    rewrite IH. pose proof (split_nonempty c s1) as Hne.
    destruct (PyStr.split c s1) as [|w ws]; [congruence|reflexivity].
Qed.

Lemma endswith_inv (c : ascii) (s : string) :
  PyStr.endswith c s = true -> exists s', s = (s' ++ String c "")%string.
Proof.
  induction s as [|a s IH]; simpl; [discriminate|].
  destruct s as [|b s].
  - intros H. apply Ascii.eqb_eq in H. subst. exists "". reflexivity.
  - intros H. destruct (IH H) as [s' Hs']. exists (String a s').
    rewrite Hs'. reflexivity.
Qed.

Lemma string_app_assoc (s1 s2 s3 : string) :
  ((s1 ++ s2) ++ s3 = s1 ++ (s2 ++ s3))%string.
Proof.
  induction s1 as [|a s1 IH]; [reflexivity|].
  change (String a ((s1 ++ s2) ++ s3) = String a (s1 ++ (s2 ++ s3)))%string.
  f_equal. exact IH.
Qed.

Lemma startswith_app (c : ascii) (s1 s2 : string) :
  s1 <> "" -> PyStr.startswith c (s1 ++ s2)%string = PyStr.startswith c s1.
Proof. destruct s1; [congruence|reflexivity]. Qed.

Lemma join_step_only_dots (path b : string) :
  only_dots path -> only_dots b -> only_dots (posixpath.join_step path b).
Proof.
  intros [Hp1 Hp2] [Hb1 Hb2]. unfold posixpath.join_step. rewrite Hb1.
  destruct path as [|a path]; [exact (conj Hb1 Hb2)|].
  cbn [PyStr.is_empty orb].
  destruct (PyStr.endswith posixpath.sepc (String a path)) eqn:He.
  - destruct (endswith_inv _ _ He) as [s' Hs']. split.
    + rewrite startswith_app by discriminate. exact Hp1.
    + rewrite Hs' in *. rewrite string_app_assoc.
      change (String posixpath.sepc "" ++ b)%string with (String posixpath.sepc b).
      rewrite split_app_sep. rewrite split_app_sep in Hp2.
      apply Forall_app in Hp2 as [Hp2 _]. apply Forall_app. auto.
  - split.
    + rewrite startswith_app by discriminate. exact Hp1.
    + change (posixpath.sep ++ b)%string with (String posixpath.sepc b).
      rewrite split_app_sep. apply Forall_app. auto.
Qed.

Lemma join_only_dots (p : list string) (a : string) :
  only_dots a -> Forall only_dots p -> only_dots (posixpath.join a p).
Proof.
  unfold posixpath.join. revert a.
  induction p as [|b p IH]; intros a Ha Hp; simpl; [exact Ha|].
  inversion Hp; subst. apply IH; [apply join_step_only_dots|]; assumption.
Qed.

Lemma filter_kept_only_dots (l : list string) :
  Forall (fun c => c = "" \/ c = ".") l -> List.filter kept_component l = [].
Proof.
  induction 1 as [|c l [-> | ->] _ IH]; simpl; auto.
Qed.

Lemma splitroot_relative (s : string) :
  PyStr.startswith posixpath.sepc s = false ->
  posixpath.splitroot s = ("", "", s).
Proof.
  destruct s as [|a s]; simpl; [reflexivity|]. intros ->. reflexivity.
Qed.

Lemma vfspath_of_only_dots (p : GofilePath) :
  Forall only_dots (_segments p) -> vfspath_of_segments p = ".".
Proof.
  intros Hs. unfold vfspath_of_segments, _joined_segments.
  destruct (_segments p) as [|a rest]; [reflexivity|].
  inversion Hs; subst.
  destruct (join_only_dots rest a) as [Hj1 Hj2]; [assumption..|].
  destruct (PyStr.is_empty (posixpath.join a rest)); [reflexivity|].
  rewrite (splitroot_relative _ Hj1).
  rewrite (filter_kept_only_dots _ Hj2). reflexivity.
Qed.

(** The memo is sound: filling it does not change what is read. *)
Lemma memo_ok_str (p : GofilePath) : memo_ok p -> str p = vfspath_of_segments p.
Proof.
  unfold str, __vfspath__. intros [-> | ->]; reflexivity.
Qed.

Lemma memo_ok_filled (p : GofilePath) :
  memo_ok p -> memo_ok (__vfspath__ p).2 /\ str (__vfspath__ p).2 = str p.
Proof.
  intros [H|H]; unfold str, __vfspath__, memo_ok; rewrite H; simpl.
  - split; [right|]; reflexivity.
  - rewrite H. split; [right|]; reflexivity.
Qed.

(** C8. A path built from no segment, from empty segments only, or from
    segments made of [.] components only, reads as the current
    directory [.]. *)
Theorem vfspath_of_dots_is_curdir (p : GofilePath) :
  memo_ok p -> Forall only_dots (_segments p) -> str p = ".".
Proof.
  intros Hm Hs. rewrite (memo_ok_str p Hm). apply vfspath_of_only_dots. exact Hs.
Qed.

Lemma vfspath_of_dots_is_curdir_witness :
  str (ex_path []) = "." /\ str (ex_path [""; ""]) = "."
  /\ str (ex_path ["."; ""; "./."; ".//"]) = ".".
Proof.
  split; [|split]; apply vfspath_of_dots_is_curdir;
    try (left; reflexivity);
    repeat (constructor; [split; [reflexivity|simpl; repeat constructor; auto]|]);
    constructor.
Defined.

(** ** [GofilePath.resolve]: normalized absolute paths *)

Lemma split_nosep_eq (s : string) : nosep s -> PyStr.split posixpath.sepc s = [s].
Proof.
  induction s as [|a s IH]; simpl; [reflexivity|].
  intros [Ha Hs]. rewrite Ha, (IH Hs). reflexivity.
Qed.

Lemma split_all_nosep (s : string) : Forall nosep (PyStr.split posixpath.sepc s).
Proof.
  induction s as [|a s IH]; simpl; [repeat constructor|].
  destruct (Ascii.eqb a posixpath.sepc) eqn:Ha.
  - constructor; [exact I|exact IH].
  - destruct (PyStr.split posixpath.sepc s) as [|w ws]; [repeat constructor; auto|].
    inversion IH; subst. constructor; [split; auto|assumption].
Qed.

Lemma join_cons2 (x y : string) (l : list string) :
  PyStr.join posixpath.sep (x :: y :: l)
  = (x ++ String posixpath.sepc (PyStr.join posixpath.sep (y :: l)))%string.
Proof. reflexivity. Qed.

Lemma split_join (comps : list string) :
  Forall nosep comps -> comps <> [] ->
  PyStr.split posixpath.sepc (PyStr.join posixpath.sep comps) = comps.
Proof.
  induction comps as [|x comps IH]; intros Hn Hne; [congruence|].
  inversion Hn; subst.
  destruct comps as [|y comps].
  - simpl. apply split_nosep_eq. assumption.
  - rewrite join_cons2, split_app_sep, split_nosep_eq by assumption.
    rewrite IH by (auto; discriminate). reflexivity.
Qed.

Lemma join_starts_nosep (comps : list string) :
  Forall plain comps ->
  PyStr.startswith posixpath.sepc (PyStr.join posixpath.sep comps) = false.
Proof.
  destruct comps as [|x comps]; [reflexivity|].
  intros H. inversion H as [|? ? (Hn & Hne & _) _]; subst.
  destruct x as [|a x]; [congruence|]. destruct Hn as [Ha _].
  destruct comps; simpl; exact Ha.
Qed.

Lemma splitroot_canonical (root j : string) :
  root = "/" \/ root = "//" ->
  PyStr.startswith posixpath.sepc j = false ->
  posixpath.splitroot (root ++ j) = ("", root, j).
Proof.
  intros [-> | ->] Hj; destruct j as [|b j]; try reflexivity; simpl in *;
    rewrite Hj; reflexivity.
Qed.

Lemma normpath_step_plain (init : string) (acc : list string) (c : string) :
  plain c -> posixpath.normpath_step init acc c = acc ++ [c].
Proof.
  intros (_ & H1 & H2 & H3). unfold posixpath.normpath_step.
  apply String.eqb_neq in H1, H2, H3.
  unfold posixpath.curdir, posixpath.pardir. rewrite H1, H2, H3. reflexivity.
Qed.

Lemma fold_normpath_step_plain (init : string) (l acc : list string) :
  Forall plain l -> fold_left (posixpath.normpath_step init) l acc = acc ++ l.
Proof.
  revert acc. induction l as [|c l IH]; intros acc H; simpl.
  - rewrite app_nil_r. reflexivity.
  - inversion H; subst. rewrite normpath_step_plain by assumption.
    rewrite IH by assumption. rewrite <- app_assoc. reflexivity.
Qed.

Lemma plain_nosep (l : list string) : Forall plain l -> Forall nosep l.
Proof. intros H. eapply Forall_impl; [exact H|]. intros c Hc. apply Hc. Qed.

Lemma string_app_nil_r (s : string) : (s ++ "")%string = s.
Proof.
  induction s as [|a s IH]; [reflexivity|].
  change (String a (s ++ "") = String a s)%string. f_equal. exact IH.
Qed.

Lemma canonical_nonempty (root j : string) :
  root = "/" \/ root = "//" -> PyStr.is_empty (root ++ j) = false.
Proof. intros [-> | ->]; reflexivity. Qed.

(** [normpath] leaves a normalized absolute path as it is. *)
Lemma normpath_canonical (s : string) : canonical s -> posixpath.normpath s = s.
Proof.
  intros (root & comps & Hroot & Hc & ->). unfold posixpath.normpath.
  rewrite (canonical_nonempty root _ Hroot).
  rewrite (splitroot_canonical root _ Hroot (join_starts_nosep comps Hc)).
  destruct comps as [|x comps].
  - destruct Hroot as [-> | ->]; reflexivity.
  - rewrite split_join by (auto using plain_nosep; discriminate).
    rewrite fold_normpath_step_plain by assumption. simpl app.
    rewrite (canonical_nonempty root _ Hroot). reflexivity.
Qed.

Lemma plain_kept (c : string) : plain c -> kept_component c = true.
Proof.
  intros (_ & H1 & H2 & _). unfold kept_component.
  apply String.eqb_neq in H2. rewrite H2.
  destruct c; [congruence|reflexivity].
Qed.

Lemma filter_kept_plain (l : list string) :
  Forall plain l -> List.filter kept_component l = l.
Proof.
  induction 1 as [|c l Hc _ IH]; simpl; [reflexivity|].
  rewrite (plain_kept c Hc), IH. reflexivity.
Qed.

(** [__vfspath__] leaves a normalized absolute path as it is. *)
Lemma vfspath_canonical (s : string) (fs : option GofileFSClient) :
  canonical s -> str (path_of_string s fs) = s.
Proof.
  intros (root & comps & Hroot & Hc & ->).
  unfold str, __vfspath__, path_of_string. simpl.
  unfold vfspath_of_segments, _joined_segments. simpl.
  unfold posixpath.join. simpl.
  rewrite (canonical_nonempty root _ Hroot).
  rewrite (splitroot_canonical root _ Hroot (join_starts_nosep comps Hc)).
  destruct comps as [|x comps].
  - destruct Hroot as [-> | ->]; reflexivity.
  - rewrite split_join by (auto using plain_nosep; discriminate).
    rewrite filter_kept_plain by assumption.
    rewrite (canonical_nonempty root _ Hroot). reflexivity.
Qed.

Lemma Forall_removelast {A} (P : A -> Prop) (l : list A) :
  Forall P l -> Forall P (removelast l).
Proof.
  induction 1 as [|x l Hx Hl IH]; simpl; [constructor|].
  destruct l; [constructor|]. constructor; assumption.
Qed.

Lemma normpath_step_inv (init : string) (nc : list string) (c : string) :
  nosep c -> normpath_inv init nc -> normpath_inv init (posixpath.normpath_step init nc c).
Proof.
  intros Hn [Hok Hdd]. unfold posixpath.normpath_step.
  destruct (String.eqb c "") eqn:E1; [split; assumption|].
  destruct (String.eqb c posixpath.curdir) eqn:E2; [split; assumption|].
  apply String.eqb_neq in E1, E2. cbn [orb].
  assert (Hc : comp_ok c) by (split; [|split]; assumption).
  destruct (String.eqb c posixpath.pardir) eqn:E3; cbn [negb orb].
  - apply String.eqb_eq in E3. subst c.
    destruct (PyStr.is_empty init && bool_decide (nc = [])) eqn:E4; cbn [orb].
    + apply andb_true_iff in E4 as [Hi Hnil]. apply bool_decide_eq_true in Hnil.
      subst nc. split; [repeat constructor; apply Hc|].
      intros [Hi'|Hh]; [destruct init; [congruence|discriminate]|].
      exfalso. apply Hh. reflexivity.
    + destruct (last nc) as [l|] eqn:El.
      * destruct (String.eqb l posixpath.pardir) eqn:E5.
        -- apply String.eqb_eq in E5. subst l.
           split; [apply Forall_app; split; [assumption|repeat constructor; apply Hc]|].
           intros Hpre. exfalso.
           assert (Hall : Forall (fun c => c <> "..") nc).
           { apply Hdd. destruct Hpre as [Hi|Hh]; [left; exact Hi|right].
             destruct nc as [|a nc]; [discriminate El|exact Hh]. }
           apply last_Some_elem_of in El. rewrite Forall_forall in Hall.
           apply (Hall _ El). reflexivity.
        -- split; [apply Forall_removelast; assumption|].
           intros Hpre. apply Forall_removelast, Hdd.
           destruct Hpre as [Hi|Hh]; [left; exact Hi|right].
           intros Hh'. apply Hh. destruct nc as [|a [|b nc]].
           ++ discriminate Hh'.
           ++ simpl in Hh', El. injection Hh' as ->. injection El as <-.
              discriminate E5.
           ++ exact Hh'.
      * apply last_None in El. subst nc. split; constructor.
  - apply String.eqb_neq in E3.
    split; [apply Forall_app; split; [assumption|repeat constructor; apply Hc]|].
    intros Hpre. apply Forall_app. split; [|repeat constructor; exact E3].
    apply Hdd. destruct Hpre as [Hi|Hh]; [left; exact Hi|].
    destruct nc as [|a nc]; [right; discriminate|right; exact Hh].
Qed.

Lemma fold_normpath_step_inv (init : string) (l nc : list string) :
  Forall nosep l -> normpath_inv init nc ->
  normpath_inv init (fold_left (posixpath.normpath_step init) l nc).
Proof.
  revert nc. induction l as [|c l IH]; intros nc Hl Hinv; simpl; [exact Hinv|].
  inversion Hl; subst. apply IH; [assumption|].
  apply normpath_step_inv; assumption.
Qed.

Lemma splitroot_cases (p : string) :
  exists init rest,
    posixpath.splitroot p = ("", init, rest)
    /\ (init = "" \/ init = "/" \/ init = "//").
Proof.
  destruct p as [|a p]; simpl; [eauto 6|].
  destruct (Ascii.eqb a posixpath.sepc); [|eauto 6].
  destruct p as [|b p]; [eauto 6|].
  destruct (Ascii.eqb b posixpath.sepc); [|eauto 6].
  destruct p as [|c p]; [eauto 6|].
  destruct (Ascii.eqb c posixpath.sepc); eauto 6.
Qed.

(** What [normpath] returns: [.], or a root (possibly empty) followed
    by well-formed components joined by the separator. *)
Lemma normpath_shape (x : string) :
  posixpath.normpath x = "."
  \/ exists init comps,
       posixpath.normpath x = (init ++ PyStr.join posixpath.sep comps)%string
       /\ (init = "" \/ init = "/" \/ init = "//")
       /\ normpath_inv init comps
       /\ (init = "" -> comps <> []).
Proof.
  unfold posixpath.normpath.
  destruct (PyStr.is_empty x); [left; reflexivity|].
  destruct (splitroot_cases x) as (init & rest & -> & Hinit).
  set (comps := fold_left (posixpath.normpath_step init)
                  (PyStr.split posixpath.sepc rest) []).
  assert (Hinv : normpath_inv init comps).
  { apply fold_normpath_step_inv; [apply split_all_nosep|].
    split; [constructor|intros _; constructor]. }
  destruct (PyStr.is_empty (init ++ PyStr.join posixpath.sep comps)) eqn:He;
    [left; reflexivity|].
  right. exists init, comps. split; [reflexivity|]. split; [exact Hinit|].
  split; [exact Hinv|].
  intros -> ->. discriminate He.
Qed.

Lemma comp_ok_plain (l : list string) :
  Forall comp_ok l -> Forall (fun c => c <> "..") l -> Forall plain l.
Proof.
  induction 1 as [|c l (H1 & H2 & H3) _ IH]; intros Hd; [constructor|].
  inversion Hd; subst. constructor; [|auto].
  split; [|split; [|split]]; assumption.
Qed.

Lemma isabs_canonical (s : string) : canonical s -> posixpath.isabs s = true.
Proof. intros (root & comps & [-> | ->] & _ & ->); reflexivity. Qed.

(** What [resolve()] returns reads as a normalized absolute path, unless
    the normalized string of the path starts with [..]. *)
Lemma resolve_string_canonical (p : GofilePath) (fs : option GofileFSClient) :
  head (PyStr.split posixpath.sepc (posixpath.normpath (str p))) <> Some ".." ->
  canonical (str (path_of_string (resolve_string p) fs)).
Proof.
  intros Hh. unfold resolve_string.
  destruct (normpath_shape (str p)) as [E|(init & comps & E & Hinit & [Hok Hdd] & Hne)];
    rewrite E in *.
  - exists "/", []. split; [left; reflexivity|]. split; [constructor|reflexivity].
  - destruct Hinit as [-> | Hroot].
    + change ("" ++ PyStr.join posixpath.sep comps)%string
        with (PyStr.join posixpath.sep comps) in *.
      assert (Hns : Forall nosep comps)
        by (eapply Forall_impl; [exact Hok|]; intros c Hc; apply Hc).
      rewrite split_join in Hh by auto.
      assert (Hp : Forall plain comps) by (apply comp_ok_plain; auto).
      assert (Hcan : canonical (posixpath.sep ++ PyStr.join posixpath.sep comps)%string).
      { exists "/", comps. split; [left; reflexivity|]. split; [exact Hp|reflexivity]. }
      assert (Es : (if posixpath.isabs (PyStr.join posixpath.sep comps)
                    then PyStr.join posixpath.sep comps
                    else posixpath.join posixpath.sep [PyStr.join posixpath.sep comps])
                   = (posixpath.sep ++ PyStr.join posixpath.sep comps)%string).
      { unfold posixpath.isabs. rewrite (join_starts_nosep comps Hp).
        unfold posixpath.join. cbn [fold_left]. unfold posixpath.join_step.
        rewrite (join_starts_nosep comps Hp). reflexivity. }
      rewrite Es. rewrite (vfspath_canonical _ fs Hcan). exact Hcan.
    + assert (Hp : Forall plain comps).
      { apply comp_ok_plain; [exact Hok|]. apply Hdd. left.
        destruct Hroot as [-> | ->]; discriminate. }
      assert (Hcan : canonical (init ++ PyStr.join posixpath.sep comps)%string).
      { exists init, comps. split; [exact Hroot|]. split; [exact Hp|reflexivity]. }
      rewrite (isabs_canonical _ Hcan).
      rewrite (vfspath_canonical _ fs Hcan). exact Hcan.
Qed.

(** Applying [resolve()] twice gives the string of applying it once,
    for every path whose normalized string does not start with [..]. *)
Lemma resolve_string_idempotent (p : GofilePath) (fs fs' : option GofileFSClient) :
  head (PyStr.split posixpath.sepc (posixpath.normpath (str p))) <> Some ".." ->
  str (path_of_string (resolve_string (path_of_string (resolve_string p) fs)) fs')
  = str (path_of_string (resolve_string p) fs).
Proof.
  intros Hh. pose proof (resolve_string_canonical p fs Hh) as Hcan.
  set (c := str (path_of_string (resolve_string p) fs)) in *.
  assert (E : resolve_string (path_of_string (resolve_string p) fs) = c).
  { unfold resolve_string at 1. cbv zeta.
    change (str (path_of_string (resolve_string p) fs)) with c.
    rewrite (normpath_canonical c Hcan), (isabs_canonical c Hcan). reflexivity. }
  rewrite E. apply vfspath_canonical. exact Hcan.
Qed.

(** The constructor always returns, with the segments it was given. *)
Lemma GofilePath_init_value (segs : list string) (fs : option GofileFSClient)
    (w : World) :
  exists w', GofilePath_init segs fs w
             = Ok {| _segments := segs; fs_client := fs; _vfspath := None |} w'.
Proof.
  unfold GofilePath_init, bind, ret. destruct fs as [c|]; [|eauto].
  destruct (root_infos w !! _root_folder c); eauto.
Qed.

Lemma GofilePath_resolve_value (p p1 : GofilePath) (w w1 : World) :
  GofilePath_resolve p w = Ok p1 w1 ->
  p1 = path_of_string (resolve_string p) (fs_client p).
Proof.
  unfold GofilePath_resolve, with_segments.
  destruct (GofilePath_init_value [resolve_string p] (fs_client p) w) as [w' ->].
  intros [= <- _]. reflexivity.
Qed.

(** X24. [GofilePath.resolve()] returns, and twice in a row it gives the same
    string as once, except on a path whose normalized string starts
    with [..]. *)
Lemma GofilePath_resolve_idempotent (p : GofilePath) (w : World) :
  head (PyStr.split posixpath.sepc (posixpath.normpath (str p))) <> Some ".." ->
  exists p1 w1 p2 w2,
    GofilePath_resolve p w = Ok p1 w1
    /\ GofilePath_resolve p1 w1 = Ok p2 w2
    /\ str p2 = str p1.
Proof.
  intros Hh. unfold GofilePath_resolve, with_segments.
  destruct (GofilePath_init_value [resolve_string p] (fs_client p) w) as [w1 E1].
  rewrite E1.
  destruct (GofilePath_init_value
              [resolve_string (path_of_string (resolve_string p) (fs_client p))]
              (fs_client p) w1) as [w2 E2].
  do 4 eexists. split; [reflexivity|]. split; [exact E2|].
  apply (resolve_string_idempotent p (fs_client p) (fs_client p) Hh).
Qed.

(** C7, evaluated on the relative path [..]: [resolve()] gives [/..],
    and [resolve()] of that gives [/]. *)
Theorem resolve_twice_differs_on_pardir :
  exists (p1 p2 : GofilePath) (w1 w2 : World),
    GofilePath_resolve (ex_path [".."]) ex_world_ready = Ok p1 w1
    /\ GofilePath_resolve p1 w1 = Ok p2 w2
    /\ str p1 = "/.." /\ str p2 = "/".
Proof.
  do 4 eexists. split; [vm_compute; reflexivity|].
  split; [vm_compute; reflexivity|].
  split; reflexivity.
Qed.

(** ** Listing a folder *)

Arguments ensure_updated : simpl never.
Arguments sorted : simpl never.


(** [_get_children] called as the source calls it: on the folder given,
    or on the root folder when [None] is given; what [ensure_updated]
    returns is dropped. *)
Lemma _get_children_run (env : Env) (self : GofileFSClient)
    (folder : option GofileContent) (w : World) :
  _get_children env self {["folder" := folder]} w
  = match ensure_updated env (Some (default (_root_folder self) folder)) w with
    | Ok _ w1 =>
        match default (_root_folder self) folder with
        | GofileFolder i =>
            Ok (sorted (children_le (store w1)) (children (store w1) (GofileFolder i))) w1
        | GofileFile _ => Raise AttributeError w1
        end
    | Raise e w1 => Raise e w1
    end.
Proof.
  unfold _get_children, _update_folder, with_defaults. simpl.
  rewrite lookup_singleton_eq.
  destruct folder as [c|]; simpl.
  - rewrite lookup_singleton_eq. simpl. unfold bind.
    destruct (ensure_updated env (Some c) w) as [c' w1|e w1]; [|reflexivity].
    unfold _get_children_body. rewrite lookup_singleton_eq. simpl.
    destruct c; reflexivity.
  - rewrite lookup_insert_eq. simpl. unfold bind.
    destruct (ensure_updated env (Some (_root_folder self)) w) as [c' w1|e w1];
      [|reflexivity].
    unfold _get_children_body. rewrite lookup_insert_eq. simpl.
    destruct (_root_folder self); reflexivity.
Qed.

Lemma named_In (st : Store) (nm : string) (l : list GofileContent) (ch : GofileContent) :
  In ch (named st nm l) <-> In ch l /\ name st ch = nm.
Proof.
  unfold named. rewrite filter_In. rewrite String.eqb_eq. reflexivity.
Qed.

Lemma pick_spec (st : Store) (chn : list GofileContent) (nm : string) :
  In nm (map (name st) chn) ->
  last (named st nm chn) = Some (pick st chn nm)
  /\ In (pick st chn nm) chn /\ name st (pick st chn nm) = nm.
Proof.
  intros Hin. apply in_map_iff in Hin as (ch & Hnm & Hch).
  assert (Hne : named st nm chn <> []).
  { intros E. assert (H : In ch (named st nm chn)) by (apply named_In; auto).
    rewrite E in H. destruct H. }
  unfold pick. destruct (last (named st nm chn)) as [x|] eqn:Hl.
  - simpl. split; [reflexivity|].
    apply last_Some_elem_of, list_elem_of_In, named_In in Hl. exact Hl.
  - apply last_None in Hl. contradiction.
Qed.

Lemma append_last_named_ok (st : Store) (chn : list GofileContent)
    (names : list string) (acc : list GofileContent) (w : World) :
  (forall nm, In nm names -> In nm (map (name st) chn)) ->
  append_last_named st chn names acc w = Ok (acc ++ map (pick st chn) names) w.
Proof.
  revert acc. induction names as [|nm names IH]; intros acc Hin; simpl.
  - rewrite app_nil_r. reflexivity.
  - destruct (pick_spec st chn nm) as (-> & _); [apply Hin; left; reflexivity|].
    rewrite IH by (intros; apply Hin; right; assumption).
    rewrite <- app_assoc. reflexivity.
Qed.

(** [get_children], run: the listing is computed from the children
    that the folder object holds once [ensure_updated] is done. *)
Lemma get_children_run (env : Env) (self : GofileFSClient)
    (folder : option GofileContent) (w : World) :
  set_iter_ok (set_iter env) ->
  get_children env self folder w
  = match _get_children env self {["folder" := folder]} w with
    | Ok chn w1 =>
        let st := store w1 in
        Ok (sorted (listing_le st)
              (map (pick st chn) (set_iter env (map (name st) chn)))) w1
    | Raise e w1 => Raise e w1
    end.
Proof.
  intros Hok. unfold get_children, bind, get_store.
  destruct (_get_children env self {["folder" := folder]} w) as [chn w1|e w1];
    [|reflexivity].
  rewrite append_last_named_ok by (intros nm; apply (Hok _)).
  reflexivity.
Qed.

Lemma get_content_run (env : Env) (self : GofileFSClient)
    (folder : option GofileContent) (nm : string) (w : World) :
  get_content env self folder nm w
  = match _get_children env self {["folder" := folder]} w with
    | Ok chn w1 => Ok (last (named (store w1) nm chn)) w1
    | Raise e w1 => Raise e w1
    end.
Proof.
  unfold get_content, bind, get_store.
  destruct (_get_children env self {["folder" := folder]} w); reflexivity.
Qed.

Section Orders.

Variable st : Store.

Lemma children_le_trans : Transitive (fun a b => children_le st a b = true).
Proof. intros a b c. apply key3_le_trans. Qed.

Lemma listing_le_trans : Transitive (fun a b => listing_le st a b = true).
Proof. intros a b c. apply key2_le_trans. Qed.

Lemma children_le_total (a b : GofileContent) :
  children_le st a b = true \/ children_le st b a = true.
Proof. apply key3_le_total. Qed.

Lemma listing_le_total (a b : GofileContent) :
  listing_le st a b = true \/ listing_le st b a = true.
Proof. apply key2_le_total. Qed.

Lemma sorted_children_StronglySorted (l : list GofileContent) :
  StronglySorted (fun a b => children_le st a b = true) (sorted (children_le st) l).
Proof.
  apply Sorted_StronglySorted; [apply children_le_trans|].
  apply sorted_Sorted, children_le_total.
Qed.

Lemma sorted_listing_StronglySorted (l : list GofileContent) :
  StronglySorted (fun a b => listing_le st a b = true) (sorted (listing_le st) l).
Proof.
  apply Sorted_StronglySorted; [apply listing_le_trans|].
  apply sorted_Sorted, listing_le_total.
Qed.

End Orders.

Lemma StronglySorted_List_filter {A} (R : relation A) (f : A -> bool) (l : list A) :
  StronglySorted R l -> StronglySorted R (List.filter f l).
Proof.
  induction 1 as [|x l Hl IH Hx]; simpl; [constructor|].
  destruct (f x); [|exact IH].
  constructor; [exact IH|].
  rewrite Forall_forall in *. intros y Hy. apply Hx.
  rewrite list_elem_of_In in *. apply filter_In in Hy. tauto.
Qed.

Lemma StronglySorted_lookup {A} (R : relation A) (l : list A) (i j : nat) (a b : A) :
  StronglySorted R l -> l !! i = Some a -> l !! j = Some b -> (i < j)%nat -> R a b.
Proof.
  intros Hl. revert i j. induction Hl as [|x l Hl IH Hx]; intros i j Hi Hj Hlt.
  - discriminate.
  - destruct j as [|j]; [lia|]. destruct i as [|i]; simpl in *.
    + injection Hi as ->. rewrite Forall_forall in Hx. apply Hx.
      eapply list_elem_of_lookup_2. exact Hj.
    + eapply IH; eauto. lia.
Qed.

(** Among the children of one name, the one selected is the last in
    the order (kind, creation time): a file of that name wins over every
    folder of that name, and within one kind the latest created wins. *)
Lemma last_named_sorted (st : Store) (l : list GofileContent) (nm : string)
    (ch : GofileContent) :
  last (named st nm (sorted (children_le st) l)) = Some ch ->
  In ch l /\ name st ch = nm
  /\ forall ch', In ch' l -> name st ch' = nm ->
       (is_file_type ch' = true -> is_file_type ch = true)
       /\ (is_file_type ch' = is_file_type ch ->
           time_created st ch' <= time_created st ch).
Proof.
  intros Hlast.
  assert (Hin : In ch (sorted (children_le st) l) /\ name st ch = nm)
    by (apply named_In, list_elem_of_In, last_Some_elem_of, Hlast).
  destruct Hin as [Hin Hnm]. split; [|split; [exact Hnm|]].
  { apply (proj1 (sorted_In (children_le st) l ch)). exact Hin. }
  intros ch' Hin' Hnm'.
  assert (Hle : children_le st ch' ch = true \/ ch' = ch).
  { pose proof (StronglySorted_List_filter _ (fun c => String.eqb (name st c) nm) _
                  (sorted_children_StronglySorted st l)) as Hs.
    fold (named st nm (sorted (children_le st) l)) in Hs.
    apply last_Some in Hlast as [l' Hl']. rewrite Hl' in Hs.
    assert (Hm : In ch' (l' ++ [ch])).
    { rewrite <- Hl'. apply named_In. split; [|exact Hnm'].
      apply (proj2 (sorted_In (children_le st) l ch')). exact Hin'. }
    apply in_app_or in Hm as [Hm|[Hm|[]]]; [left|right; congruence].
    refine (StronglySorted_app_1_elem_of
              (fun a b => children_le st a b = true) l' [ch] ch' ch Hs _ _).
    - apply list_elem_of_In. exact Hm.
    - apply list_elem_of_In. left. reflexivity. }
  destruct Hle as [Hle| ->]; [|split; [auto|lia]].
  unfold children_le, key3_le, child_key3 in Hle. simpl in Hle.
  rewrite Hnm, Hnm', string_compare_refl in Hle.
  destruct (is_file_type ch'), (is_file_type ch); simpl in Hle;
    try discriminate; split; auto; try discriminate; intros _; lia.
Qed.

(** X7. What [get_content] selects in a folder: a child of that name; a
    file of that name when there is one; the latest created among the
    children of that name and of its kind. *)
Lemma get_content_selects (env : Env) (self : GofileFSClient) (f : nat)
    (nm : string) (w w1 : World) (ch : GofileContent) :
  get_content env self (Some (GofileFolder f)) nm w = Ok (Some ch) w1 ->
  In ch (children (store w1) (GofileFolder f)) /\ name (store w1) ch = nm
  /\ forall ch', In ch' (children (store w1) (GofileFolder f)) ->
       name (store w1) ch' = nm ->
       (is_file_type ch' = true -> is_file_type ch = true)
       /\ (is_file_type ch' = is_file_type ch ->
           time_created (store w1) ch' <= time_created (store w1) ch).
Proof.
  rewrite get_content_run, _get_children_run. simpl.
  destruct (ensure_updated env (Some (GofileFolder f)) w) as [c' w'|e w'];
    [|discriminate].
  intros [= Hl <-]. apply last_named_sorted. exact Hl.
Qed.

(** The entries picked for the names of a set: one per name. *)
Lemma picks_names (st : Store) (chn : list GofileContent) (names : list string) :
  (forall nm, In nm names -> In nm (map (name st) chn)) ->
  map (name st) (map (pick st chn) names) = names.
Proof.
  induction names as [|nm names IH]; intros Hin; simpl; [reflexivity|].
  destruct (pick_spec st chn nm) as (_ & _ & ->); [apply Hin; left; reflexivity|].
  rewrite IH by (intros; apply Hin; right; assumption). reflexivity.
Qed.

Lemma listing_names_NoDup (st : Store) (chn : list GofileContent) (names : list string) :
  NoDup names ->
  (forall nm, In nm names -> In nm (map (name st) chn)) ->
  NoDup (map (name st) (sorted (listing_le st) (map (pick st chn) names))).
Proof.
  intros Hnd Hin.
  assert (Hp : Permutation (map (name st) (sorted (listing_le st) (map (pick st chn) names)))
                 names).
  { rewrite <- (picks_names st chn names Hin) at 2.
    apply Permutation_map, sorted_perm. }
  rewrite Hp. exact Hnd.
Qed.

Lemma listing_ordered (st : Store) (chn : list GofileContent) (names : list string) :
  NoDup names ->
  (forall nm, In nm names -> In nm (map (name st) chn)) ->
  folders_first_by_name st (sorted (listing_le st) (map (pick st chn) names)).
Proof.
  intros Hnd Hin i j a b Hi Hj Hlt.
  pose proof (StronglySorted_lookup _ _ i j a b
                (sorted_listing_StronglySorted st _) Hi Hj Hlt) as Hle.
  assert (Hne : name st a <> name st b).
  { intros E. pose proof (listing_names_NoDup st chn names Hnd Hin) as Hn.
    assert (i = j); [|lia].
    eapply NoDup_lookup; [exact Hn| |].
    - rewrite list_lookup_fmap, Hi. reflexivity.
    - rewrite list_lookup_fmap, Hj. simpl. rewrite E. reflexivity. }
  unfold listing_le, key2_le, child_key2 in Hle. simpl in Hle.
  destruct (is_file_type a), (is_file_type b); simpl in Hle; try discriminate;
    split; auto; try discriminate; intros _;
    unfold String.leb in Hle; unfold String.ltb;
    destruct (String.compare (name st a) (name st b)) eqn:Hc; try discriminate;
    try reflexivity; apply String.compare_eq_iff in Hc; contradiction.
Qed.

(** The listing does not depend on the order in which the set of names
    is iterated. *)
Lemma listing_order_irrelevant (st : Store) (chn : list GofileContent)
    (names1 names2 : list string) :
  NoDup names1 -> NoDup names2 ->
  (forall nm, In nm names1 <-> In nm (map (name st) chn)) ->
  (forall nm, In nm names2 <-> In nm (map (name st) chn)) ->
  sorted (listing_le st) (map (pick st chn) names1)
  = sorted (listing_le st) (map (pick st chn) names2).
Proof.
  intros Hnd1 Hnd2 H1 H2.
  assert (Hp : Permutation names1 names2).
  { apply NoDup_Permutation; [assumption..|].
    intros x. rewrite !list_elem_of_In, H1, H2. reflexivity. }
  apply (StronglySorted_unique_strong (fun a b => listing_le st a b = true)).
  - intros x1 x2 Hx1 Hx2 Hle1 Hle2.
    apply list_elem_of_In, (proj1 (sorted_In _ _ _)), in_map_iff in Hx1
      as (n1 & <- & Hn1).
    apply list_elem_of_In, (proj1 (sorted_In _ _ _)), in_map_iff in Hx2
      as (n2 & <- & Hn2).
    pose proof (key2_le_antisym _ _ Hle1 Hle2) as E.
    unfold child_key2 in E. injection E as _ E.
    destruct (pick_spec st chn n1) as (_ & _ & E1); [apply H1, Hn1|].
    destruct (pick_spec st chn n2) as (_ & _ & E2); [apply H2, Hn2|].
    congruence.
  - apply sorted_listing_StronglySorted.
  - apply sorted_listing_StronglySorted.
  - rewrite !sorted_perm. apply Permutation_map. exact Hp.
Qed.

(** What [_get_children] returns, once it has returned: the children
    that the folder object holds after the refresh, sorted. *)
Lemma _get_children_value (env : Env) (self : GofileFSClient)
    (folder : option GofileContent) (w w1 : World) (chn : list GofileContent) :
  _get_children env self {["folder" := folder]} w = Ok chn w1 ->
  chn = sorted (children_le (store w1))
          (children (store w1) (default (_root_folder self) folder)).
Proof.
  rewrite _get_children_run.
  destruct (ensure_updated env (Some (default (_root_folder self) folder)) w)
    as [c' w'|e w']; [|discriminate].
  destruct (default (_root_folder self) folder); [discriminate|].
  intros [= <- <-]. reflexivity.
Qed.

(** The entries of a listing: their names are the names given, and
    each entry is the last child of its name. *)
Lemma listing_entries (st : Store) (chn : list GofileContent) (names : list string) :
  (forall nm, In nm names <-> In nm (map (name st) chn)) ->
  (forall nm, In nm (map (name st) (sorted (listing_le st) (map (pick st chn) names)))
              <-> In nm (map (name st) chn))
  /\ (forall ch, In ch (sorted (listing_le st) (map (pick st chn) names)) ->
        In ch chn /\ last (named st (name st ch) chn) = Some ch).
Proof.
  intros Hin.
  assert (Hin' : forall nm, In nm names -> In nm (map (name st) chn))
    by (intros nm; apply (proj1 (Hin nm))).
  split.
  - intros nm. rewrite <- Hin.
    assert (Hp : Permutation (map (name st) (sorted (listing_le st) (map (pick st chn) names)))
                   names).
    { rewrite <- (picks_names st chn names Hin') at 2.
      apply Permutation_map, sorted_perm. }
    split; intros Hnm.
    + eapply Permutation_in; [exact Hp|exact Hnm].
    + eapply Permutation_in; [symmetry; exact Hp|exact Hnm].
  - intros ch Hc. apply (proj1 (sorted_In _ _ _)), in_map_iff in Hc as (nm & <- & Hnm).
    destruct (pick_spec st chn nm (Hin' nm Hnm)) as (Hl & Hc & E).
    split; [exact Hc|]. rewrite E. exact Hl.
Qed.

(** C5. The listing of [get_children] has every folder before every
    file and, within each kind, names in strictly increasing order; it
    is the same whatever the order in which the set of names is
    iterated; and the loop over the names raises nothing: an exception
    of [get_children] is one of [_get_children].  The listing is the
    deduplicated listing of the folder (the one given, or the root
    folder when [None] is given): its names are pairwise distinct and
    are exactly the names of the children of the folder, every entry is
    one of these children, namely the one that [get_content] returns
    for its name; and [get_children] returns whenever [_get_children]
    does. *)
Theorem get_children_folders_first_by_name (env : Env) (self : GofileFSClient)
    (folder : option GofileContent) (w : World) :
  set_iter_ok (set_iter env) ->
  (forall l w', get_children env self folder w = Ok l w' ->
     folders_first_by_name (store w') l)
  /\ (forall f, set_iter_ok f ->
        get_children (with_set_iter f env) self folder w
        = get_children env self folder w)
  /\ (forall e w', get_children env self folder w = Raise e w' ->
        _get_children env self {["folder" := folder]} w = Raise e w')
  /\ (forall l w', get_children env self folder w = Ok l w' ->
        NoDup (map (name (store w')) l)
        /\ (forall nm,
              In nm (map (name (store w')) l)
              <-> In nm (map (name (store w'))
                           (children (store w') (default (_root_folder self) folder))))
        /\ (forall ch, In ch l ->
              In ch (children (store w') (default (_root_folder self) folder))
              /\ get_content env self folder (name (store w') ch) w = Ok (Some ch) w'))
  /\ (forall chn w', _get_children env self {["folder" := folder]} w = Ok chn w' ->
        exists l, get_children env self folder w = Ok l w').
Proof.
  intros Hok. split; [|split; [|split; [|split]]].
  - intros l w'. rewrite (get_children_run env self folder w Hok).
    destruct (_get_children env self {["folder" := folder]} w) as [chn w1|e w1];
      [|discriminate].
    simpl. intros [= <- <-].
    apply listing_ordered; [apply (Hok _)|intros nm; apply (Hok _)].
  - intros f Hf.
    rewrite (get_children_run env self folder w Hok).
    rewrite (get_children_run (with_set_iter f env) self folder w Hf).
    change (_get_children (with_set_iter f env)) with (_get_children env).
    destruct (_get_children env self {["folder" := folder]} w) as [chn w1|e w1];
      [|reflexivity].
    simpl. f_equal.
    apply listing_order_irrelevant.
    + apply (Hf _).
    + apply (Hok _).
    + intros nm. apply (Hf _).
    + intros nm. apply (Hok _).
  - intros e w'. rewrite (get_children_run env self folder w Hok).
    destruct (_get_children env self {["folder" := folder]} w) as [chn w1|e1 w1];
      [discriminate|].
    intros [= <- <-]. reflexivity.
  - intros l w'. rewrite (get_children_run env self folder w Hok).
    destruct (_get_children env self {["folder" := folder]} w) as [chn w1|e w1] eqn:Eg;
      [|discriminate].
    simpl. intros [= <- <-].
    pose proof (_get_children_value env self folder w w1 chn Eg) as Hchn.
    set (st := store w1) in *.
    set (names := set_iter env (map (name st) chn)).
    assert (Hnames : forall nm, In nm names <-> In nm (map (name st) chn))
      by (intros nm; apply (Hok _)).
    assert (Hsrc : forall ch, In ch chn
                     <-> In ch (children st (default (_root_folder self) folder))).
    { intros ch. rewrite Hchn. apply sorted_In. }
    destruct (listing_entries st chn names Hnames) as [Hn He].
    split; [|split].
    + apply listing_names_NoDup; [apply (Hok _)|intros nm; apply (proj1 (Hnames nm))].
    + intros nm. rewrite (Hn nm), !in_map_iff.
      split; intros (ch & E & Hc); exists ch; (split; [exact E|]); apply Hsrc; exact Hc.
    + intros ch Hc. destruct (He ch Hc) as [Hc' Hl].
      split; [apply Hsrc; exact Hc'|]. rewrite get_content_run, Eg. fold st.
      rewrite Hl. reflexivity.
  - intros chn w' Eg. rewrite (get_children_run env self folder w Hok), Eg.
    eexists. reflexivity.
Qed.

Lemma remove_dups_ok : set_iter_ok remove_dups.
Proof.
  intros l. split; [apply NoDup_remove_dups|].
  intros x. rewrite <- !list_elem_of_In. apply elem_of_remove_dups.
Qed.

Lemma rev_remove_dups_ok : set_iter_ok (fun l => rev (remove_dups l)).
Proof.
  intros l. split.
  - apply NoDup_ListNoDup, NoDup_rev, NoDup_ListNoDup, NoDup_remove_dups.
  - intros x. rewrite <- in_rev. apply remove_dups_ok.
Qed.

Lemma get_children_folders_first_by_name_witness :
  set_iter_ok (set_iter ex_env)
  /\ get_children ex_env ex_client (Some ex_root) ex_world
     = Ok [GofileFolder 4; GofileFile 2; GofileFile 3]
          (world_of (get_children ex_env ex_client (Some ex_root) ex_world))
  /\ folders_first_by_name ex_store [GofileFolder 4; GofileFile 2; GofileFile 3]
  /\ NoDup (map (name ex_store) [GofileFolder 4; GofileFile 2; GofileFile 3])
  /\ (forall nm,
        In nm (map (name ex_store) [GofileFolder 4; GofileFile 2; GofileFile 3])
        <-> In nm (map (name ex_store) (children ex_store ex_root)))
  /\ get_content ex_env ex_client (Some ex_root) "a" ex_world
     = Ok (Some (GofileFile 2))
          (world_of (get_children ex_env ex_client (Some ex_root) ex_world))
  /\ get_children ex_env_rev ex_client (Some ex_root) ex_world
     = get_children ex_env ex_client (Some ex_root) ex_world.
Proof.
  assert (H : get_children ex_env ex_client (Some ex_root) ex_world
              = Ok [GofileFolder 4; GofileFile 2; GofileFile 3]
                   (world_of (get_children ex_env ex_client (Some ex_root) ex_world)))
    by (vm_compute; reflexivity).
  split; [exact remove_dups_ok|]. split; [exact H|].
  destruct (get_children_folders_first_by_name ex_env ex_client (Some ex_root) ex_world
              remove_dups_ok) as (H1 & H2 & _ & H4 & _).
  destruct (H4 _ _ H) as (Hnd & Hnames & Hent).
  split; [exact (H1 _ _ H)|]. split; [exact Hnd|]. split; [exact Hnames|].
  split.
  - exact (proj2 (Hent (GofileFile 2) (or_intror (or_introl eq_refl)))).
  - apply (H2 (fun l => rev (remove_dups l))). exact rev_remove_dups_ok.
Defined.

(** C10. When the refresh of the folder reports content-not-found,
    [ensure_updated] answers [None], yet [_get_children] goes on with
    the folder object (the one given, or the root folder when [None] is
    given): it returns the children the object still holds, sorted;
    [get_content] looks the name up among them and [get_children]
    returns their listing without raising: every entry is one of these
    children and every name among them has its entry. *)
Theorem get_children_reads_evicted_folder (env : Env) (self : GofileFSClient)
    (folder : option GofileContent) (f : nat) (w : World) :
  set_iter_ok (set_iter env) ->
  default (_root_folder self) folder = GofileFolder f ->
  needs_reload env w (GofileFolder f) = true ->
  reload_answer env w (GofileFolder f) = inr GofileAPIContentNotFoundError ->
  exists w',
    ensure_updated env (Some (GofileFolder f)) w = Ok None w'
    /\ store w' = store w
    /\ _get_children env self {["folder" := folder]} w
       = Ok (sorted (children_le (store w)) (children (store w) (GofileFolder f))) w'
    /\ (forall nm,
          get_content env self folder nm w
          = Ok (last (named (store w) nm
                        (sorted (children_le (store w))
                           (children (store w) (GofileFolder f))))) w')
    /\ exists l,
         get_children env self folder w = Ok l w'
         /\ (forall ch, In ch l -> In ch (children (store w) (GofileFolder f)))
         /\ (forall ch, In ch (children (store w) (GofileFolder f)) ->
               exists ch', In ch' l /\ name (store w) ch' = name (store w) ch).
Proof.
  intros Hok Hf Hs Hr.
  pose proof (ensure_updated_stale env w (GofileFolder f) Hs) as He.
  simpl in He. rewrite Hr in He. simpl in He.
  eexists. split; [exact He|]. split; [reflexivity|].
  assert (Hg : _get_children env self {["folder" := folder]} w
               = Ok (sorted (children_le (store w)) (children (store w) (GofileFolder f)))
                    {| store := store w; when_updated := when_updated w;
                       clock_reads := reads_after_test w (GofileFolder f);
                       reload_calls := reload_calls w ++ [GofileFolder f];
                       infos := infos w; root_infos := root_infos w |}).
  { rewrite _get_children_run, Hf, He. reflexivity. }
  split; [exact Hg|].
  split; [intros nm; rewrite get_content_run, Hg; reflexivity|].
  rewrite (get_children_run env self _ w Hok), Hg. simpl.
  eexists. split; [reflexivity|]. split.
  - intros ch Hin.
    apply (proj1 (sorted_In _ _ _)), in_map_iff in Hin as (nm & <- & Hnm).
    apply (proj1 (proj2 (Hok _) _)) in Hnm.
    destruct (pick_spec _ _ _ Hnm) as (_ & Hin & _).
    apply (proj1 (sorted_In _ _ _)) in Hin. exact Hin.
  - intros ch Hin.
    assert (Hnm : In (name (store w) ch)
                    (map (name (store w))
                       (sorted (children_le (store w))
                          (children (store w) (GofileFolder f))))).
    { apply in_map. apply (proj2 (sorted_In _ _ _)). exact Hin. }
    exists (pick (store w)
              (sorted (children_le (store w)) (children (store w) (GofileFolder f)))
              (name (store w) ch)).
    split.
    + apply (proj2 (sorted_In _ _ _)). apply in_map.
      apply (proj2 (proj2 (Hok _) _)). exact Hnm.
    + apply pick_spec. exact Hnm.
Qed.

Lemma get_children_reads_evicted_folder_witness :
  set_iter_ok (set_iter ex_env_gone)
  /\ default (_root_folder ex_client) None = GofileFolder 0
  /\ needs_reload ex_env_gone ex_world_stale (GofileFolder 0) = true
  /\ reload_answer ex_env_gone ex_world_stale (GofileFolder 0)
     = inr GofileAPIContentNotFoundError
  /\ exists w',
       ensure_updated ex_env_gone (Some (GofileFolder 0)) ex_world_stale = Ok None w'
       /\ store w' = store ex_world_stale
       /\ _get_children ex_env_gone ex_client {["folder" := None]} ex_world_stale
          = Ok (sorted (children_le (store ex_world_stale))
                  (children (store ex_world_stale) (GofileFolder 0))) w'
       /\ (forall nm,
             get_content ex_env_gone ex_client None nm ex_world_stale
             = Ok (last (named (store ex_world_stale) nm
                           (sorted (children_le (store ex_world_stale))
                              (children (store ex_world_stale) (GofileFolder 0))))) w')
       /\ exists l,
            get_children ex_env_gone ex_client None ex_world_stale = Ok l w'
            /\ (forall ch, In ch l ->
                  In ch (children (store ex_world_stale) (GofileFolder 0)))
            /\ (forall ch, In ch (children (store ex_world_stale) (GofileFolder 0)) ->
                  exists ch', In ch' l
                              /\ name (store ex_world_stale) ch'
                                 = name (store ex_world_stale) ch).
Proof.
  split; [exact remove_dups_ok|]. split; [reflexivity|].
  split; [reflexivity|]. split; [reflexivity|].
  apply (get_children_reads_evicted_folder ex_env_gone ex_client None 0 ex_world_stale
           remove_dups_ok eq_refl eq_refl eq_refl).
Defined.

(** C1, evaluated on a root folder that holds a folder [a] created at 2
    and a file [a] created at 1: [get_content] and [get_children] select
    the file, which is not the latest created of the two. *)
Theorem latest_created_loses_to_file :
  In (GofileFolder 1) (children ex_store ex_root)
  /\ In (GofileFile 2) (children ex_store ex_root)
  /\ name ex_store (GofileFolder 1) = name ex_store (GofileFile 2)
  /\ time_created ex_store (GofileFile 2) < time_created ex_store (GofileFolder 1)
  /\ value_of (get_content ex_env ex_client (Some ex_root) "a" ex_world)
     = Some (Some (GofileFile 2))
  /\ value_of (get_children ex_env ex_client (Some ex_root) ex_world)
     = Some [GofileFolder 4; GofileFile 2; GofileFile 3].
Proof.
  repeat split; simpl; auto; try lia; vm_compute; reflexivity.
Qed.

(** * Further properties of the code *)

(** ** [decorators.py] *)

(** X1. [compose_decorators] applies the decorators as if they were
    written from top to bottom: the first one is the outermost, and
    composing a concatenation is composing the compositions. *)
Theorem compose_decorators_top_to_bottom {F : Type} (d : F -> F)
    (ds1 ds2 : list (F -> F)) (func : F) :
  compose_decorators [] func = func
  /\ compose_decorators (d :: ds1) func = d (compose_decorators ds1 func)
  /\ compose_decorators (ds1 ++ ds2) func
     = compose_decorators ds1 (compose_decorators ds2 func).
Proof.
  unfold compose_decorators. split; [reflexivity|]. split.
  - simpl. rewrite fold_left_app. reflexivity.
  - rewrite rev_app_distr, fold_left_app. reflexivity.
Qed.

Lemma default_of_cons_ne {Obj V : Type} (k0 k : string) (d0 : default_value Obj V)
    (defs : list (string * default_value Obj V)) :
  k0 <> k -> default_of ((k0, d0) :: defs) k = default_of defs k.
Proof.
  intros Hne. unfold default_of. simpl.
  apply String.eqb_neq in Hne. rewrite Hne. reflexivity.
Qed.

Lemma default_of_not_in {Obj V : Type} (k : string)
    (defs : list (string * default_value Obj V)) :
  ~ In k (map fst defs) -> default_of defs k = None.
Proof.
  unfold default_of. induction defs as [|[k0 d0] defs IH]; simpl; [reflexivity|].
  intros Hn. destruct (String.eqb k0 k) eqn:E.
  - apply String.eqb_eq in E. tauto.
  - apply IH. tauto.
Qed.

(** X2. [with_defaults] calls the function with keyword arguments in
    which a value that was given and is not [None] is kept, a key of
    the defaults that is absent or [None] holds its default (evaluated
    on the object when callable), and any other key is as it was. *)
Theorem with_defaults_fills_what_is_missing {Obj A : Type}
    (defs : list (string * default_value Obj (option GofileContent)))
    (func : Obj -> kwargs -> A) (obj : Obj) (kw : kwargs) :
  List.NoDup (map fst defs) ->
  exists kw' : kwargs,
    with_defaults defs func obj kw = func obj kw'
    /\ forall k,
         kw' !! k
         = match kw !! k with
           | Some (Some v) => Some (Some v)
           | other =>
               match default_of defs k with
               | Some d => Some (eval_default d obj)
               | None => other
               end
           end.
Proof.
  unfold with_defaults. revert kw.
  induction defs as [|[k0 d0] defs IH]; intros kw Hnd.
  - exists kw. split; [reflexivity|]. intros k.
    destruct (kw !! k) as [[v|]|]; reflexivity.
  - inversion Hnd as [|? ? Hk0 Hnd']; subst. cbn [fold_left fst snd].
    set (kw1 := match kw !! k0 with
                | Some (Some _) => kw
                | _ => <[k0 := match d0 with callable f => f obj | constant v => v end]> kw
                end).
    destruct (IH kw1 Hnd') as (kw' & E & Hkw'). exists kw'. split; [exact E|].
    intros k. rewrite Hkw'. destruct (decide (k0 = k)) as [<-|Hne].
    + rewrite (default_of_not_in k0 defs Hk0).
      unfold default_of. simpl. rewrite String.eqb_refl. simpl.
      subst kw1. destruct (kw !! k0) as [[v|]|] eqn:Ek.
      * rewrite Ek. reflexivity.
      * rewrite lookup_insert_eq. unfold eval_default.
        destruct d0 as [f|v0]; [destruct (f obj)|destruct v0]; reflexivity.
      * rewrite lookup_insert_eq. unfold eval_default.
        destruct d0 as [f|v0]; [destruct (f obj)|destruct v0]; reflexivity.
    + rewrite (default_of_cons_ne k0 k d0 defs Hne).
      assert (Ek : kw1 !! k = kw !! k).
      { subst kw1. destruct (kw !! k0) as [[v|]|]; [reflexivity| |];
          apply lookup_insert_ne; exact Hne. }
      rewrite Ek. reflexivity.
Qed.

Lemma with_defaults_fills_what_is_missing_witness :
  List.NoDup (map fst [("folder", callable (fun self => Some (_root_folder self)))])
  /\ exists kw' : kwargs,
       with_defaults [("folder", callable (fun self => Some (_root_folder self)))]
         (fun (_ : GofileFSClient) (kw : kwargs) => kw) ex_client {["folder" := None]}
       = kw'
       /\ forall k,
            kw' !! k
            = match ({["folder" := None]} : kwargs) !! k with
              | Some (Some v) => Some (Some v)
              | other =>
                  match default_of
                          [("folder", callable (fun self => Some (_root_folder self)))] k with
                  | Some d => Some (eval_default d ex_client)
                  | None => other
                  end
              end.
Proof.
  split; [repeat constructor; simpl; tauto|].
  apply (with_defaults_fills_what_is_missing
           [("folder", callable (fun self => Some (_root_folder self)))]
           (fun (_ : GofileFSClient) (kw : kwargs) => kw) ex_client {["folder" := None]}).
  repeat constructor; simpl; tauto.
Defined.

(** ** [ensure_updated] and the property [root_folder] *)

Lemma ensure_updated_no_not_found (env : Env) (c0 : option GofileContent) :
  never_not_found (ensure_updated env c0).
Proof.
  intros w. destruct c0 as [c|]; [|discriminate].
  destruct (needs_reload env w c) eqn:Hs.
  - rewrite (ensure_updated_stale env w c Hs). simpl.
    destruct (reload_answer env w c) as [s'|e]; simpl; [discriminate|].
    destruct e; simpl; discriminate.
  - rewrite (ensure_updated_fresh env w c Hs). discriminate.
Qed.

(** X3. After a call of [ensure_updated] that returned the object, the
    object carries a refresh time, and a later call whose clock reading
    is not past that time by more than 15 s returns the object with no
    call of [reload()]: only the count of clock readings changes. *)
Theorem ensure_updated_again_within_ttl (env : Env) (c : GofileContent) (w w1 : World) :
  ensure_updated env (Some c) w = Ok (Some c) w1 ->
  exists t,
    when_updated w1 !! c = Some t
    /\ (now_at env (clock_reads w1) <= t + _UPDATE_AFTER ->
        ensure_updated env (Some c) w1
        = Ok (Some c) (with_clock_reads (S (clock_reads w1)) w1)).
Proof.
  intros H.
  assert (Ht : exists t, when_updated w1 !! c = Some t).
  { destruct (needs_reload env w c) eqn:Hs.
    - rewrite (ensure_updated_stale env w c Hs) in H. simpl in H.
      destruct (reload_answer env w c) as [s'|e].
      + injection H as <-. simpl. rewrite lookup_insert_eq. eauto.
      + destruct (is_content_not_found e); discriminate.
    - rewrite (ensure_updated_fresh env w c Hs) in H. injection H as <-. simpl.
      unfold needs_reload in Hs. destruct (when_updated w !! c); [eauto|discriminate]. }
  destruct Ht as [t Ht]. exists t. split; [exact Ht|].
  intros Hle. apply ensure_updated_fresh. unfold needs_reload. rewrite Ht. lia.
Qed.

Lemma ensure_updated_again_within_ttl_witness :
  ensure_updated ex_env (Some ex_root) ex_world_stale
  = Ok (Some ex_root) (world_of (ensure_updated ex_env (Some ex_root) ex_world_stale))
  /\ exists t,
       when_updated (world_of (ensure_updated ex_env (Some ex_root) ex_world_stale))
         !! ex_root = Some t
       /\ (now_at ex_env
             (clock_reads (world_of (ensure_updated ex_env (Some ex_root) ex_world_stale)))
           <= t + _UPDATE_AFTER ->
           ensure_updated ex_env (Some ex_root)
             (world_of (ensure_updated ex_env (Some ex_root) ex_world_stale))
           = Ok (Some ex_root)
                (with_clock_reads
                   (S (clock_reads
                         (world_of (ensure_updated ex_env (Some ex_root) ex_world_stale))))
                   (world_of (ensure_updated ex_env (Some ex_root) ex_world_stale)))).
Proof.
  split; [vm_compute; reflexivity|].
  apply (ensure_updated_again_within_ttl ex_env ex_root ex_world_stale).
  vm_compute; reflexivity.
Defined.

(** X4. [ensure_updated] on an object leaves the path-info objects and
    the [_when_updated] of every other object as they are, makes at most
    one call of [reload()], on that object, and when it makes none the
    attributes of all objects are untouched. *)
Theorem ensure_updated_touches_one_object (env : Env) (c : GofileContent) (w : World) :
  let w' := world_of (ensure_updated env (Some c) w) in
  infos w' = infos w
  /\ root_infos w' = root_infos w
  /\ (forall c', c' <> c -> when_updated w' !! c' = when_updated w !! c')
  /\ (reload_calls w' = reload_calls w \/ reload_calls w' = reload_calls w ++ [c])
  /\ (reload_calls w' = reload_calls w -> store w' = store w).
Proof.
  destruct (needs_reload env w c) eqn:Hs; cbv zeta.
  - rewrite (ensure_updated_stale env w c Hs). simpl.
    destruct (reload_answer env w c) as [s'|e]; simpl.
    + repeat split; auto.
      * intros c' Hne. apply lookup_insert_ne. congruence.
      * intros E. apply (f_equal length) in E. rewrite length_app in E. simpl in E. lia.
    + destruct (is_content_not_found e); simpl; repeat split; auto.
  - rewrite (ensure_updated_fresh env w c Hs). simpl. repeat split; auto.
Qed.

(** X5. The property [root_folder] gives the root folder object of the
    client whenever it returns; the content-not-found error never comes
    out of it; and when the refresh of the root folder reports
    content-not-found, the property still returns that object, with its
    attributes as they were. *)
Theorem root_folder_returns_the_root (env : Env) (self : GofileFSClient) (w : World) :
  (forall c w', root_folder env self w = Ok c w' -> c = _root_folder self)
  /\ raised (root_folder env self w) <> Some GofileAPIContentNotFoundError
  /\ (needs_reload env w (_root_folder self) = true ->
      reload_answer env w (_root_folder self) = inr GofileAPIContentNotFoundError ->
      exists w', root_folder env self w = Ok (_root_folder self) w'
                 /\ store w' = store w /\ when_updated w' = when_updated w).
Proof.
  unfold root_folder, _update_root, bind, ret. split; [|split].
  - intros c w'. destruct (ensure_updated env (Some (_root_folder self)) w);
      [intros [= <- _]; reflexivity|discriminate].
  - pose proof (ensure_updated_no_not_found env (Some (_root_folder self)) w) as H.
    destruct (ensure_updated env (Some (_root_folder self)) w); [discriminate|exact H].
  - intros Hs Hr. rewrite (ensure_updated_stale env w _ Hs). simpl. rewrite Hr. simpl.
    eexists. split; [reflexivity|]. split; reflexivity.
Qed.

Lemma root_folder_returns_the_root_witness :
  needs_reload ex_env_gone ex_world_stale (_root_folder ex_client) = true
  /\ reload_answer ex_env_gone ex_world_stale (_root_folder ex_client)
     = inr GofileAPIContentNotFoundError
  /\ exists w', root_folder ex_env_gone ex_client ex_world_stale
                = Ok (_root_folder ex_client) w'
                /\ store w' = store ex_world_stale
                /\ when_updated w' = when_updated ex_world_stale.
Proof.
  split; [reflexivity|]. split; [reflexivity|].
  apply (proj2 (proj2 (root_folder_returns_the_root ex_env_gone ex_client ex_world_stale)));
    reflexivity.
Defined.

(** ** Looking up and listing the children of a folder *)

(** X6. In a folder, [get_content] answers [None] exactly when no child
    of the folder, as it is after the refresh, has the name asked. *)
Theorem get_content_none_iff_no_such_name (env : Env) (self : GofileFSClient) (f : nat)
    (nm : string) (w w1 : World) (r : option GofileContent) :
  get_content env self (Some (GofileFolder f)) nm w = Ok r w1 ->
  (r = None <->
   forall ch, In ch (children (store w1) (GofileFolder f)) -> name (store w1) ch <> nm).
Proof.
  rewrite get_content_run, _get_children_run. simpl.
  destruct (ensure_updated env (Some (GofileFolder f)) w) as [c' w'|e w'];
    [|discriminate].
  intros [= <- <-]. rewrite last_None. split.
  - intros E ch Hin Hnm.
    assert (H : In ch (named (store w') nm
                         (sorted (children_le (store w'))
                            (children (store w') (GofileFolder f))))).
    { apply named_In. split; [|exact Hnm]. apply (proj2 (sorted_In _ _ _)). exact Hin. }
    rewrite E in H. destruct H.
  - intros Hno.
    destruct (named (store w') nm
                (sorted (children_le (store w')) (children (store w') (GofileFolder f))))
      as [|ch l] eqn:E; [reflexivity|].
    exfalso.
    assert (H : In ch (named (store w') nm
                         (sorted (children_le (store w'))
                            (children (store w') (GofileFolder f)))))
      by (rewrite E; left; reflexivity).
    apply named_In in H as [Hin Hnm].
    apply (Hno ch); [|exact Hnm].
    apply (proj1 (sorted_In (children_le (store w')) _ _)). exact Hin.
Qed.

Lemma get_content_none_iff_no_such_name_witness :
  get_content ex_env ex_client (Some (GofileFolder 0)) "zz" ex_world
  = Ok None (world_of (get_content ex_env ex_client (Some (GofileFolder 0)) "zz" ex_world))
  /\ ((None : option GofileContent) = None <->
      forall ch,
        In ch (children
                 (store (world_of (get_content ex_env ex_client (Some (GofileFolder 0))
                                     "zz" ex_world)))
                 (GofileFolder 0)) ->
        name (store (world_of (get_content ex_env ex_client (Some (GofileFolder 0))
                                 "zz" ex_world))) ch <> "zz").
Proof.
  split; [vm_compute; reflexivity|].
  apply (get_content_none_iff_no_such_name ex_env ex_client 0 "zz" ex_world).
  vm_compute; reflexivity.
Defined.

Lemma ensure_updated_touches_one_object_witness :
  when_updated (world_of (ensure_updated ex_env (Some ex_root) ex_world_stale))
    !! GofileFile 3
  = when_updated ex_world_stale !! GofileFile 3.
Proof.
  apply (proj1 (proj2 (proj2
           (ensure_updated_touches_one_object ex_env ex_root ex_world_stale)))).
  discriminate.
Defined.

Lemma get_content_selects_witness :
  get_content ex_env ex_client (Some (GofileFolder 0)) "a" ex_world
  = Ok (Some (GofileFile 2))
       (world_of (get_content ex_env ex_client (Some (GofileFolder 0)) "a" ex_world))
  /\ In (GofileFile 2) (children ex_store (GofileFolder 0))
  /\ name ex_store (GofileFile 2) = "a".
Proof.
  assert (H : get_content ex_env ex_client (Some (GofileFolder 0)) "a" ex_world
              = Ok (Some (GofileFile 2))
                   (world_of (get_content ex_env ex_client (Some (GofileFolder 0)) "a"
                                ex_world)))
    by (vm_compute; reflexivity).
  split; [exact H|].
  destruct (get_content_selects ex_env ex_client 0 "a" ex_world _ (GofileFile 2) H)
    as (H1 & H2 & _).
  split; [exact H1|exact H2].
Defined.

(** The listing of [get_children] in a folder, once it has returned. *)
Lemma get_children_value (env : Env) (self : GofileFSClient) (f : nat)
    (w w1 : World) (l : list GofileContent) :
  set_iter_ok (set_iter env) ->
  get_children env self (Some (GofileFolder f)) w = Ok l w1 ->
  let st := store w1 in
  let chn := sorted (children_le st) (children st (GofileFolder f)) in
  _get_children env self {["folder" := Some (GofileFolder f)]} w = Ok chn w1
  /\ l = sorted (listing_le st) (map (pick st chn) (set_iter env (map (name st) chn))).
Proof.
  intros Hok. rewrite (get_children_run env self _ w Hok), _get_children_run. simpl.
  destruct (ensure_updated env (Some (GofileFolder f)) w) as [c' w'|e w'];
    [|discriminate].
  intros [= <- <-]. split; reflexivity.
Qed.

(** X8. The listing of [get_children] has exactly one entry for each
    name that occurs among the children of the folder: its names are
    pairwise distinct, they are the names of the children, and every
    entry is one of the children. *)
Theorem get_children_one_entry_per_name (env : Env) (self : GofileFSClient) (f : nat)
    (w w1 : World) (l : list GofileContent) :
  set_iter_ok (set_iter env) ->
  get_children env self (Some (GofileFolder f)) w = Ok l w1 ->
  NoDup (map (name (store w1)) l)
  /\ (forall nm, In nm (map (name (store w1)) l)
                 <-> In nm (map (name (store w1)) (children (store w1) (GofileFolder f))))
  /\ (forall ch, In ch l -> In ch (children (store w1) (GofileFolder f))).
Proof.
  intros Hok H. destruct (get_children_value env self f w w1 l Hok H) as [_ ->].
  set (st := store w1).
  set (chn := sorted (children_le st) (children st (GofileFolder f))).
  set (names := set_iter env (map (name st) chn)).
  assert (Hin : forall nm, In nm names -> In nm (map (name st) chn))
    by (intros nm; apply (Hok _)).
  assert (Hchn : forall nm, In nm (map (name st) chn)
                            <-> In nm (map (name st) (children st (GofileFolder f)))).
  { intros nm. rewrite !in_map_iff. split; intros (ch & E & Hc); exists ch;
      (split; [exact E|]); apply (sorted_In (children_le st)); exact Hc. }
  split; [|split].
  - apply listing_names_NoDup; [apply (Hok _)|exact Hin].
  - intros nm. rewrite <- Hchn.
    assert (Hp : Permutation (map (name st) (sorted (listing_le st) (map (pick st chn) names)))
                   names).
    { rewrite <- (picks_names st chn names Hin) at 2.
      apply Permutation_map, sorted_perm. }
    split; intros Hnm.
    + apply Hin. eapply Permutation_in; [exact Hp|exact Hnm].
    + eapply Permutation_in; [symmetry; exact Hp|]. apply (Hok _). exact Hnm.
  - intros ch Hc. apply (proj1 (sorted_In _ _ _)), in_map_iff in Hc as (nm & <- & Hnm).
    destruct (pick_spec st chn nm (Hin nm Hnm)) as (_ & Hc & _).
    apply (proj1 (sorted_In (children_le st) _ _)). exact Hc.
Qed.

Lemma get_children_one_entry_per_name_witness :
  set_iter_ok (set_iter ex_env)
  /\ get_children ex_env ex_client (Some (GofileFolder 0)) ex_world
     = Ok [GofileFolder 4; GofileFile 2; GofileFile 3]
          (world_of (get_children ex_env ex_client (Some (GofileFolder 0)) ex_world))
  /\ NoDup (map (name ex_store) [GofileFolder 4; GofileFile 2; GofileFile 3]).
Proof.
  assert (H : get_children ex_env ex_client (Some (GofileFolder 0)) ex_world
              = Ok [GofileFolder 4; GofileFile 2; GofileFile 3]
                   (world_of (get_children ex_env ex_client (Some (GofileFolder 0))
                                ex_world)))
    by (vm_compute; reflexivity).
  split; [exact remove_dups_ok|]. split; [exact H|].
  exact (proj1 (get_children_one_entry_per_name ex_env ex_client 0 ex_world _ _
                  remove_dups_ok H)).
Defined.

(** X9. The listing and the lookup agree: started in the same world,
    [get_content] on the name of an entry of the listing of
    [get_children] returns that very entry, in the same final world. *)
Theorem get_children_entries_are_lookups (env : Env) (self : GofileFSClient) (f : nat)
    (w w1 : World) (l : list GofileContent) :
  set_iter_ok (set_iter env) ->
  get_children env self (Some (GofileFolder f)) w = Ok l w1 ->
  forall ch, In ch l ->
    get_content env self (Some (GofileFolder f)) (name (store w1) ch) w = Ok (Some ch) w1.
Proof.
  intros Hok H ch Hc.
  destruct (get_children_value env self f w w1 l Hok H) as [Hg ->].
  rewrite get_content_run, Hg.
  apply (proj1 (sorted_In _ _ _)), in_map_iff in Hc as (nm & <- & Hnm).
  apply (proj1 (proj2 (Hok _) _)) in Hnm.
  destruct (pick_spec _ _ _ Hnm) as (Hl & _ & ->). rewrite Hl. reflexivity.
Qed.

Lemma get_children_entries_are_lookups_witness :
  set_iter_ok (set_iter ex_env)
  /\ get_children ex_env ex_client (Some (GofileFolder 0)) ex_world
     = Ok [GofileFolder 4; GofileFile 2; GofileFile 3]
          (world_of (get_children ex_env ex_client (Some (GofileFolder 0)) ex_world))
  /\ get_content ex_env ex_client (Some (GofileFolder 0)) "a" ex_world
     = Ok (Some (GofileFile 2))
          (world_of (get_children ex_env ex_client (Some (GofileFolder 0)) ex_world)).
Proof.
  assert (H : get_children ex_env ex_client (Some (GofileFolder 0)) ex_world
              = Ok [GofileFolder 4; GofileFile 2; GofileFile 3]
                   (world_of (get_children ex_env ex_client (Some (GofileFolder 0))
                                ex_world)))
    by (vm_compute; reflexivity).
  split; [exact remove_dups_ok|]. split; [exact H|].
  apply (get_children_entries_are_lookups ex_env ex_client 0 ex_world _ _
           remove_dups_ok H (GofileFile 2)).
  right. left. reflexivity.
Defined.

(** ** What never comes out, and what is never changed *)

Lemma nnf_ret {A : Type} (a : A) : never_not_found (ret a).
Proof. intros w. discriminate. Qed.

Lemma nnf_raise {A : Type} (e : exn) :
  is_content_not_found e = false -> never_not_found (raise (A:=A) e).
Proof. intros He w. simpl. intros [= ->]. discriminate He. Qed.

Lemma nnf_bind {A B : Type} (m : M A) (k : A -> M B) :
  never_not_found m -> (forall a, never_not_found (k a)) -> never_not_found (bind m k).
Proof.
  intros Hm Hk w. unfold bind. specialize (Hm w).
  destruct (m w) as [a w'|e w']; [apply Hk|exact Hm].
Qed.

Lemma nnf_get_children_folder (env : Env) (self : GofileFSClient)
    (folder : option GofileContent) :
  never_not_found (_get_children env self {["folder" := folder]}).
Proof.
  intros w. rewrite _get_children_run.
  pose proof (ensure_updated_no_not_found env
                (Some (default (_root_folder self) folder)) w) as H.
  destruct (ensure_updated env (Some (default (_root_folder self) folder)) w);
    [|exact H].
  destruct (default (_root_folder self) folder); discriminate.
Qed.

Lemma nnf_get_content (env : Env) (self : GofileFSClient)
    (folder : option GofileContent) (nm : string) :
  never_not_found (get_content env self folder nm).
Proof.
  intros w. rewrite get_content_run.
  pose proof (nnf_get_children_folder env self folder w) as H.
  destruct (_get_children env self {["folder" := folder]} w); [discriminate|exact H].
Qed.

Lemma nnf_append_last_named (st : Store) (chn : list GofileContent)
    (names : list string) (acc : list GofileContent) :
  never_not_found (append_last_named st chn names acc).
Proof.
  revert acc. induction names as [|nm names IH]; intros acc; simpl.
  - apply nnf_ret.
  - destruct (last (named st nm chn)); [apply IH|apply nnf_raise; reflexivity].
Qed.

Lemma nnf_get_children (env : Env) (self : GofileFSClient)
    (folder : option GofileContent) :
  never_not_found (get_children env self folder).
Proof.
  unfold get_children. apply nnf_bind; [apply nnf_get_children_folder|].
  intros chn. apply nnf_bind; [intros w; discriminate|].
  intros st. apply nnf_bind; [apply nnf_append_last_named|].
  intros acc. apply nnf_ret.
Qed.

Lemma nnf_get_info (r : nat) : never_not_found (get_info r).
Proof. intros w. discriminate. Qed.

Lemma nnf_set_content (r : nat) (c : option GofileContent) :
  never_not_found (set_content r c).
Proof. intros w. discriminate. Qed.

Lemma nnf_GofilePathInfo_init (c : option GofileContent) (fs : option GofileFSClient) :
  never_not_found (GofilePathInfo_init c fs).
Proof.
  unfold GofilePathInfo_init.
  destruct (bool_decide (c <> None) && bool_decide (fs = None));
    [apply nnf_raise; reflexivity|intros w; discriminate].
Qed.

Lemma nnf_update_content {A : Type} (env : Env) (func : nat -> M A) (r : nat) :
  (forall r', never_not_found (func r')) -> never_not_found (_update_content env func r).
Proof.
  intros Hf. unfold _update_content. apply nnf_bind; [apply nnf_get_info|].
  intros o. apply nnf_bind; [|intros _; apply Hf].
  destruct (info_fs_client o); [|apply nnf_ret].
  apply nnf_bind; [apply ensure_updated_no_not_found|].
  intros c. apply nnf_set_content.
Qed.

Lemma nnf_resolve_step (env : Env) (self : nat) (nm : string) :
  never_not_found (resolve_step env self nm).
Proof.
  unfold resolve_step. destruct (PyStr.is_empty nm); [apply nnf_ret|].
  apply nnf_bind; [apply nnf_get_info|]. intros o.
  destruct (isinstance_GofileFolder (content o)); [|apply nnf_ret].
  destruct (info_fs_client o); [|apply nnf_raise; reflexivity].
  apply nnf_bind; [apply nnf_get_content|]. intros [c|]; [|apply nnf_ret].
  apply nnf_bind; [apply nnf_GofilePathInfo_init|]. intros r. apply nnf_ret.
Qed.

(** The rest left by [partition] is shorter than a path that is not
    empty. *)
Lemma partition_rest_shorter (path : string) :
  is_here path = false ->
  (String.length (PyStr.partition posixpath.sepc path).2 < String.length path)%nat.
Proof.
  destruct path as [|a path]; [discriminate|]. intros _.
  revert a. induction path as [|b path IH]; intros a; simpl.
  - destruct (Ascii.eqb a posixpath.sepc); simpl; lia.
  - destruct (Ascii.eqb a posixpath.sepc); simpl; [lia|].
    specialize (IH b). simpl in IH.
    destruct (Ascii.eqb b posixpath.sepc); simpl in *; [lia|].
    destruct (PyStr.partition posixpath.sepc path) as [[h m] t]; simpl in *. lia.
Qed.

(** Induction along the walk of [resolve]. *)
Lemma resolve_induction (env : Env)
    (P : nat -> string -> World -> Result PathInfo -> Prop) :
  (forall self path w, is_here path = true -> P self path w (Ok (GofilePathInfo self) w)) ->
  (forall self path w e w',
     is_here path = false ->
     resolve_step env self (PyStr.partition posixpath.sepc path).1.1 w = Raise e w' ->
     P self path w (Raise e w')) ->
  (forall self path w w',
     is_here path = false ->
     resolve_step env self (PyStr.partition posixpath.sepc path).1.1 w = Ok None w' ->
     P self path w (Ok MissingInfo w')) ->
  (forall self path w r w',
     is_here path = false ->
     resolve_step env self (PyStr.partition posixpath.sepc path).1.1 w = Ok (Some r) w' ->
     P r (PyStr.partition posixpath.sepc path).2 w'
       (resolve env r (PyStr.partition posixpath.sepc path).2 w') ->
     P self path w (resolve env r (PyStr.partition posixpath.sepc path).2 w')) ->
  forall self path w, P self path w (resolve env self path w).
Proof.
  intros Hhere Hraise Hmiss Hstep self path.
  remember (String.length path) as n eqn:Hn. revert self path Hn.
  induction n as [n IH] using lt_wf_ind. intros self path Hn w.
  rewrite resolve_body. destruct (is_here path) eqn:Eh; [apply Hhere; exact Eh|].
  destruct (resolve_step env self (PyStr.partition posixpath.sepc path).1.1 w)
    as [[r|] w'|e w'] eqn:Es.
  - apply (Hstep self path w r w' Eh Es).
    apply (IH (String.length (PyStr.partition posixpath.sepc path).2));
      [|reflexivity].
    subst n. apply partition_rest_shorter. exact Eh.
  - apply (Hmiss self path w w' Eh Es).
  - apply (Hraise self path w e w' Eh Es).
Qed.

Lemma nnf_resolve (env : Env) (self : nat) (path : string) :
  never_not_found (resolve env self path).
Proof.
  intros w.
  apply (resolve_induction env
           (fun _ _ _ res => raised res <> Some GofileAPIContentNotFoundError)).
  - discriminate.
  - intros s p w0 e w' _ Es.
    pose proof (nnf_resolve_step env s (PyStr.partition posixpath.sepc p).1.1 w0) as H.
    rewrite Es in H. exact H.
  - discriminate.
  - auto.
Qed.

Lemma nnf_info (env : Env) (p : GofilePath) : never_not_found (info env p).
Proof.
  intros w. unfold info. destruct (fs_client p) as [c|] eqn:Ec; [|discriminate].
  destruct (root_infos w !! _root_folder c) as [r|]; [|discriminate].
  unfold bind, GofilePath_resolve, with_segments.
  destruct (GofilePath_init_value [resolve_string p] (fs_client p) w) as [w' ->].
  apply nnf_resolve.
Qed.

Lemma nnf_queries (env : Env) (i : PathInfo) :
  never_not_found (PathInfo_exists env i)
  /\ never_not_found (PathInfo_is_dir env i)
  /\ never_not_found (PathInfo_is_file env i)
  /\ never_not_found (PathInfo_children_names env i).
Proof.
  destruct i as [|r]; simpl.
  - repeat split; try (intros w; discriminate).
  - repeat split; apply nnf_update_content; intros r';
      (apply nnf_bind; [apply nnf_get_info|]); intros o; try apply nnf_ret.
    destruct (isinstance_GofileFolder (content o)); [|apply nnf_ret].
    destruct (info_fs_client o); [|apply nnf_raise; reflexivity].
    apply nnf_bind; [apply nnf_get_children|]. intros l.
    apply nnf_bind; [intros w; discriminate|]. intros st. apply nnf_ret.
Qed.

(** X10. The collaborator's content-not-found error never reaches the
    caller: it comes out of none of [get_content], [get_children], the
    walk [resolve], the property [info], the queries [exists], [is_dir],
    [is_file], [children_names], and [iterdir]. *)
Theorem content_not_found_never_escapes (env : Env) (self : GofileFSClient)
    (folder : option GofileContent) (nm : string) (r : nat) (path : string)
    (p : GofilePath) (i : PathInfo) (w : World) :
  raised (get_content env self folder nm w) <> Some GofileAPIContentNotFoundError
  /\ raised (get_children env self folder w) <> Some GofileAPIContentNotFoundError
  /\ raised (resolve env r path w) <> Some GofileAPIContentNotFoundError
  /\ raised (info env p w) <> Some GofileAPIContentNotFoundError
  /\ raised (PathInfo_exists env i w) <> Some GofileAPIContentNotFoundError
  /\ raised (PathInfo_is_dir env i w) <> Some GofileAPIContentNotFoundError
  /\ raised (PathInfo_is_file env i w) <> Some GofileAPIContentNotFoundError
  /\ raised (PathInfo_children_names env i w) <> Some GofileAPIContentNotFoundError
  /\ raised (iterdir env p w) <> Some GofileAPIContentNotFoundError.
Proof.
  destruct (nnf_queries env i) as (Hex & Hdir & Hfile & Hnames).
  split; [apply nnf_get_content|]. split; [apply nnf_get_children|].
  split; [apply nnf_resolve|]. split; [apply nnf_info|].
  split; [apply Hex|]. split; [apply Hdir|]. split; [apply Hfile|].
  split; [apply Hnames|].
  revert w. change (never_not_found (iterdir env p)). unfold iterdir.
  apply nnf_bind; [apply nnf_info|]. intros i0.
  apply nnf_bind; [apply (nnf_queries env i0)|]. intros ex.
  destruct (negb ex); [apply nnf_raise; reflexivity|].
  apply nnf_bind; [apply (nnf_queries env i0)|]. intros d.
  destruct (negb d); [apply nnf_raise; reflexivity|].
  apply nnf_bind; [apply nnf_info|]. intros i1.
  apply nnf_bind; [apply (nnf_queries env i1)|]. intros [l|];
    [apply nnf_ret|apply nnf_raise; reflexivity].
Qed.

Lemma get_content_keeps_infos (env : Env) (self : GofileFSClient)
    (folder : option GofileContent) (nm : string) (w : World) :
  infos (world_of (get_content env self folder nm w)) = infos w
  /\ root_infos (world_of (get_content env self folder nm w)) = root_infos w.
Proof.
  rewrite get_content_run, _get_children_run.
  pose proof (ensure_updated_result env (Some (default (_root_folder self) folder)) w)
    as (Hi & Hr & _).
  destruct (ensure_updated env (Some (default (_root_folder self) folder)) w)
    as [c w'|e w']; simpl in *; [|auto].
  destruct (default (_root_folder self) folder); simpl; auto.
Qed.

(** One step of the walk, run. *)
Lemma resolve_step_run (env : Env) (self : nat) (nm : string) (w : World) :
  resolve_step env self nm w
  = if PyStr.is_empty nm then Ok (Some self) w
    else if isinstance_GofileFolder (content (info_obj w self)) then
      match info_fs_client (info_obj w self) with
      | Some fs =>
          match get_content env fs (content (info_obj w self)) nm w with
          | Ok (Some c) w1 =>
              Ok (Some (length (infos w1)))
                 (with_infos
                    (infos w1 ++ [{| content := Some c; info_fs_client := Some fs |}]) w1)
          | Ok None w1 => Ok None w1
          | Raise e w1 => Raise e w1
          end
      | None => Raise AttributeError w
      end
    else Ok None w.
Proof.
  unfold resolve_step. destruct (PyStr.is_empty nm); [reflexivity|].
  unfold bind, get_info.
  destruct (isinstance_GofileFolder (content (info_obj w self))); [|reflexivity].
  destruct (info_fs_client (info_obj w self)) as [fs|]; [|reflexivity].
  destruct (get_content env fs (content (info_obj w self)) nm w) as [[c|] w1|e w1];
    reflexivity.
Qed.

(** One step of the walk: the info objects that exist are kept, and
    the info to go on with is the current one or the one just
    allocated. *)
Lemma resolve_step_allocates (env : Env) (self : nat) (nm : string) (w : World) :
  infos w `prefix_of` infos (world_of (resolve_step env self nm w))
  /\ root_infos (world_of (resolve_step env self nm w)) = root_infos w
  /\ forall r w', resolve_step env self nm w = Ok (Some r) w' ->
       r = self \/ (length (infos w) <= r < length (infos w'))%nat.
Proof.
  rewrite resolve_step_run. destruct (PyStr.is_empty nm).
  { split; [reflexivity|]. split; [reflexivity|]. intros r w' [= <- _]. auto. }
  destruct (isinstance_GofileFolder (content (info_obj w self)));
    [|split; [reflexivity|]; split; [reflexivity|]; discriminate].
  destruct (info_fs_client (info_obj w self)) as [fs|];
    [|split; [reflexivity|]; split; [reflexivity|]; discriminate].
  pose proof (get_content_keeps_infos env fs (content (info_obj w self)) nm w) as [Hi Hr].
  destruct (get_content env fs (content (info_obj w self)) nm w) as [[c|] w1|e w1];
    cbn [world_of] in Hi, Hr |- *.
  - cbn [with_infos infos root_infos]. rewrite Hi, Hr.
    split; [apply prefix_app_r; reflexivity|]. split; [reflexivity|].
    intros r w' [= <- <-]. right. cbn [with_infos infos]. rewrite ?Hi, length_app.
    simpl. lia.
  - rewrite Hi, Hr. split; [reflexivity|]. split; [reflexivity|]. discriminate.
  - rewrite Hi, Hr. split; [reflexivity|]. split; [reflexivity|]. discriminate.
Qed.

(** X11. The walk [resolve] never changes a path-info object that
    exists: it only allocates new ones, gives no root folder another
    [root_info], and the info it returns is the one it started from or
    one that it allocated. *)
Theorem resolve_only_allocates_infos (env : Env) (self : nat) (path : string) (w : World) :
  infos w `prefix_of` infos (world_of (resolve env self path w))
  /\ root_infos (world_of (resolve env self path w)) = root_infos w
  /\ forall r w', resolve env self path w = Ok (GofilePathInfo r) w' ->
       r = self \/ (length (infos w) <= r < length (infos w'))%nat.
Proof.
  apply (resolve_induction env
           (fun self _ w res =>
              infos w `prefix_of` infos (world_of res)
              /\ root_infos (world_of res) = root_infos w
              /\ forall r w', res = Ok (GofilePathInfo r) w' ->
                   r = self \/ (length (infos w) <= r < length (infos w'))%nat)).
  - intros s p w0 _. simpl. split; [reflexivity|]. split; [reflexivity|].
    intros r w' [= <- _]. auto.
  - intros s p w0 e w' _ Es.
    pose proof (resolve_step_allocates env s (PyStr.partition posixpath.sepc p).1.1 w0)
      as (H1 & H2 & _).
    rewrite Es in H1, H2. simpl in *. split; [exact H1|]. split; [exact H2|]. discriminate.
  - intros s p w0 w' _ Es.
    pose proof (resolve_step_allocates env s (PyStr.partition posixpath.sepc p).1.1 w0)
      as (H1 & H2 & _).
    rewrite Es in H1, H2. simpl in *. split; [exact H1|]. split; [exact H2|]. discriminate.
  - intros s p w0 r w' _ Es (IH1 & IH2 & IH3).
    pose proof (resolve_step_allocates env s (PyStr.partition posixpath.sepc p).1.1 w0)
      as (H1 & H2 & H3).
    rewrite Es in H1, H2. simpl in H1, H2. specialize (H3 r w' Es).
    split; [etransitivity; eassumption|]. split; [congruence|].
    intros r' w'' E. specialize (IH3 r' w'' E).
    rewrite E in IH1. simpl in IH1.
    apply prefix_length in H1. apply prefix_length in IH1.
    destruct IH3 as [-> | IH3]; [|right; lia].
    destruct H3 as [-> | H3]; [left; reflexivity|right; lia].
Qed.

Lemma resolve_only_allocates_infos_witness :
  resolve ex_env 0 "/b" ex_world_ready
  = Ok (GofilePathInfo 1) (world_of (resolve ex_env 0 "/b" ex_world_ready))
  /\ (1%nat = 0%nat \/ (length (infos ex_world_ready) <= 1
                < length (infos (world_of (resolve ex_env 0 "/b" ex_world_ready))))%nat).
Proof.
  assert (H : resolve ex_env 0 "/b" ex_world_ready
              = Ok (GofilePathInfo 1) (world_of (resolve ex_env 0 "/b" ex_world_ready)))
    by (vm_compute; reflexivity).
  split; [exact H|].
  exact (proj2 (proj2 (resolve_only_allocates_infos ex_env 0 "/b" ex_world_ready)) 1%nat _ H).
Defined.

Lemma partition_name_nonempty (path : string) :
  is_here path = false -> PyStr.startswith posixpath.sepc path = false ->
  PyStr.is_empty (PyStr.partition posixpath.sepc path).1.1 = false.
Proof.
  destruct path as [|a path]; [discriminate|]. simpl. intros _ ->.
  destruct (PyStr.partition posixpath.sepc path) as [[h m] t]. reflexivity.
Qed.

(** X12. Walking a name from an info whose content is not a folder (a
    file, or nothing) gives Missing, with no refresh and no change:
    this holds for every path that is not empty, not [.], and does not
    start with a separator. *)
Theorem resolve_below_a_non_folder_is_missing (env : Env) (self : nat) (path : string)
    (w : World) :
  is_here path = false ->
  PyStr.startswith posixpath.sepc path = false ->
  isinstance_GofileFolder (content (info_obj w self)) = false ->
  resolve env self path w = Ok MissingInfo w.
Proof.
  intros Hh Hs Hk. rewrite resolve_body, Hh, resolve_step_run.
  rewrite (partition_name_nonempty path Hh Hs), Hk. reflexivity.
Qed.

Lemma resolve_below_a_non_folder_is_missing_witness :
  is_here "x/y" = false
  /\ PyStr.startswith posixpath.sepc "x/y" = false
  /\ isinstance_GofileFolder
       (content (info_obj (world_of (info ex_env (ex_path ["/b"]) ex_world_ready)) 1))
     = false
  /\ resolve ex_env 1 "x/y" (world_of (info ex_env (ex_path ["/b"]) ex_world_ready))
     = Ok MissingInfo (world_of (info ex_env (ex_path ["/b"]) ex_world_ready)).
Proof.
  split; [reflexivity|]. split; [reflexivity|]. split; [reflexivity|].
  apply (resolve_below_a_non_folder_is_missing ex_env 1 "x/y"); reflexivity.
Defined.

Lemma with_infos_insert_same (w : World) (r : nat) :
  with_infos
    (<[r := {| content := content (info_obj w r);
               info_fs_client := info_fs_client (info_obj w r) |}]> (infos w)) w
  = w.
Proof.
  assert (E : <[r := {| content := content (info_obj w r);
                        info_fs_client := info_fs_client (info_obj w r) |}]> (infos w)
              = infos w).
  { unfold info_obj. destruct (infos w !! r) as [o|] eqn:Er.
    - simpl. destruct o. simpl. apply list_insert_id. exact Er.
    - apply list_insert_ge. apply lookup_ge_None. exact Er. }
  rewrite E. destruct w; reflexivity.
Qed.

(** X13. An info whose content is [None] (never set, or evicted by a
    refresh) stays so: [exists], [is_dir] and [is_file] answer false,
    make no call to the collaborator and change nothing. *)
Theorem queries_of_an_evicted_info (env : Env) (r : nat) (w : World) :
  content (info_obj w r) = None ->
  GofilePathInfo_exists env r w = Ok false w
  /\ GofilePathInfo_is_dir env r w = Ok false w
  /\ GofilePathInfo_is_file env r w = Ok false w.
Proof.
  intros Hc.
  assert (Hw : with_infos
                 (<[r := {| content := None;
                            info_fs_client := info_fs_client (info_obj w r) |}]> (infos w)) w
               = w)
    by (rewrite <- Hc at 1; apply with_infos_insert_same).
  unfold GofilePathInfo_exists, GofilePathInfo_is_dir, GofilePathInfo_is_file,
    _update_content, bind, get_info.
  destruct (info_fs_client (info_obj w r)) as [fs|] eqn:Hfs.
  - rewrite Hc. simpl. unfold set_content. rewrite Hfs, Hw, Hc. repeat split.
  - simpl. rewrite Hc. repeat split.
Qed.

Lemma queries_of_an_evicted_info_witness :
  content (info_obj (world_of (PathInfo_exists ex_env_gone (GofilePathInfo 0)
                                 ex_world_ready)) 0) = None
  /\ GofilePathInfo_exists ex_env_gone 0
       (world_of (PathInfo_exists ex_env_gone (GofilePathInfo 0) ex_world_ready))
     = Ok false (world_of (PathInfo_exists ex_env_gone (GofilePathInfo 0) ex_world_ready)).
Proof.
  split; [reflexivity|].
  apply (proj1 (queries_of_an_evicted_info ex_env_gone 0
                  (world_of (PathInfo_exists ex_env_gone (GofilePathInfo 0)
                               ex_world_ready)) eq_refl)).
Defined.

(** ** The strings of paths *)

Lemma join_starts_no_sep (comps : list string) :
  Forall comp_ok comps ->
  PyStr.startswith posixpath.sepc (PyStr.join posixpath.sep comps) = false.
Proof.
  destruct comps as [|x comps]; [reflexivity|].
  intros H. inversion H as [|? ? (Hn & Hne & _) _]; subst.
  destruct x as [|a x]; [congruence|]. destruct Hn as [Ha _].
  destruct comps; simpl; exact Ha.
Qed.

Lemma filter_kept_comp_ok (l : list string) :
  Forall nosep l -> Forall comp_ok (List.filter kept_component l).
Proof.
  induction 1 as [|c l Hc _ IH]; simpl; [constructor|].
  destruct (kept_component c) eqn:Ek; [|exact IH].
  constructor; [|exact IH]. unfold kept_component in Ek.
  apply andb_true_iff in Ek as [E1 E2]. apply negb_true_iff in E1, E2.
  apply String.eqb_neq in E2. split; [exact Hc|]. split; [|exact E2].
  intros ->. discriminate E1.
Qed.

Lemma filter_kept_of_comp_ok (l : list string) :
  Forall comp_ok l -> List.filter kept_component l = l.
Proof.
  induction 1 as [|c l (_ & H1 & H2) _ IH]; simpl; [reflexivity|].
  assert (Ek : kept_component c = true).
  { unfold kept_component. apply String.eqb_neq in H2. rewrite H2.
    destruct c; [congruence|reflexivity]. }
  rewrite Ek, IH. reflexivity.
Qed.

(** What [__vfspath__] computes: [.], or a root (possibly empty)
    followed by components that are not empty and not [.]. *)
Lemma vfspath_shape (p : GofilePath) :
  vfspath_of_segments p = "."
  \/ exists root comps,
       vfspath_of_segments p = (root ++ PyStr.join posixpath.sep comps)%string
       /\ (root = "" \/ root = "/" \/ root = "//")
       /\ Forall comp_ok comps
       /\ PyStr.is_empty (root ++ PyStr.join posixpath.sep comps) = false.
Proof.
  unfold vfspath_of_segments.
  destruct (PyStr.is_empty (_joined_segments p)); [left; reflexivity|].
  destruct (splitroot_cases (_joined_segments p)) as (root & rel & -> & Hroot).
  set (comps := List.filter kept_component (PyStr.split posixpath.sepc rel)).
  destruct (PyStr.is_empty (root ++ PyStr.join posixpath.sep comps)) eqn:He;
    [left; reflexivity|].
  right. exists root, comps. split; [reflexivity|]. split; [exact Hroot|].
  split; [apply filter_kept_comp_ok, split_all_nosep|exact He].
Qed.

Lemma vfspath_of_normal_string (root : string) (comps : list string)
    (fs : option GofileFSClient) :
  root = "" \/ root = "/" \/ root = "//" ->
  Forall comp_ok comps ->
  PyStr.is_empty (root ++ PyStr.join posixpath.sep comps) = false ->
  vfspath_of_segments (path_of_string (root ++ PyStr.join posixpath.sep comps) fs)
  = (root ++ PyStr.join posixpath.sep comps)%string.
Proof.
  intros Hroot Hc He. unfold vfspath_of_segments, _joined_segments, path_of_string.
  cbn [_segments posixpath.join fold_left]. rewrite He.
  assert (Hs : posixpath.splitroot (root ++ PyStr.join posixpath.sep comps)
               = ("", root, PyStr.join posixpath.sep comps)).
  { destruct Hroot as [-> | Hroot].
    - apply splitroot_relative. apply join_starts_no_sep. exact Hc.
    - apply splitroot_canonical; [exact Hroot|]. apply join_starts_no_sep. exact Hc. }
  rewrite Hs.
  assert (Hf : List.filter kept_component
                 (PyStr.split posixpath.sepc (PyStr.join posixpath.sep comps)) = comps).
  { destruct comps as [|x comps]; [reflexivity|].
    rewrite split_join; [apply filter_kept_of_comp_ok; exact Hc| |discriminate].
    eapply Forall_impl; [exact Hc|]. intros c H. apply H. }
  rewrite Hf, He. reflexivity.
Qed.

(** X14. The string of a path is a normal form: it is never empty, and
    a path built from it reads as the same string. *)
Theorem vfspath_is_a_normal_form (p : GofilePath) (fs : option GofileFSClient) :
  memo_ok p ->
  str p <> "" /\ str (path_of_string (str p) fs) = str p.
Proof.
  intros Hm. rewrite (memo_ok_str p Hm).
  assert (Hn : forall s, str (path_of_string s fs) = vfspath_of_segments (path_of_string s fs))
    by reflexivity.
  rewrite Hn.
  destruct (vfspath_shape p) as [-> | (root & comps & -> & Hroot & Hc & He)].
  - split; [discriminate|reflexivity].
  - split.
    + intros E. rewrite E in He. discriminate He.
    + apply vfspath_of_normal_string; assumption.
Qed.

Lemma vfspath_is_a_normal_form_witness :
  memo_ok (ex_path ["a//b/"; "./c"; ".."])
  /\ str (ex_path ["a//b/"; "./c"; ".."]) = "a/b/c/.."
  /\ str (path_of_string (str (ex_path ["a//b/"; "./c"; ".."])) None)
     = str (ex_path ["a//b/"; "./c"; ".."]).
Proof.
  split; [left; reflexivity|]. split; [reflexivity|].
  apply (vfspath_is_a_normal_form (ex_path ["a//b/"; "./c"; ".."]) None).
  left; reflexivity.
Defined.

Lemma splitroot_of_absolute (s : string) :
  posixpath.isabs s = true ->
  exists root rest,
    posixpath.splitroot s = ("", root, rest) /\ (root = "/" \/ root = "//").
Proof.
  destruct s as [|a s]; [discriminate|]. unfold posixpath.isabs. simpl. intros ->.
  destruct s as [|b s]; [eauto 6|].
  destruct (Ascii.eqb b posixpath.sepc); [|eauto 6].
  destruct s as [|c s]; [eauto 6|].
  destruct (Ascii.eqb c posixpath.sepc); eauto 6.
Qed.

Lemma vfspath_of_absolute (s : string) (fs : option GofileFSClient) :
  posixpath.isabs s = true -> posixpath.isabs (str (path_of_string s fs)) = true.
Proof.
  intros Ha. unfold str, __vfspath__, path_of_string. cbn [_vfspath fst].
  unfold vfspath_of_segments, _joined_segments.
  cbn [_segments posixpath.join fold_left].
  destruct (splitroot_of_absolute s Ha) as (root & rest & -> & Hroot).
  destruct s as [|a s]; [discriminate|]. cbn [PyStr.is_empty].
  destruct Hroot as [-> | ->]; reflexivity.
Qed.

Lemma resolve_string_absolute (p : GofilePath) :
  posixpath.isabs (resolve_string p) = true.
Proof.
  unfold resolve_string.
  destruct (posixpath.isabs (posixpath.normpath (str p))) eqn:Ea; [exact Ea|].
  unfold posixpath.join. cbn [fold_left]. unfold posixpath.join_step.
  unfold posixpath.isabs in Ea. rewrite Ea. reflexivity.
Qed.

(** X15. [GofilePath.resolve()] always returns, and what it returns is
    an absolute path on the same client: its string starts with the
    separator. *)
Theorem resolve_returns_an_absolute_path (p : GofilePath) (w : World) :
  exists p1 w1,
    GofilePath_resolve p w = Ok p1 w1
    /\ posixpath.isabs (str p1) = true
    /\ fs_client p1 = fs_client p.
Proof.
  unfold GofilePath_resolve, with_segments.
  destruct (GofilePath_init_value [resolve_string p] (fs_client p) w) as [w1 ->].
  do 2 eexists. split; [reflexivity|]. split; [|reflexivity].
  apply (vfspath_of_absolute (resolve_string p) (fs_client p)).
  apply resolve_string_absolute.
Qed.

(** ** Listing and reading through a path *)

Lemma get_children_keeps_infos (env : Env) (self : GofileFSClient)
    (folder : option GofileContent) (w : World) :
  set_iter_ok (set_iter env) ->
  infos (world_of (get_children env self folder w)) = infos w.
Proof.
  intros Hok. rewrite (get_children_run env self folder w Hok), _get_children_run.
  pose proof (ensure_updated_result env (Some (default (_root_folder self) folder)) w)
    as (Hi & _).
  destruct (ensure_updated env (Some (default (_root_folder self) folder)) w)
    as [c w'|e w']; simpl in *; [|exact Hi].
  destruct (default (_root_folder self) folder); simpl; exact Hi.
Qed.

(** The names that the body of [children_names] gives: the content of
    the info is a folder, and the names are those of the listing of
    its children. *)
Lemma children_names_body_value (env : Env) (self : nat) (w w' : World)
    (l : list string) :
  set_iter_ok (set_iter env) ->
  (o <- get_info self ;;
   if isinstance_GofileFolder (content o) then
     match info_fs_client o with
     | Some fs =>
         l <- get_children env fs (content o) ;;
         st <- get_store ;;
         ret (Some (map (name st) l))
     | None => raise AttributeError
     end
   else ret None) w = Ok (Some l) w' ->
  exists f lst,
    content (info_obj w self) = Some (GofileFolder f)
    /\ infos w' = infos w
    /\ l = map (name (store w')) lst
    /\ NoDup l
    /\ (forall nm, In nm l
                   <-> In nm (map (name (store w')) (children (store w') (GofileFolder f))))
    /\ (forall ch, In ch lst -> In ch (children (store w') (GofileFolder f)))
    /\ folders_first_by_name (store w') lst.
Proof.
  intros Hok. unfold bind at 1. unfold get_info.
  destruct (content (info_obj w self)) as [[n|f]|] eqn:Ec; cbn [isinstance_GofileFolder];
    try discriminate.
  destruct (info_fs_client (info_obj w self)) as [fs|]; [|discriminate].
  unfold bind, get_store, ret.
  pose proof (get_children_keeps_infos env fs (Some (GofileFolder f)) w Hok) as Hi.
  destruct (get_children env fs (Some (GofileFolder f)) w) as [l0 w1|e w1] eqn:Eg;
    [|discriminate].
  intros [= <- <-]. simpl in Hi.
  destruct (get_children_value env fs f w w1 l0 Hok Eg) as [_ El].
  set (st := store w1) in *.
  set (chn := sorted (children_le st) (children st (GofileFolder f))) in *.
  set (names := set_iter env (map (name st) chn)) in *.
  assert (Hnames : forall nm, In nm names <-> In nm (map (name st) chn))
    by (intros nm; apply (Hok _)).
  assert (Hsrc : forall ch, In ch chn <-> In ch (children st (GofileFolder f)))
    by (intros ch; apply sorted_In).
  destruct (listing_entries st chn names Hnames) as [Hn He].
  exists f, l0. split; [reflexivity|]. split; [exact Hi|]. split; [reflexivity|].
  rewrite El. split; [|split; [|split]].
  - apply listing_names_NoDup; [apply (Hok _)|intros nm; apply (proj1 (Hnames nm))].
  - intros nm. rewrite (Hn nm), !in_map_iff.
    split; intros (ch & E & Hc); exists ch; (split; [exact E|]); apply Hsrc; exact Hc.
  - intros ch Hc. apply Hsrc, (He ch Hc).
  - apply listing_ordered; [apply (Hok _)|intros nm; apply (proj1 (Hnames nm))].
Qed.

Lemma children_names_value (env : Env) (i : PathInfo) (w w' : World) (l : list string) :
  set_iter_ok (set_iter env) ->
  PathInfo_children_names env i w = Ok (Some l) w' ->
  exists r f lst,
    i = GofilePathInfo r
    /\ content (info_obj w' r) = Some (GofileFolder f)
    /\ l = map (name (store w')) lst
    /\ NoDup l
    /\ (forall nm, In nm l
                   <-> In nm (map (name (store w')) (children (store w') (GofileFolder f))))
    /\ (forall ch, In ch lst -> In ch (children (store w') (GofileFolder f)))
    /\ folders_first_by_name (store w') lst.
Proof.
  intros Hok. destruct i as [|r]; [discriminate|].
  unfold PathInfo_children_names, GofilePathInfo_children_names, _update_content.
  unfold bind at 1. unfold get_info at 1. unfold bind at 1.
  destruct (match info_fs_client (info_obj w r) with
            | Some _ => c <- ensure_updated env (content (info_obj w r)) ;;
                        set_content r c
            | None => ret tt
            end w) as [u w1|e w1]; [|discriminate].
  intros H.
  destruct (children_names_body_value env r w1 w' l Hok H)
    as (f & lst & Hc & Hi & Hrest).
  exists r, f, lst. split; [reflexivity|]. split; [|exact Hrest].
  unfold info_obj in *. rewrite Hi. exact Hc.
Qed.

(** X16. When [iterdir] returns, the path exists and is a directory,
    and the items are the children of the folder it resolves to: the
    second lookup of [info] gave an info whose content, after the
    refresh of [children_names], is a folder, and the items are
    [self / name] for the names of a listing of children of that
    folder, in which every name among the children of the folder
    occurs exactly once, folders come before files, and names increase
    within each kind. *)
Theorem iterdir_gives_each_name_once (env : Env) (p : GofilePath) (w w' : World)
    (l : list GofilePath) :
  set_iter_ok (set_iter env) ->
  iterdir env p w = Ok l w' ->
  exists (i : PathInfo) (w1 w2 w3 w4 : World) (r f : nat) (lst : list GofileContent),
    info env p w = Ok i w1
    /\ PathInfo_exists env i w1 = Ok true w2
    /\ PathInfo_is_dir env i w2 = Ok true w3
    /\ info env p w3 = Ok (GofilePathInfo r) w4
    /\ PathInfo_children_names env (GofilePathInfo r) w4
       = Ok (Some (map (name (store w')) lst)) w'
    /\ content (info_obj w' r) = Some (GofileFolder f)
    /\ l = map (truediv p) (map (name (store w')) lst)
    /\ NoDup (map (name (store w')) lst)
    /\ (forall nm,
          In nm (map (name (store w')) lst)
          <-> In nm (map (name (store w')) (children (store w') (GofileFolder f))))
    /\ (forall ch, In ch lst -> In ch (children (store w') (GofileFolder f)))
    /\ folders_first_by_name (store w') lst.
Proof.
  intros Hok. unfold iterdir. unfold bind at 1.
  destruct (info env p w) as [i w1|e w1] eqn:E1; [|discriminate].
  unfold bind at 1.
  destruct (PathInfo_exists env i w1) as [ex w2|e w2] eqn:E2; [|discriminate].
  destruct ex; cbn [negb]; [|discriminate]. unfold bind at 1.
  destruct (PathInfo_is_dir env i w2) as [d w3|e w3] eqn:E3; [|discriminate].
  destruct d; cbn [negb]; [|discriminate]. unfold bind at 1.
  destruct (info env p w3) as [i' w4|e w4] eqn:E4; [|discriminate].
  unfold bind.
  destruct (PathInfo_children_names env i' w4) as [[names|] w5|e w5] eqn:En;
    try discriminate.
  intros [= <- <-].
  destruct (children_names_value env i' w4 w5 names Hok En)
    as (r & f & lst & -> & Hc & -> & Hnd & Hn & Hin & Hord).
  exists i, w1, w2, w3, w4, r, f, lst.
  repeat (split; [first [reflexivity | assumption]|]). exact Hord.
Qed.

Lemma iterdir_gives_each_name_once_witness :
  set_iter_ok (set_iter ex_env)
  /\ iterdir ex_env (ex_path ["/"]) ex_world_ready
     = Ok (map (truediv (ex_path ["/"])) ["c"; "a"; "b"])
          (world_of (iterdir ex_env (ex_path ["/"]) ex_world_ready))
  /\ exists (i : PathInfo) (w1 w2 w3 w4 : World) (r f : nat) (lst : list GofileContent),
       info ex_env (ex_path ["/"]) ex_world_ready = Ok i w1
       /\ PathInfo_exists ex_env i w1 = Ok true w2
       /\ PathInfo_is_dir ex_env i w2 = Ok true w3
       /\ info ex_env (ex_path ["/"]) w3 = Ok (GofilePathInfo r) w4
       /\ PathInfo_children_names ex_env (GofilePathInfo r) w4
          = Ok (Some (map (name ex_store) lst))
               (world_of (iterdir ex_env (ex_path ["/"]) ex_world_ready))
       /\ content (info_obj (world_of (iterdir ex_env (ex_path ["/"]) ex_world_ready)) r)
          = Some (GofileFolder f)
       /\ map (truediv (ex_path ["/"])) ["c"; "a"; "b"]
          = map (truediv (ex_path ["/"])) (map (name ex_store) lst)
       /\ NoDup (map (name ex_store) lst)
       /\ (forall nm,
             In nm (map (name ex_store) lst)
             <-> In nm (map (name ex_store) (children ex_store (GofileFolder f))))
       /\ (forall ch, In ch lst -> In ch (children ex_store (GofileFolder f)))
       /\ folders_first_by_name ex_store lst.
Proof.
  split; [exact remove_dups_ok|].
  assert (H : iterdir ex_env (ex_path ["/"]) ex_world_ready
              = Ok (map (truediv (ex_path ["/"])) ["c"; "a"; "b"])
                   (world_of (iterdir ex_env (ex_path ["/"]) ex_world_ready)))
    by (vm_compute; reflexivity).
  split; [exact H|].
  exact (iterdir_gives_each_name_once ex_env (ex_path ["/"]) ex_world_ready _ _
           remove_dups_ok H).
Defined.

(** X17. [__open_reader__] asks the collaborator for the stream of
    files only: when it returns a stream, that stream is the download of
    a [GofileFile]. *)
Theorem open_reader_downloads_files_only (env : Env) (p : GofilePath) (w w' : World)
    (s : DownloadIO) :
  __open_reader__ env p w = Ok s w' ->
  exists n, download_io_of env (store w') (GofileFile n) = inl s.
Proof.
  unfold __open_reader__. unfold bind at 1.
  destruct (info env p w) as [i w1|e w1]; [|discriminate].
  unfold bind at 1. destruct (PathInfo_exists env i w1) as [ex w2|e w2]; [|discriminate].
  destruct (negb ex); [discriminate|]. unfold bind.
  destruct (PathInfo_content i w2) as [c w3|e w3]; [|discriminate].
  destruct c as [[n|f]|]; cbn [isinstance_GofileFile negb]; try discriminate.
  unfold download_io.
  destruct (download_io_of env (store w3) (GofileFile n)) as [s0|e] eqn:Ed;
    [|discriminate].
  intros [= <- <-]. exists n. exact Ed.
Qed.

Lemma open_reader_downloads_files_only_witness :
  __open_reader__ ex_env (ex_path ["/b"]) ex_world_ready
  = Ok (download_stream (GofileFile 3))
       (world_of (__open_reader__ ex_env (ex_path ["/b"]) ex_world_ready))
  /\ exists n,
       download_io_of ex_env
         (store (world_of (__open_reader__ ex_env (ex_path ["/b"]) ex_world_ready)))
         (GofileFile n)
       = inl (download_stream (GofileFile 3)).
Proof.
  assert (H : __open_reader__ ex_env (ex_path ["/b"]) ex_world_ready
              = Ok (download_stream (GofileFile 3))
                   (world_of (__open_reader__ ex_env (ex_path ["/b"]) ex_world_ready)))
    by (vm_compute; reflexivity).
  split; [exact H|].
  exact (open_reader_downloads_files_only ex_env (ex_path ["/b"]) ex_world_ready _ _ H).
Defined.

(** ** [GofilePath.open] *)

Lemma contains_char_app (c : ascii) (s1 s2 : string) :
  contains_char c (s1 ++ s2)%string = contains_char c s1 || contains_char c s2.
Proof.
  induction s1 as [|a s1 IH]; [reflexivity|].
  change (contains_char c (String a (s1 ++ s2)%string)
          = contains_char c (String a s1) || contains_char c s2).
  simpl. rewrite IH. apply orb_assoc.
Qed.

Lemma contains_remove_char (c : ascii) (s : string) :
  contains_char c (remove_char c s) = false.
Proof.
  induction s as [|a s IH]; simpl; [reflexivity|].
  destruct (Ascii.eqb a c) eqn:E; [exact IH|]. simpl. rewrite E, IH. reflexivity.
Qed.

(** X18. [open] always asks [vfsopen] for a binary mode: the mode it
    hands over contains [b]; a mode that contains [b] is handed over
    as it is; from a text mode every [t] is removed; and the stream is
    wrapped in a text decoder exactly in text mode, with the encoding of
    the caller when one is given and the encoding of the stream
    otherwise. *)
Theorem open_asks_for_a_binary_mode (F : Type) (file_encoding : F -> string)
    (vfsopen : GofilePath -> string -> Z -> option string -> option string -> M F)
    (self : GofilePath) (mode : string) (buffering : Z)
    (encoding errors newline : option string) (w : World) :
  contains_char "b" (binary_mode mode) = true
  /\ (contains_char "b" mode = true -> binary_mode mode = mode)
  /\ (contains_char "b" mode = false -> contains_char "t" (binary_mode mode) = false)
  /\ GofilePath_open F file_encoding vfsopen self mode buffering encoding errors newline w
     = match vfsopen self (binary_mode mode) buffering errors newline w with
       | Ok file w' =>
           Ok (if contains_char "b" mode then binary_file file
               else TextIOWrapper file
                      (match encoding with
                       | Some e => e
                       | None => file_encoding file
                       end) errors newline) w'
       | Raise e w' => Raise e w'
       end.
Proof.
  unfold binary_mode, is_text_mode. split; [|split; [|split]].
  - destruct (contains_char "b" mode) eqn:E; simpl; [exact E|].
    rewrite contains_char_app. simpl. apply orb_true_r.
  - intros ->. reflexivity.
  - intros ->. simpl. rewrite contains_char_app, contains_remove_char. reflexivity.
  - unfold GofilePath_open, bind, binary_mode, is_text_mode.
    destruct (vfsopen self _ buffering errors newline w) as [file w'|e w'];
      [|reflexivity].
    destruct (contains_char "b" mode); simpl; [reflexivity|].
    destruct encoding; reflexivity.
Qed.

Lemma open_asks_for_a_binary_mode_witness :
  binary_mode "rb" = "rb" /\ binary_mode "rt" = "rb" /\ binary_mode "r" = "rb"
  /\ contains_char "t" (binary_mode "trt") = false.
Proof.
  pose proof (open_asks_for_a_binary_mode unit (fun _ => "utf-8")
                (fun _ _ _ _ _ => ret tt) (ex_path []) "rb" (-1) None None None ex_world)
    as (_ & H1 & _).
  pose proof (open_asks_for_a_binary_mode unit (fun _ => "utf-8")
                (fun _ _ _ _ _ => ret tt) (ex_path []) "trt" (-1) None None None ex_world)
    as (_ & _ & H2 & _).
  split; [exact (H1 eq_refl)|]. split; [reflexivity|]. split; [reflexivity|].
  exact (H2 eq_refl).
Defined.

(** ** The root info of an account *)

Lemma GofilePath_init_ready (segs : list string) (c : GofileFSClient) (r : nat)
    (w : World) :
  root_infos w !! _root_folder c = Some r ->
  GofilePath_init segs (Some c) w
  = Ok {| _segments := segs; fs_client := Some c; _vfspath := None |} w.
Proof. intros Hr. unfold GofilePath_init, bind, ret. rewrite Hr. reflexivity. Qed.

(** X19. The constructor of [GofilePath] gives the root folder its
    [root_info] once: on a client whose root folder has none, it
    allocates an info that holds the root folder and the client and
    keeps the infos that exist; on a client whose root folder has one,
    and without a client, it changes nothing. *)
Theorem constructor_allocates_root_info_once (segs : list string) (c : GofileFSClient)
    (w : World) :
  (root_infos w !! _root_folder c = None ->
   let w1 := world_of (GofilePath_init segs (Some c) w) in
   root_infos w1 !! _root_folder c = Some (length (infos w))
   /\ info_obj w1 (length (infos w))
      = {| content := Some (_root_folder c); info_fs_client := Some c |}
   /\ infos w1 = infos w ++ [{| content := Some (_root_folder c);
                                info_fs_client := Some c |}]
   /\ forall segs', world_of (GofilePath_init segs' (Some c) w1) = w1)
  /\ (forall r, root_infos w !! _root_folder c = Some r ->
        world_of (GofilePath_init segs (Some c) w) = w)
  /\ world_of (GofilePath_init segs None w) = w.
Proof.
  split; [|split].
  - intros Hn. unfold GofilePath_init, bind, ret. rewrite Hn.
    unfold GofilePathInfo_init, set_root_info. simpl.
    split; [apply lookup_insert_eq|]. split.
    + unfold info_obj. simpl. rewrite lookup_app_r by lia.
      rewrite Nat.sub_diag. reflexivity.
    + split; [reflexivity|]. intros segs'. rewrite lookup_insert_eq. reflexivity.
  - intros r Hr. rewrite (GofilePath_init_ready segs c r w Hr). reflexivity.
  - reflexivity.
Qed.

Lemma constructor_allocates_root_info_once_witness :
  root_infos ex_world !! _root_folder ex_client = None
  /\ root_infos (world_of (GofilePath_init ["a"] (Some ex_client) ex_world))
       !! _root_folder ex_client = Some (length (infos ex_world))
  /\ world_of (GofilePath_init ["b"] (Some ex_client) ex_world_ready) = ex_world_ready.
Proof.
  split; [reflexivity|].
  destruct (constructor_allocates_root_info_once ["a"] ex_client ex_world) as (H1 & _ & _).
  destruct (constructor_allocates_root_info_once ["b"] ex_client ex_world_ready)
    as (_ & H2 & _).
  split; [exact (proj1 (H1 eq_refl))|exact (H2 0%nat eq_refl)].
Defined.

(** X20. The info of a path that resolves to the root is the
    [root_info] object of the root folder itself, shared by all such
    paths: no info is allocated, nothing is refreshed, nothing
    changes. *)
Theorem info_of_the_root_is_shared (env : Env) (p : GofilePath) (c : GofileFSClient)
    (r : nat) (w : World) :
  fs_client p = Some c ->
  root_infos w !! _root_folder c = Some r ->
  str (path_of_string (resolve_string p) (Some c)) = "/" ->
  info env p w = Ok (GofilePathInfo r) w.
Proof.
  intros Hc Hr Hs. unfold info. rewrite Hc, Hr.
  unfold bind, GofilePath_resolve, with_segments.
  rewrite Hc, (GofilePath_init_ready [resolve_string p] c r w Hr).
  fold (path_of_string (resolve_string p) (Some c)). rewrite Hs.
  rewrite (resolve_body env r "/" w). cbn [is_here String.eqb Ascii.eqb orb].
  rewrite resolve_step_run. simpl. rewrite resolve_body. reflexivity.
Qed.

Lemma info_of_the_root_is_shared_witness :
  fs_client (ex_path []) = Some ex_client
  /\ root_infos ex_world_ready !! _root_folder ex_client = Some 0%nat
  /\ str (path_of_string (resolve_string (ex_path [])) (Some ex_client)) = "/"
  /\ info ex_env (ex_path []) ex_world_ready = Ok (GofilePathInfo 0) ex_world_ready
  /\ info ex_env (ex_path ["/"; "."]) ex_world_ready = Ok (GofilePathInfo 0) ex_world_ready.
Proof.
  split; [reflexivity|]. split; [reflexivity|]. split; [reflexivity|].
  split; apply (info_of_the_root_is_shared ex_env _ ex_client 0 ex_world_ready);
    reflexivity.
Defined.

(** ** Going down by one name *)

Lemma partition_nosep (nm : string) :
  nosep nm -> PyStr.partition posixpath.sepc nm = (nm, "", "").
Proof.
  induction nm as [|a nm IH]; simpl; [reflexivity|].
  intros [Ha Hn]. rewrite Ha, (IH Hn). reflexivity.
Qed.

Lemma partition_nosep_sep (nm rest : string) :
  nosep nm ->
  PyStr.partition posixpath.sepc (nm ++ String posixpath.sepc rest)
  = (nm, posixpath.sep, rest).
Proof.
  induction nm as [|a nm IH]; intros Hn.
  - reflexivity.
  - destruct Hn as [Ha Hn].
    change (PyStr.partition posixpath.sepc
              (String a (nm ++ String posixpath.sepc rest))
            = (String a nm, posixpath.sep, rest)).
    simpl. rewrite Ha, (IH Hn). reflexivity.
Qed.

Lemma is_here_with_sep (nm rest : string) :
  nosep nm -> is_here (nm ++ String posixpath.sepc rest) = false.
Proof.
  intros Hn. destruct nm as [|a nm]; [reflexivity|].
  change (is_here (String a (nm ++ String posixpath.sepc rest)) = false).
  destruct nm as [|b nm].
  - unfold is_here. simpl. destruct (Ascii.eqb a "."); reflexivity.
  - unfold is_here. simpl. destruct (Ascii.eqb a "."); reflexivity.
Qed.

Lemma is_here_name (nm : string) : nm <> "" -> nm <> "." -> is_here nm = false.
Proof.
  intros H1 H2. unfold is_here. apply String.eqb_neq in H1, H2.
  rewrite H1, H2. reflexivity.
Qed.

(** X21. Going down by one name is the lookup of [get_content]: from
    an info that holds a folder and a client, resolving a name gives
    Missing when [get_content] finds no child of that name, and
    otherwise a newly allocated info that holds the child found and the
    same client; with more path after the name, the walk goes on from
    that info. *)
Theorem resolve_goes_down_by_lookup (env : Env) (self : nat) (nm rest : string)
    (w : World) (fs : GofileFSClient) (f : nat) :
  nosep nm -> nm <> "" -> nm <> "." ->
  content (info_obj w self) = Some (GofileFolder f) ->
  info_fs_client (info_obj w self) = Some fs ->
  resolve env self nm w
  = match get_content env fs (Some (GofileFolder f)) nm w with
    | Ok (Some c) w1 =>
        Ok (GofilePathInfo (length (infos w1)))
           (with_infos (infos w1 ++ [{| content := Some c; info_fs_client := Some fs |}]) w1)
    | Ok None w1 => Ok MissingInfo w1
    | Raise e w1 => Raise e w1
    end
  /\ resolve env self (nm ++ String posixpath.sepc rest) w
     = match get_content env fs (Some (GofileFolder f)) nm w with
       | Ok (Some c) w1 =>
           resolve env (length (infos w1)) rest
             (with_infos (infos w1 ++ [{| content := Some c; info_fs_client := Some fs |}])
                w1)
       | Ok None w1 => Ok MissingInfo w1
       | Raise e w1 => Raise e w1
       end.
Proof.
  intros Hn H1 H2 Hc Hfs.
  assert (He : PyStr.is_empty nm = false) by (destruct nm; [congruence|reflexivity]).
  split.
  - rewrite resolve_body, (is_here_name nm H1 H2), (partition_nosep nm Hn).
    cbn [fst snd]. rewrite resolve_step_run, He, Hc, Hfs. cbn [isinstance_GofileFolder].
    destruct (get_content env fs (Some (GofileFolder f)) nm w) as [[c|] w1|e w1];
      [|reflexivity..].
    rewrite resolve_body. reflexivity.
  - rewrite resolve_body, (is_here_with_sep nm rest Hn), (partition_nosep_sep nm rest Hn).
    cbn [fst snd]. rewrite resolve_step_run, He, Hc, Hfs. cbn [isinstance_GofileFolder].
    destruct (get_content env fs (Some (GofileFolder f)) nm w) as [[c|] w1|e w1];
      reflexivity.
Qed.

Lemma resolve_goes_down_by_lookup_witness :
  nosep "a" /\ "a" <> "" /\ "a" <> "."
  /\ content (info_obj ex_world_ready 0) = Some (GofileFolder 0)
  /\ info_fs_client (info_obj ex_world_ready 0) = Some ex_client
  /\ resolve ex_env 0 "a" ex_world_ready
     = match get_content ex_env ex_client (Some (GofileFolder 0)) "a" ex_world_ready with
       | Ok (Some c) w1 =>
           Ok (GofilePathInfo (length (infos w1)))
              (with_infos
                 (infos w1 ++ [{| content := Some c; info_fs_client := Some ex_client |}]) w1)
       | Ok None w1 => Ok MissingInfo w1
       | Raise e w1 => Raise e w1
       end.
Proof.
  split; [simpl; auto|]. split; [discriminate|]. split; [discriminate|].
  split; [reflexivity|]. split; [reflexivity|].
  apply (proj1 (resolve_goes_down_by_lookup ex_env 0 "a" "" ex_world_ready ex_client 0
                  ltac:(simpl; auto) ltac:(discriminate) ltac:(discriminate)
                  eq_refl eq_refl)).
Defined.

(** X22. When the refresh that a query makes reports content-not-found,
    the query answers false, raises nothing, and the info is left with
    no content. *)
Theorem queries_after_an_eviction (env : Env) (r : nat) (w : World)
    (fs : GofileFSClient) (c : GofileContent) :
  info_fs_client (info_obj w r) = Some fs ->
  content (info_obj w r) = Some c ->
  needs_reload env w c = true ->
  reload_answer env w c = inr GofileAPIContentNotFoundError ->
  exists w',
    GofilePathInfo_exists env r w = Ok false w'
    /\ GofilePathInfo_is_dir env r w = Ok false w'
    /\ GofilePathInfo_is_file env r w = Ok false w'
    /\ content (info_obj w' r) = None
    /\ reload_calls w' = reload_calls w ++ [c].
Proof.
  intros Hfs Hc Hs Hr.
  pose proof (queries_after_refresh env r w fs Hfs) as [H _].
  rewrite Hc, (ensure_updated_stale env w c Hs) in H. simpl in H.
  rewrite Hr in H. simpl in H. destruct H as (H1 & H2 & H3 & H4).
  eexists. split; [exact H1|]. split; [exact H2|]. split; [exact H3|].
  split; [exact H4|reflexivity].
Qed.

Lemma queries_after_an_eviction_witness :
  info_fs_client (info_obj ex_world_ready 0) = Some ex_client
  /\ content (info_obj ex_world_ready 0) = Some ex_root
  /\ needs_reload ex_env_gone ex_world_ready ex_root = true
  /\ reload_answer ex_env_gone ex_world_ready ex_root = inr GofileAPIContentNotFoundError
  /\ exists w',
       GofilePathInfo_exists ex_env_gone 0 ex_world_ready = Ok false w'
       /\ GofilePathInfo_is_dir ex_env_gone 0 ex_world_ready = Ok false w'
       /\ GofilePathInfo_is_file ex_env_gone 0 ex_world_ready = Ok false w'
       /\ content (info_obj w' 0) = None
       /\ reload_calls w' = reload_calls ex_world_ready ++ [ex_root].
Proof.
  split; [reflexivity|]. split; [reflexivity|]. split; [reflexivity|].
  split; [reflexivity|].
  apply (queries_after_an_eviction ex_env_gone 0 ex_world_ready ex_client ex_root);
    reflexivity.
Defined.

(** X23. [_get_children] returns all the children of the folder, each
    as often as the folder holds it, in the order of its comment:
    folders before files, then by name, then by creation time. *)
Theorem get_children_sorts_all_children (env : Env) (self : GofileFSClient) (f : nat)
    (w w1 : World) (chn : list GofileContent) :
  _get_children env self {["folder" := Some (GofileFolder f)]} w = Ok chn w1 ->
  Permutation chn (children (store w1) (GofileFolder f))
  /\ forall (i j : nat) (a b : GofileContent),
       chn !! i = Some a -> chn !! j = Some b -> (i < j)%nat ->
       (is_file_type a = true -> is_file_type b = true)
       /\ (is_file_type a = is_file_type b ->
           String.leb (name (store w1) a) (name (store w1) b) = true)
       /\ (is_file_type a = is_file_type b ->
           name (store w1) a = name (store w1) b ->
           time_created (store w1) a <= time_created (store w1) b).
Proof.
  rewrite _get_children_run. simpl.
  destruct (ensure_updated env (Some (GofileFolder f)) w) as [c' w'|e w'];
    [|discriminate].
  intros [= <- <-]. split; [apply sorted_perm|].
  intros i j a b Hi Hj Hlt.
  pose proof (StronglySorted_lookup _ _ i j a b
                (sorted_children_StronglySorted (store w') _) Hi Hj Hlt) as Hle.
  unfold children_le, key3_le, child_key3 in Hle. simpl in Hle.
  unfold String.leb.
  destruct (is_file_type a), (is_file_type b); simpl in Hle; try discriminate;
    (split; [auto|]); try (split; discriminate);
    destruct (String.compare (name (store w') a) (name (store w') b)) eqn:Hcmp;
    try discriminate; split; try reflexivity; try (intros _; reflexivity);
    intros _ Hnm; try lia;
    rewrite Hnm, string_compare_refl in Hcmp; discriminate.
Qed.

Lemma get_children_sorts_all_children_witness :
  _get_children ex_env ex_client {["folder" := Some (GofileFolder 0)]} ex_world
  = Ok [GofileFolder 1; GofileFolder 4; GofileFile 2; GofileFile 3]
       (world_of (_get_children ex_env ex_client {["folder" := Some (GofileFolder 0)]}
                    ex_world))
  /\ Permutation [GofileFolder 1; GofileFolder 4; GofileFile 2; GofileFile 3]
       (children ex_store (GofileFolder 0)).
Proof.
  assert (H : _get_children ex_env ex_client {["folder" := Some (GofileFolder 0)]} ex_world
              = Ok [GofileFolder 1; GofileFolder 4; GofileFile 2; GofileFile 3]
                   (world_of (_get_children ex_env ex_client
                                {["folder" := Some (GofileFolder 0)]} ex_world)))
    by (vm_compute; reflexivity).
  split; [exact H|].
  exact (proj1 (get_children_sorts_all_children ex_env ex_client 0 ex_world _ _ H)).
Defined.

Lemma GofilePath_resolve_idempotent_witness :
  head (PyStr.split posixpath.sepc (posixpath.normpath (str (ex_path ["a"; "../b/./c"])))) <> Some ".."
  /\ exists p1 w1 p2 w2,
       GofilePath_resolve (ex_path ["a"; "../b/./c"]) ex_world = Ok p1 w1
       /\ GofilePath_resolve p1 w1 = Ok p2 w2
       /\ str p2 = str p1.
Proof.
  assert (H : head (PyStr.split posixpath.sepc (posixpath.normpath (str (ex_path ["a"; "../b/./c"]))))
              <> Some "..") by (vm_compute; discriminate).
  split; [exact H|].
  apply (GofilePath_resolve_idempotent (ex_path ["a"; "../b/./c"]) ex_world H).
Defined.
